(** * Review analyzer (MainGui.py) and feedback viewer (DatabaseTest.py)

    A shallow embedding of the two programs of the repository.

    - [Py]: the Python values the programs handle (what [json.loads] and
      [sqlite3] rows are made of), the few dynamic operations the code applies
      to them, [collections.Counter], exceptions.
    - [Sqlite]: the file named [feedback.db] as [sqlite3] sees it.
    - [MainGui]: [ReviewAnalyzerApp], the worker ([run_analysis] and the
      functions it calls) in a state-and-exception monad over the worker's
      world, and the Tk side ([populate_gui], [draw_word_cloud], ...) over the
      widget state.
    - [DatabaseTest]: [load_feedback].
    - [Spec]: the vocabulary of the specification over those definitions
      (analysis outcome, aggregation, what a trace and a window show).
    - [Cases]: stub services and stores, and the properties of the
      specification that the code does not have, as it words them.
    - [Observations]: the events of the loop one by one, the bars and the
      headers a window shows, the state of the viewer.

    The theorems follow the definitions, by property of the specification
    (C1 to C10), then further properties of the pipeline and of the viewer
    (X1 to X17). *)

From Stdlib Require Import List String Ascii ZArith Arith Bool Lia DecimalString.
Import ListNotations.
Open Scope string_scope.

(* ===================================================================== *)
(** ** Python values and exceptions *)
(* ===================================================================== *)

Module Py.

(** The values of the run: [None], [bool], [int], [str], [list], [dict].
    A [dict] keeps its items in insertion order, its keys are strings (it comes
    from [json.loads]) and pairwise distinct.  A [float] is outside the model:
    nothing in the programs computes with one. *)
#[warnings="-register-all"]
Inductive value : Type :=
| VNone
| VBool (b : bool)
| VInt (n : Z)
| VStr (s : string)
| VList (items : list value)
| VDict (items : list (string * value)).

(** Exceptions by class; [sqlite3.OperationalError] is a [sqlite3.Error], and
    every class here is an [Exception]. *)
Inductive exn_class :=
| OperationalError
| DatabaseError
| ServiceError
| JSONDecodeError
| AttributeError
| TypeError
| KeyError
| ValueError.

Record exn := mk_exn { exn_cls : exn_class; exn_msg : string }.

Inductive result (A : Type) : Type :=
| Ok (a : A)
| Raise (e : exn).
Arguments Ok {A} a.
Arguments Raise {A} e.

Definition is_ok {A} (r : result A) : bool :=
  match r with Ok _ => true | Raise _ => false end.

(** [isinstance(e, sqlite3.OperationalError)] *)
Definition is_operational (e : exn) : bool :=
  match exn_cls e with OperationalError => true | _ => false end.

(** [isinstance(e, sqlite3.Error)] *)
Definition is_sqlite_error (e : exn) : bool :=
  match exn_cls e with OperationalError | DatabaseError => true | _ => false end.

(** [type(v).__name__] *)
Definition type_name (v : value) : string :=
  match v with
  | VNone => "NoneType"
  | VBool _ => "bool"
  | VInt _ => "int"
  | VStr _ => "str"
  | VList _ => "list"
  | VDict _ => "dict"
  end.

(** [bool(v)], the test of [if v:] *)
Definition truthy (v : value) : bool :=
  match v with
  | VNone => false
  | VBool b => b
  | VInt n => negb (Z.eqb n 0)
  | VStr s => negb (String.eqb s EmptyString)
  | VList l => match l with [] => false | _ => true end
  | VDict d => match d with [] => false | _ => true end
  end.

Fixpoint lookup (key : string) (items : list (string * value)) : option value :=
  match items with
  | [] => None
  | (k, v) :: rest => if String.eqb k key then Some v else lookup key rest
  end.

(** [v.get(key, default)] *)
Definition get (v : value) (key : string) (default : value) : result value :=
  match v with
  | VDict d => Ok (match lookup key d with Some x => x | None => default end)
  | _ => Raise (mk_exn AttributeError
                  ("'" ++ type_name v ++ "' object has no attribute 'get'"))
  end.

(** [v[key]] for a string [key] *)
Definition getitem (v : value) (key : string) : result value :=
  match v with
  | VDict d =>
      match lookup key d with
      | Some x => Ok x
      | None => Raise (mk_exn KeyError ("'" ++ key ++ "'"))
      end
  | VList _ =>
      Raise (mk_exn TypeError "list indices must be integers or slices, not str")
  | VStr _ =>
      Raise (mk_exn TypeError "string indices must be integers, not 'str'")
  | _ =>
      Raise (mk_exn TypeError ("'" ++ type_name v ++ "' object is not subscriptable"))
  end.

Fixpoint chars (s : string) : list value :=
  match s with
  | EmptyString => []
  | String c rest => VStr (String c EmptyString) :: chars rest
  end.

(** [iter(v)], as [list.extend(v)] consumes it: a list gives its items, a
    string its characters, a dict its keys. *)
Definition iterate (v : value) : result (list value) :=
  match v with
  | VList l => Ok l
  | VStr s => Ok (chars s)
  | VDict d => Ok (map (fun kv => VStr (fst kv)) d)
  | _ => Raise (mk_exn TypeError ("'" ++ type_name v ++ "' object is not iterable"))
  end.

(** [v == s] for a string literal [s] *)
Definition eq_str (v : value) (s : string) : bool :=
  match v with
  | VStr t => String.eqb t s
  | _ => false
  end.

(** What a dict compares keys by: [True == 1] and [False == 0]; a list or a
    dict has no hash. *)
Inductive hkey :=
| HNone
| HInt (n : Z)
| HStr (s : string).

Definition hash_key (v : value) : result hkey :=
  match v with
  | VNone => Ok HNone
  | VBool b => Ok (HInt (if b then 1 else 0))
  | VInt n => Ok (HInt n)
  | VStr s => Ok (HStr s)
  | VList _ => Raise (mk_exn TypeError "unhashable type: 'list'")
  | VDict _ => Raise (mk_exn TypeError "unhashable type: 'dict'")
  end.

Definition hkey_eqb (a b : hkey) : bool :=
  match a, b with
  | HNone, HNone => true
  | HInt x, HInt y => Z.eqb x y
  | HStr x, HStr y => String.eqb x y
  | _, _ => false
  end.

(** [collections.Counter]: a dict from keys to counts, in insertion order; an
    entry keeps the key object that created it. *)
Definition counter := list (value * hkey * nat).

Fixpoint counter_incr (k : value) (h : hkey) (c : counter) : counter :=
  match c with
  | [] => [(k, h, 1)]
  | (k', h', n) :: rest =>
      if hkey_eqb h h' then (k', h', S n) :: rest
      else (k', h', n) :: counter_incr k h rest
  end.

(** [Counter.update(iterable)]: [self[elem] = self.get(elem, 0) + 1] per
    element; hashing an unhashable element raises. *)
Fixpoint counter_update (c : counter) (xs : list value) : result counter :=
  match xs with
  | [] => Ok c
  | x :: rest =>
      match hash_key x with
      | Ok h => counter_update (counter_incr x h c) rest
      | Raise e => Raise e
      end
  end.

(** [Counter(iterable)] *)
Definition Counter (xs : list value) : result counter := counter_update [] xs.

Definition keys (c : counter) : list value := map (fun e => fst (fst e)) c.
Definition values (c : counter) : list nat := map snd c.
Definition items (c : counter) : list (value * nat) :=
  map (fun e => (fst (fst e), snd e)) c.

(** [sum(c.values())] *)
Definition total (c : counter) : nat := fold_right Nat.add 0 (values c).

(** [c[k]] of a Counter: the count, 0 for a missing key *)
Fixpoint count_of (h : hkey) (c : counter) : nat :=
  match c with
  | [] => 0
  | (_, h', n) :: rest => if hkey_eqb h h' then n else count_of h rest
  end.

(** [Counter.most_common(n)] is [heapq.nlargest(n, items, key=count)], that is
    [sorted(items, key=count, reverse=True)[:n]]: by count, largest first,
    equal counts in insertion order. *)
Fixpoint insert_by_count (x : value * nat) (l : list (value * nat))
  : list (value * nat) :=
  match l with
  | [] => [x]
  | y :: rest =>
      if Nat.ltb (snd x) (snd y) then y :: insert_by_count x rest
      else x :: y :: rest
  end.

Definition sorted_by_count (l : list (value * nat)) : list (value * nat) :=
  fold_right insert_by_count [] l.

Definition most_common (n : nat) (c : counter) : list (value * nat) :=
  firstn n (sorted_by_count (items c)).

(** [str(n)] of a non-negative int, as an f-string prints it *)
Definition str_nat (n : nat) : string := NilEmpty.string_of_uint (Nat.to_uint n).

(** The newline of the source's [\n]. *)
Definition nl : string := String (ascii_of_nat 10) EmptyString.

End Py.

(* ===================================================================== *)
(** ** State and exceptions *)
(* ===================================================================== *)

Module Monad.
Import Py.

(** A computation over a state [S] that returns or raises. *)
Definition M (S A : Type) : Type := S -> result A * S.

Definition ret {S A} (a : A) : M S A := fun s => (Ok a, s).

Definition bind {S A B} (m : M S A) (k : A -> M S B) : M S B :=
  fun s =>
    match m s with
    | (Ok a, s') => k a s'
    | (Raise e, s') => (Raise e, s')
    end.

Definition raise {S A} (e : exn) : M S A := fun s => (Raise e, s).

Definition lift {S A} (r : result A) : M S A := fun s => (r, s).

Definition modify {S} (f : S -> S) : M S unit := fun s => (Ok tt, f s).

Definition gets {S A} (f : S -> A) : M S A := fun s => (Ok (f s), s).

(** [try: body / except ... as e: handler e]; a handler that does not match
    the class re-raises. *)
Definition try_except {S A} (body : M S A) (handler : exn -> M S A) : M S A :=
  fun s =>
    match body s with
    | (Ok a, s') => (Ok a, s')
    | (Raise e, s') => handler e s'
    end.

(** [try: body / finally: fin]: [fin] runs on every exit of [body], a
    [return] included; the outcome is that of [body] unless [fin] raises. *)
Definition finally {S A} (body : M S A) (fin : M S unit) : M S A :=
  fun s =>
    let (r, s1) := body s in
    match fin s1 with
    | (Ok _, s2) => (r, s2)
    | (Raise e, s2) => (Raise e, s2)
    end.

Declare Scope py_scope.
Delimit Scope py_scope with py.
Notation "x <- m ;; k" := (bind m (fun x => k))
  (at level 61, m at next level, right associativity) : py_scope.
Notation "m ;; k" := (bind m (fun _ => k))
  (at level 61, right associativity) : py_scope.

End Monad.

(* ===================================================================== *)
(** ** The store, as sqlite3 sees it *)
(* ===================================================================== *)

Module Sqlite.
Import Py Monad.

Record table := mk_table { columns : list string; rows : list (list value) }.

(** What is at the path [feedback.db]. *)
Inductive store :=
| NoFile (creatable : bool)   (* nothing there; sqlite3 creates the file on connect when it can *)
| Unopenable                  (* something there that cannot be opened *)
| NotADatabase                (* a file that is not an SQLite database *)
| Database (tables : list (string * table)).

(** The file and the connections open on it. *)
Record db := mk_db { file : store; open_connections : nat }.

(** [os.path.exists] *)
Definition path_exists (st : store) : bool :=
  match st with
  | NoFile _ => false
  | _ => true
  end.

(** [sqlite3.connect]: a missing file is created empty; a file that is not a
    database is only detected by the first statement. *)
Definition connect : M db unit :=
  fun d =>
    match file d with
    | NoFile true => (Ok tt, mk_db (Database []) (S (open_connections d)))
    | NoFile false | Unopenable =>
        (Raise (mk_exn OperationalError "unable to open database file"), d)
    | NotADatabase | Database _ => (Ok tt, mk_db (file d) (S (open_connections d)))
    end.

(** [conn.close()] *)
Definition close : M db unit :=
  modify (fun d => mk_db (file d) (pred (open_connections d))).

(** SQLite compares the names of tables and columns without regard to the
    case of the ASCII letters. *)
Definition fold_ascii (c : ascii) : ascii :=
  let n := nat_of_ascii c in
  if andb (Nat.leb 65 n) (Nat.leb n 90) then ascii_of_nat (n + 32) else c.

Fixpoint fold_case (s : string) : string :=
  match s with
  | EmptyString => EmptyString
  | String c rest => String (fold_ascii c) (fold_case rest)
  end.

Definition same_name (a b : string) : bool :=
  String.eqb (fold_case a) (fold_case b).

Fixpoint find_table (name : string) (tables : list (string * table)) : option table :=
  match tables with
  | [] => None
  | (n, t) :: rest => if same_name n name then Some t else find_table name rest
  end.

Fixpoint index_of (c : string) (cols : list string) : option nat :=
  match cols with
  | [] => None
  | c' :: rest =>
      if same_name c' c then Some 0
      else match index_of c rest with Some i => Some (S i) | None => None end
  end.

Fixpoint resolve (wanted : list string) (cols : list string) : result (list nat) :=
  match wanted with
  | [] => Ok []
  | c :: rest =>
      match index_of c cols with
      | None => Raise (mk_exn OperationalError ("no such column: " ++ c))
      | Some i =>
          match resolve rest cols with
          | Ok idxs => Ok (i :: idxs)
          | Raise e => Raise e
          end
      end
  end.

(** [cursor.execute("SELECT <wanted> FROM <name>")] followed by
    [cursor.fetchall()]: a list of tuples, one per row, in the table's order. *)
Definition select (wanted : list string) (name : string) : M db (list (list value)) :=
  fun d =>
    match file d with
    | NotADatabase => (Raise (mk_exn DatabaseError "file is not a database"), d)
    | NoFile _ | Unopenable =>
        (Raise (mk_exn OperationalError "unable to open database file"), d)
    | Database tables =>
        match find_table name tables with
        | None => (Raise (mk_exn OperationalError ("no such table: " ++ name)), d)
        | Some t =>
            match resolve wanted (columns t) with
            | Raise e => (Raise e, d)
            | Ok idxs => (Ok (map (fun row => map (fun i => nth i row VNone) idxs) (rows t)), d)
            end
        end
    end.

End Sqlite.

(* ===================================================================== *)
(** ** MainGui.py: ReviewAnalyzerApp *)
(* ===================================================================== *)

Module MainGui.
Import Py Monad.
Local Open Scope py_scope.

(** *** What crosses the program's boundary *)

(** The prompt of [create_summary_prompt]: fixed text around three printed
    values, kept as values. *)
Record summary_prompt := mk_prompt {
  distribution : list (value * nat);     (* dict(sentiment_counts) *)
  top_positive : list (value * nat);     (* Counter(pos_aspects).most_common(10) *)
  top_negative : list (value * nat)      (* Counter(neg_aspects).most_common(10) *)
}.

(** The two shapes of [client.chat.completions.create]; model, system text and
    response format are constants of the source. *)
Inductive request :=
| Extraction (review_text : value)
| Generation (prompt : summary_prompt).

(** What [create(...)] and the read of [response.choices[0].message.content]
    give: the content, or an exception with its text. *)
Inductive reply :=
| Content (text : string)
| Failure (msg : string).

(** The external service, by request number within the run, and [json.loads]. *)
Record service := mk_service {
  respond : nat -> request -> reply;
  json_loads : string -> result value
}.

(** What the worker hands to the Tk thread with [root.after(0, ...)]. *)
Inductive callback :=
| SetStatus (message : string)
| EnableButton
| PopulateGui (summary : string) (sentiment_counts : counter)
              (pos_words neg_words : list value)
              (all_results : list (value * value)).

(** What the worker does that is visible outside it, in order. *)
Inductive event :=
| After (cb : callback)       (* root.after(0, cb) *)
| Create (r : request)        (* client.chat.completions.create *)
| Print (line : string).      (* print *)

Record world := mk_world {
  w_db : Sqlite.db;
  w_requests : nat;
  w_trace : list event
}.

Definition emit (e : event) : M world unit :=
  modify (fun w => mk_world (w_db w) (w_requests w) (w_trace w ++ [e])%list).

Definition on_db {A} (m : M Sqlite.db A) : M world A :=
  fun w =>
    let (r, d) := m (w_db w) in
    (r, mk_world d (w_requests w) (w_trace w)).

(** The accumulators of the loop of [run_analysis]. *)
Record accumulators := mk_acc {
  all_results : list (value * value);
  all_sentiments : list value;
  all_aspects : list value
}.

Definition button_label : string := "Analyze All Customer Reviews".

(** [[a['feature'] for a in all_aspects if a['sentiment'] == sentiment]] *)
Fixpoint features_with (sentiment : string) (aspects : list value)
  : result (list value) :=
  match aspects with
  | [] => Ok []
  | a :: rest =>
      match getitem a "sentiment" with
      | Raise e => Raise e
      | Ok s =>
          if eq_str s sentiment then
            match getitem a "feature" with
            | Raise e => Raise e
            | Ok f =>
                match features_with sentiment rest with
                | Ok fs => Ok (f :: fs)
                | Raise e => Raise e
                end
            end
          else features_with sentiment rest
      end
  end.

(** [create_summary_prompt] *)
Definition create_summary_prompt (sentiment_counts : counter)
    (pos_aspects neg_aspects : list value) : result summary_prompt :=
  match Counter pos_aspects with
  | Raise e => Raise e
  | Ok pc =>
      match Counter neg_aspects with
      | Raise e => Raise e
      | Ok nc =>
          Ok (mk_prompt (items sentiment_counts) (most_common 10 pc) (most_common 10 nc))
      end
  end.

(** Lines 139-142, the [if analysis:] block of the loop: what one analysis
    adds to the three lists. *)
Definition accumulate (review_text analysis : value) (acc : accumulators)
  : result accumulators :=
  if truthy analysis then
    let results := (all_results acc ++ [(review_text, analysis)])%list in
    match get analysis "sentiment" (VStr "neutral") with
    | Raise e => Raise e
    | Ok sentiment =>
        let sentiments := (all_sentiments acc ++ [sentiment])%list in
        match get analysis "aspects" (VList []) with
        | Raise e => Raise e
        | Ok aspects =>
            match iterate aspects with
            | Raise e => Raise e
            | Ok more => Ok (mk_acc results sentiments (all_aspects acc ++ more)%list)
            end
        end
    end
  else Ok acc.

(** Lines 147-151: the counts and the two word lists. *)
Definition process_results (acc : accumulators)
  : result (counter * list value * list value) :=
  match Counter (all_sentiments acc) with
  | Raise e => Raise e
  | Ok sentiment_counts =>
      match features_with "positive" (all_aspects acc) with
      | Raise e => Raise e
      | Ok pos_aspect_words =>
          match features_with "negative" (all_aspects acc) with
          | Raise e => Raise e
          | Ok neg_aspect_words => Ok (sentiment_counts, pos_aspect_words, neg_aspect_words)
          end
      end
  end.

Section Worker.

Variable svc : service.

(** [update_status] *)
Definition update_status (message : string) : M world unit :=
  emit (After (SetStatus message)).

(** [self.client.chat.completions.create(...)] and the read of the content *)
Definition create (r : request) : M world string :=
  fun w =>
    let w' := mk_world (w_db w) (S (w_requests w)) (w_trace w ++ [Create r])%list in
    match respond svc (w_requests w) r with
    | Content text => (Ok text, w')
    | Failure msg => (Raise (mk_exn ServiceError msg), w')
    end.

(** [analyze_single_review] *)
Definition analyze_single_review (review_text : value) : M world value :=
  try_except
    (content <- create (Extraction review_text) ;;
     result <- lift (json_loads svc content) ;;
     ret result)
    (fun e =>
       emit (Print ("Error analyzing review: " ++ exn_msg e)) ;;
       ret VNone).

(** [get_final_summary] *)
Definition get_final_summary (prompt : summary_prompt) : M world string :=
  try_except
    (create (Generation prompt))
    (fun e => ret ("Error generating final summary: " ++ exn_msg e)).

(** The body of [for i, (review_text,) in enumerate(all_reviews_text)]. *)
Definition analyze_step (n i : nat) (row : list value) (acc : accumulators)
  : M world accumulators :=
  match row with
  | [review_text] =>
      update_status ("Analyzing review " ++ str_nat (i + 1) ++ " of " ++ str_nat n ++ "...") ;;
      analysis <- analyze_single_review review_text ;;
      lift (accumulate review_text analysis acc)
  | _ =>
      raise (mk_exn ValueError "cannot unpack a row that is not a 1-tuple")
  end.

Fixpoint analyze_loop (n i : nat) (rows : list (list value)) (acc : accumulators)
  : M world accumulators :=
  match rows with
  | [] => ret acc
  | row :: rest =>
      acc' <- analyze_step n i row acc ;;
      analyze_loop n (S i) rest acc'
  end.

(** The [try] block of [run_analysis]. *)
Definition run_analysis_body : M world unit :=
  update_status "Connecting to database 'feedback.db'..." ;;
  on_db Sqlite.connect ;;
  all_reviews_text <- on_db (Sqlite.select ["review_text"] "reviews") ;;
  on_db Sqlite.close ;;
  match all_reviews_text with
  | [] =>
      update_status "Error: No reviews found in 'feedback.db'." ;;
      emit (After EnableButton) ;;
      ret tt
  | _ :: _ =>
      let n := List.length all_reviews_text in
      update_status ("Loaded " ++ str_nat n ++ " reviews.") ;;
      acc <- analyze_loop n 0 all_reviews_text (mk_acc [] [] []) ;;
      update_status "All reviews analyzed. Processing results..." ;;
      stats <- lift (process_results acc) ;;
      let '(sentiment_counts, pos_aspect_words, neg_aspect_words) := stats in
      update_status "Generating final summary and recommendations..." ;;
      summary_prompt <- lift (create_summary_prompt sentiment_counts
                                pos_aspect_words neg_aspect_words) ;;
      final_summary <- get_final_summary summary_prompt ;;
      emit (After (PopulateGui final_summary sentiment_counts
                     pos_aspect_words neg_aspect_words (all_results acc))) ;;
      update_status ("Analysis complete! Processed " ++ str_nat n ++ " reviews.")
  end.

(** The two [except] clauses of [run_analysis], in their order. *)
Definition run_analysis_handler (e : exn) : M world unit :=
  if is_operational e then
    update_status ("Database Error: " ++ exn_msg e
                   ++ ". Check 'feedback.db', table 'reviews', or column 'review_text'.")
  else
    update_status ("An unexpected error occurred: " ++ exn_msg e).

(** [run_analysis] *)
Definition run_analysis : M world unit :=
  finally
    (try_except run_analysis_body run_analysis_handler)
    (emit (After EnableButton)).

End Worker.

(** *** The Tk side *)

Inductive button_state := Normal | Disabled.

Inductive figure :=
| BarChart (labels : list value) (heights : list nat) (colors : list string)
| WordCloudImage (text title : string).

Inductive widget :=
| Label (text : string)
| FigureCanvas (fig : figure).

(** An f-string, piece by piece: literal text, and [{v}] for [str(v)]. *)
Inductive piece :=
| Lit (s : string)
| Str (v : value).

(** matplotlib and wordcloud: where [ax.bar] and [WordCloud.generate] raise. *)
Record plotlib := mk_plotlib {
  bar_error : list value -> list nat -> option exn;
  generate_error : string -> option exn
}.

(** The widgets of [__init__] that the code reads or writes.  A text widget is
    the list of its insertions, each with its tags; a frame is the list of its
    children.  The fonts of [tag_config] are layout and are left out. *)
Record gui := mk_gui {
  analyze_button : button_state * string;
  status_label : string;
  tab_summary : list string;
  tab_sentiment : list widget;
  tab_pos_aspects : list widget;
  tab_neg_aspects : list widget;
  tab_all_reviews : list (list piece * list string)
}.

Inductive frame := TabSentiment | TabPosAspects | TabNegAspects.

Definition children (t : frame) (g : gui) : list widget :=
  match t with
  | TabSentiment => tab_sentiment g
  | TabPosAspects => tab_pos_aspects g
  | TabNegAspects => tab_neg_aspects g
  end.

Definition set_children (t : frame) (ws : list widget) (g : gui) : gui :=
  match t with
  | TabSentiment =>
      mk_gui (analyze_button g) (status_label g) (tab_summary g) ws
             (tab_pos_aspects g) (tab_neg_aspects g) (tab_all_reviews g)
  | TabPosAspects =>
      mk_gui (analyze_button g) (status_label g) (tab_summary g) (tab_sentiment g)
             ws (tab_neg_aspects g) (tab_all_reviews g)
  | TabNegAspects =>
      mk_gui (analyze_button g) (status_label g) (tab_summary g) (tab_sentiment g)
             (tab_pos_aspects g) ws (tab_all_reviews g)
  end.

Definition set_button (b : button_state * string) (g : gui) : gui :=
  mk_gui b (status_label g) (tab_summary g) (tab_sentiment g)
         (tab_pos_aspects g) (tab_neg_aspects g) (tab_all_reviews g).

Definition set_status (m : string) (g : gui) : gui :=
  mk_gui (analyze_button g) m (tab_summary g) (tab_sentiment g)
         (tab_pos_aspects g) (tab_neg_aspects g) (tab_all_reviews g).

Definition set_summary (t : list string) (g : gui) : gui :=
  mk_gui (analyze_button g) (status_label g) t (tab_sentiment g)
         (tab_pos_aspects g) (tab_neg_aspects g) (tab_all_reviews g).

Definition set_all_reviews (t : list (list piece * list string)) (g : gui) : gui :=
  mk_gui (analyze_button g) (status_label g) (tab_summary g) (tab_sentiment g)
         (tab_pos_aspects g) (tab_neg_aspects g) t.

(** [self.tab_all_reviews.insert(tk.END, text, tags)] *)
Definition insert_review_text (text : list piece) (tags : list string) : M gui unit :=
  modify (fun g => set_all_reviews (tab_all_reviews g ++ [(text, tags)])%list g).

(** The window as [__init__] leaves it. *)
Definition initial_gui : gui :=
  mk_gui (Normal, button_label)
         "Ready. (Make sure feedback.db is in the same folder)"
         ["Click the 'Analyze' button to load and process reviews." ++ nl ++ nl
          ++ "Results will appear here."]
         [] [] [] [].

(** [clear_previous_results] *)
Definition clear_previous_results (g : gui) : gui :=
  let g := set_summary [] g in
  let g := set_all_reviews [] g in
  let g := set_children TabSentiment [] g in
  let g := set_children TabPosAspects [] g in
  set_children TabNegAspects [] g.

(** [start_analysis_thread], up to the start of the thread *)
Definition start_analysis_thread (g : gui) : gui :=
  clear_previous_results (set_button (Disabled, "Analyzing... Please Wait...") g).

(** [str.lower] on ASCII *)
Definition lower_ascii (c : ascii) : ascii :=
  let n := nat_of_ascii c in
  if andb (Nat.leb 65 n) (Nat.leb n 90) then ascii_of_nat (n + 32) else c.

Fixpoint lower (s : string) : string :=
  match s with
  | EmptyString => EmptyString
  | String c rest => String (lower_ascii c) (lower rest)
  end.

(** [sep.join(words)]: every item has to be a [str] *)
Fixpoint join_from (i : nat) (sep : string) (words : list value) : result string :=
  match words with
  | [] => Ok EmptyString
  | w :: rest =>
      match w with
      | VStr s =>
          match rest with
          | [] => Ok s
          | _ :: _ =>
              match join_from (S i) sep rest with
              | Ok t => Ok (s ++ sep ++ t)
              | Raise e => Raise e
              end
          end
      | _ =>
          Raise (mk_exn TypeError
                   ("sequence item " ++ str_nat i ++ ": expected str instance, "
                    ++ type_name w ++ " found"))
      end
  end.

Definition join (sep : string) (words : list value) : result string :=
  join_from 0 sep words.

Definition bar_color (l : value) : string :=
  if eq_str l "positive" then "#4CAF50"
  else if eq_str l "negative" then "#F44336"
  else "#FFC107".

Section Tk.

Variable plt : plotlib.

(** [draw_sentiment_chart] *)
Definition draw_sentiment_chart (counts : counter) : M gui unit :=
  modify (set_children TabSentiment []) ;;
  let labels := keys counts in
  let heights := values counts in
  let colors := map bar_color labels in
  match bar_error plt labels heights with
  | Some e => raise e
  | None =>
      modify (fun g => set_children TabSentiment
                (children TabSentiment g
                 ++ [FigureCanvas (BarChart labels heights colors)])%list g)
  end.

(** [draw_word_cloud] *)
Definition draw_word_cloud (tab : frame) (words_list : list value) (title : string)
  : M gui unit :=
  modify (set_children tab []) ;;
  match words_list with
  | [] =>
      modify (fun g => set_children tab
                (children tab g ++ [Label ("No " ++ lower title ++ " found.")])%list g)
  | _ :: _ =>
      text <- lift (join " " words_list) ;;
      match generate_error plt text with
      | Some e => raise e
      | None =>
          modify (fun g => set_children tab
                    (children tab g ++ [FigureCanvas (WordCloudImage text title)])%list g)
      end
  end.

(** The inner loop of [populate_gui]: one line per aspect. *)
Fixpoint insert_aspects (aspects : list value) : M gui unit :=
  match aspects with
  | [] => ret tt
  | aspect :: rest =>
      feature <- lift (get aspect "feature" VNone) ;;
      sentiment <- lift (get aspect "sentiment" VNone) ;;
      insert_review_text [Lit "  - "; Str feature; Lit ": "; Str sentiment; Lit nl] [] ;;
      insert_aspects rest
  end.

(** The loop of [populate_gui] over [enumerate(all_results)]. *)
Fixpoint insert_reviews (i : nat) (results : list (value * value)) : M gui unit :=
  match results with
  | [] => ret tt
  | (review, analysis) :: rest =>
      insert_review_text [Lit ("--- REVIEW " ++ str_nat (i + 1) ++ " ---" ++ nl)] ["h1"] ;;
      insert_review_text [Str review; Lit (nl ++ nl)] [] ;;
      sentiment <- lift (get analysis "sentiment" (VStr "N/A")) ;;
      insert_review_text [Lit "Sentiment: "; Str sentiment; Lit nl] ["bold"] ;;
      insert_review_text [Lit ("Aspects:" ++ nl)] [] ;;
      aspects <- lift (get analysis "aspects" (VList [])) ;;
      items <- lift (iterate aspects) ;;
      insert_aspects items ;;
      insert_review_text [Lit (nl ++ nl)] [] ;;
      insert_reviews (S i) rest
  end.

(** [populate_gui] *)
Definition populate_gui (summary : string) (sentiment_counts : counter)
    (pos_words neg_words : list value) (results : list (value * value)) : M gui unit :=
  modify (set_summary []) ;;
  modify (fun g => set_summary (tab_summary g ++ [summary])%list g) ;;
  draw_sentiment_chart sentiment_counts ;;
  draw_word_cloud TabPosAspects pos_words "Positive Aspects" ;;
  draw_word_cloud TabNegAspects neg_words "Negative Aspects" ;;
  modify (set_all_reviews []) ;;
  insert_reviews 0 results.

(** One callback of the Tk loop.  An exception out of a callback is reported
    by Tk and the loop goes on, with the widgets as the callback left them. *)
Definition run_callback (cb : callback) (g : gui) : gui :=
  match cb with
  | SetStatus message => set_status message g
  | EnableButton => set_button (Normal, button_label) g
  | PopulateGui summary counts pos neg results =>
      snd (populate_gui summary counts pos neg results g)
  end.

(** The Tk loop over what a run has handed over, in the order of the calls
    of [root.after]. *)
Fixpoint mainloop (events : list event) (g : gui) : gui :=
  match events with
  | [] => g
  | After cb :: rest => mainloop rest (run_callback cb g)
  | _ :: rest => mainloop rest g
  end.

End Tk.

(** One press of the button: nothing when it is disabled; otherwise
    [start_analysis_thread], the worker on a fresh thread, and the Tk loop over
    what the worker handed over. *)
Definition press_analyze (svc : service) (plt : plotlib) (g : gui) (d : Sqlite.db)
  : gui * world :=
  match fst (analyze_button g) with
  | Disabled => (g, mk_world d 0 [])
  | Normal =>
      let w := snd (run_analysis svc (mk_world d 0 [])) in
      (mainloop plt (w_trace w) (start_analysis_thread g), w)
  end.

End MainGui.

(* ===================================================================== *)
(** ** DatabaseTest.py: the feedback viewer *)
(* ===================================================================== *)

Module DatabaseTest.
Import Py Monad.
Local Open Scope py_scope.

Definition DB_NAME : string := "feedback.db".
Definition TABLE_NAME : string := "reviews".
(** [QUERY = "SELECT id, review_text FROM reviews"] *)
Definition QUERY : list string * string := (["id"; "review_text"], "reviews").

Inductive dialog :=
| ShowError (title message : string)    (* messagebox.showerror *)
| ShowInfo (title message : string).    (* messagebox.showinfo *)

(** The viewer: the file and its connections, whether the local [conn] of the
    current call of [load_feedback] is bound, the rows of the Treeview, and
    the dialogs shown so far. *)
Record state := mk_state {
  v_db : Sqlite.db;
  conn_bound : bool;
  tree : list (list value);
  dialogs : list dialog
}.

Definition on_db {A} (m : M Sqlite.db A) : M state A :=
  fun s =>
    let (r, d) := m (v_db s) in
    (r, mk_state d (conn_bound s) (tree s) (dialogs s)).

Definition show (dlg : dialog) : M state unit :=
  modify (fun s => mk_state (v_db s) (conn_bound s) (tree s) (dialogs s ++ [dlg])%list).

Definition set_tree (rows : list (list value)) : M state unit :=
  modify (fun s => mk_state (v_db s) (conn_bound s) rows (dialogs s)).

Definition bind_conn (b : bool) : M state unit :=
  modify (fun s => mk_state (v_db s) b (tree s) (dialogs s)).

(** [for row in rows: tree.insert('', tk.END, values=row)] *)
Fixpoint insert_rows (rows : list (list value)) : M state unit :=
  match rows with
  | [] => ret tt
  | row :: rest =>
      modify (fun s => mk_state (v_db s) (conn_bound s) (tree s ++ [row])%list (dialogs s)) ;;
      insert_rows rest
  end.

(** [load_feedback] *)
Definition load_feedback : M state unit :=
  bind_conn false ;;
  set_tree [] ;;
  present <- gets (fun s => Sqlite.path_exists (Sqlite.file (v_db s))) ;;
  if negb present then
    show (ShowError "Error"
            ("Database file not found: " ++ DB_NAME ++ nl
             ++ "Please place it in the same folder as the script."))
  else
    finally
      (try_except
         (on_db Sqlite.connect ;;
          bind_conn true ;;
          rows <- on_db (Sqlite.select (fst QUERY) (snd QUERY)) ;;
          match rows with
          | [] => show (ShowInfo "Info" "No data found in the table.")
          | _ :: _ => insert_rows rows
          end)
         (fun e =>
            if is_sqlite_error e then
              show (ShowError "Database Error"
                      ("An error occurred: " ++ exn_msg e ++ nl ++ nl
                       ++ "Could not read table '" ++ TABLE_NAME ++ "'."))
            else raise e))
      (bound <- gets conn_bound ;;
       if bound then on_db Sqlite.close else ret tt).

End DatabaseTest.

(* ===================================================================== *)
(** ** The vocabulary of the specification *)
(* ===================================================================== *)

Module Spec.
Import Py Monad MainGui.

(** *** Review Analyzer *)

(** The extraction request number [k] fails, or its payload does not parse. *)
Definition failing (svc : service) (k : nat) (review_text : value) : bool :=
  match respond svc k (Extraction review_text) with
  | Failure _ => true
  | Content c => negb (is_ok (json_loads svc c))
  end.

(** The text of that failure, as the log prints it. *)
Definition failure_text (svc : service) (k : nat) (review_text : value) : string :=
  match respond svc k (Extraction review_text) with
  | Failure msg => msg
  | Content c =>
      match json_loads svc c with
      | Raise e => exn_msg e
      | Ok _ => EmptyString
      end
  end.

(** The analysis of a review sent as request number [k]: the parsed payload,
    absent ([None]) on failure. *)
Definition analysis_outcome (svc : service) (k : nat) (review_text : value) : value :=
  match respond svc k (Extraction review_text) with
  | Failure _ => VNone
  | Content c =>
      match json_loads svc c with
      | Ok v => v
      | Raise _ => VNone
      end
  end.

Definition absent (analysis : value) : bool :=
  match analysis with
  | VNone => true
  | _ => false
  end.

(** An analysis succeeded when the analyzer returned something. *)
Definition succeeded (analysis : value) : bool := negb (absent analysis).

(** The reviews of the rows of Data Access with their analyses, request
    numbers from [k] on. *)
Fixpoint reviewed (svc : service) (k : nat) (rows : list (list value))
  : list (value * value) :=
  match rows with
  | [] => []
  | row :: rest =>
      let review_text := hd VNone row in
      (review_text, analysis_outcome svc k review_text) :: reviewed svc (S k) rest
  end.

Definition count {A} (p : A -> bool) (l : list A) : nat := List.length (filter p l).

(** Data Access of the pipeline: connecting and reading give [rows]. *)
Definition loads (d : Sqlite.db) (rows : list (list value)) : Prop :=
  exists d1,
    Sqlite.connect d = (Ok tt, d1) /\
    Sqlite.select ["review_text"] "reviews" d1 = (Ok rows, d1).

(** *** Aggregator *)

(** The loop's three lists over a sequence of (review, analysis). *)
Fixpoint accumulate_all (results : list (value * value)) (acc : accumulators)
  : result accumulators :=
  match results with
  | [] => Ok acc
  | (review_text, analysis) :: rest =>
      match accumulate review_text analysis acc with
      | Ok acc' => accumulate_all rest acc'
      | Raise e => Raise e
      end
  end.

(** The aggregation step of [run_analysis]: lines 139-142 over the sequence,
    then lines 147-151. *)
Definition aggregate (results : list (value * value))
  : result (counter * list value * list value) :=
  match accumulate_all results (mk_acc [] [] []) with
  | Ok acc => process_results acc
  | Raise e => Raise e
  end.

(** The top-level sentiment of an analysis, "neutral" when the field is
    missing. *)
Definition sentiment_of (analysis : value) : value :=
  match analysis with
  | VDict d =>
      match lookup "sentiment" d with
      | Some s => s
      | None => VStr "neutral"
      end
  | _ => VStr "neutral"
  end.

(** The aspects of an analysis, none when the field is missing. *)
Definition aspects_of (analysis : value) : list value :=
  match analysis with
  | VDict d =>
      match lookup "aspects" d with
      | Some (VList l) => l
      | _ => []
      end
  | _ => []
  end.

Definition has_sentiment (s : string) (aspect : value) : bool :=
  match aspect with
  | VDict d =>
      match lookup "sentiment" d with
      | Some v => eq_str v s
      | None => false
      end
  | _ => false
  end.

Definition feature_of (aspect : value) : value :=
  match aspect with
  | VDict d =>
      match lookup "feature" d with
      | Some f => f
      | None => VNone
      end
  | _ => VNone
  end.

(** [v] is counted under the key [h]. *)
Definition counted_under (h : hkey) (v : value) : bool :=
  match hash_key v with
  | Ok h' => hkey_eqb h h'
  | Raise _ => false
  end.

Definition hashable (v : value) : bool := is_ok (hash_key v).

(** The shape of an aspect the word lists can be built from and the summary
    prompt can count: a dict with a sentiment, and with a hashable feature
    when that sentiment is positive or negative. *)
Definition well_formed_aspect (aspect : value) : bool :=
  match aspect with
  | VDict d =>
      match lookup "sentiment" d with
      | Some s =>
          if orb (eq_str s "positive") (eq_str s "negative") then
            match lookup "feature" d with
            | Some f => hashable f
            | None => false
            end
          else true
      | None => false
      end
  | _ => false
  end.

(** The shape of an analysis the aggregation accepts: nothing at all (absent
    or empty), or a dict whose sentiment can be counted and whose aspects, if
    any, are a list of well-formed aspects. *)
Definition well_formed_analysis (analysis : value) : bool :=
  if truthy analysis then
    match analysis with
    | VDict d =>
        andb (hashable (sentiment_of analysis))
             match lookup "aspects" d with
             | None => true
             | Some (VList l) => forallb well_formed_aspect l
             | Some _ => false
             end
    | _ => false
    end
  else true.

(** *** What a run shows *)

Fixpoint requests (trace : list event) : list request :=
  match trace with
  | [] => []
  | Create r :: rest => r :: requests rest
  | _ :: rest => requests rest
  end.

Fixpoint statuses (trace : list event) : list string :=
  match trace with
  | [] => []
  | After (SetStatus m) :: rest => m :: statuses rest
  | _ :: rest => statuses rest
  end.

(** How many times the run schedules the re-enabling of the button. *)
Fixpoint enables (trace : list event) : nat :=
  match trace with
  | [] => 0
  | After EnableButton :: rest => S (enables rest)
  | _ :: rest => enables rest
  end.

(** The results handed to the presentation step, if any. *)
Fixpoint handed_over (trace : list event) : option callback :=
  match trace with
  | [] => None
  | After (PopulateGui s c p n r) :: _ => Some (PopulateGui s c p n r)
  | _ :: rest => handed_over rest
  end.

(** The events of the analysis loop: status, extraction request, log line. *)
Definition loop_event (e : event) : bool :=
  match e with
  | After (SetStatus _) => true
  | Create (Extraction _) => true
  | Print _ => true
  | _ => false
  end.

Fixpoint contains (needle hay : string) : bool :=
  match hay with
  | EmptyString => String.prefix needle EmptyString
  | String _ rest => orb (String.prefix needle hay) (contains needle rest)
  end.

(** A notice worded as an error. *)
Definition says_error (message : string) : bool := String.prefix "Error:" message.

(** The diagnostics of the Failed state: the two [except] clauses. *)
Definition failed_diagnostic (message : string) : bool :=
  orb (String.prefix "Database Error: " message)
      (String.prefix "An unexpected error occurred: " message).

(** The summary text for a prompt sent as request number [k]. *)
Definition summary_text (svc : service) (k : nat) (prompt : summary_prompt) : string :=
  match respond svc k (Generation prompt) with
  | Content text => text
  | Failure msg => "Error generating final summary: " ++ msg
  end.

(** *** The raw listing *)

Definition shown_review (ins : list piece * list string) : list value :=
  match ins with
  | ([Str review; Lit _], []) => [review]
  | _ => []
  end.

Definition shown_sentiment (ins : list piece * list string) : list value :=
  match ins with
  | ([Lit _; Str s; Lit _], ["bold"]) => [s]
  | _ => []
  end.

Definition shown_aspect (ins : list piece * list string) : list (value * value) :=
  match ins with
  | ([Lit _; Str f; Lit _; Str s; Lit _], []) => [(f, s)]
  | _ => []
  end.

(** The reviews the region lists, top to bottom; their sentiments; the
    (feature, sentiment) lines of their aspects. *)
Definition shown_reviews (g : gui) : list value :=
  flat_map shown_review (tab_all_reviews g).
Definition shown_sentiments (g : gui) : list value :=
  flat_map shown_sentiment (tab_all_reviews g).
Definition shown_aspects (g : gui) : list (value * value) :=
  flat_map shown_aspect (tab_all_reviews g).

(** The sentiment the listing prints, [N/A] when the field is missing. *)
Definition listed_sentiment (analysis : value) : value :=
  match analysis with
  | VDict d =>
      match lookup "sentiment" d with
      | Some s => s
      | None => VStr "N/A"
      end
  | _ => VStr "N/A"
  end.

Definition listed_aspect (aspect : value) : value * value :=
  match aspect with
  | VDict d =>
      (match lookup "feature" d with Some f => f | None => VNone end,
       match lookup "sentiment" d with Some s => s | None => VNone end)
  | _ => (VNone, VNone)
  end.

(** What one pass of the loop emits for a review sent as request [k]. *)
Definition step_events (svc : service) (n i k : nat) (review_text : value) : list event :=
  After (SetStatus ("Analyzing review " ++ str_nat (i + 1) ++ " of " ++ str_nat n ++ "..."))
  :: Create (Extraction review_text)
  :: (if failing svc k review_text
      then [Print ("Error analyzing review: " ++ failure_text svc k review_text)]
      else []).

(** A row of one column, as [(review_text,)] unpacks it. *)
Definition one_tuple (row : list value) : bool :=
  match row with
  | [_] => true
  | _ => false
  end.

Definition is_dict (v : value) : bool :=
  match v with
  | VDict _ => true
  | _ => false
  end.

(** The reviews the aggregation counts: those whose analysis passes the test
    of [if analysis:]. *)
Definition counted (results : list (value * value)) : list (value * value) :=
  filter (fun ra => truthy (snd ra)) results.

(** The status line of the [except] clause that catches [e]. *)
Definition diagnostic (e : exn) : string :=
  if is_operational e then
    "Database Error: " ++ exn_msg e
    ++ ". Check 'feedback.db', table 'reviews', or column 'review_text'."
  else "An unexpected error occurred: " ++ exn_msg e.

(** What a run over the non-empty [rows] emits once the loop is over, up to
    the [finally] clause. *)
Definition after_loop (svc : service) (rows : list (list value)) : list event :=
  match accumulate_all (reviewed svc 0 rows) (mk_acc [] [] []) with
  | Raise e => [After (SetStatus (diagnostic e))]
  | Ok acc =>
      After (SetStatus "All reviews analyzed. Processing results...")
      :: match process_results acc with
         | Raise e => [After (SetStatus (diagnostic e))]
         | Ok (sentiment_counts, pos_words, neg_words) =>
             After (SetStatus "Generating final summary and recommendations...")
             :: match create_summary_prompt sentiment_counts pos_words neg_words with
                | Raise e => [After (SetStatus (diagnostic e))]
                | Ok prompt =>
                    [Create (Generation prompt);
                     After (PopulateGui (summary_text svc (List.length rows) prompt)
                              sentiment_counts pos_words neg_words (all_results acc));
                     After (SetStatus ("Analysis complete! Processed "
                                       ++ str_nat (List.length rows) ++ " reviews."))]
                end
         end
  end.

(** The trace of a run of the worker started on the store [d]. *)
Definition run_trace (svc : service) (d : Sqlite.db) : list event :=
  w_trace (snd (run_analysis svc (mk_world d 0 []))).

(** The results a run over the non-empty [rows] hands to the presentation
    step, if it gets there. *)
Definition presentation (svc : service) (rows : list (list value)) : option callback :=
  match accumulate_all (reviewed svc 0 rows) (mk_acc [] [] []) with
  | Raise _ => None
  | Ok acc =>
      match process_results acc with
      | Raise _ => None
      | Ok (sentiment_counts, pos_words, neg_words) =>
          match create_summary_prompt sentiment_counts pos_words neg_words with
          | Raise _ => None
          | Ok prompt =>
              Some (PopulateGui (summary_text svc (List.length rows) prompt)
                      sentiment_counts pos_words neg_words (all_results acc))
          end
      end
  end.

(** The first status of every run. *)
Definition connecting : event :=
  After (SetStatus "Connecting to database 'feedback.db'...").

(** Data Access of the viewer: connecting and reading give [rows]. *)
Definition viewer_loads (d : Sqlite.db) (rows : list (list value)) : Prop :=
  Sqlite.path_exists (Sqlite.file d) = true /\
  exists d1,
    Sqlite.connect d = (Ok tt, d1) /\
    Sqlite.select (fst DatabaseTest.QUERY) (snd DatabaseTest.QUERY) d1 = (Ok rows, d1).

(** The viewer started on the store [d], with an empty grid. *)
Definition viewer_run (d : Sqlite.db) : DatabaseTest.state :=
  snd (DatabaseTest.load_feedback (DatabaseTest.mk_state d false [] [])).

(** The window after a press of the button on the store [d]: the callbacks of
    the run applied, in order, to the window as [start_analysis_thread] left
    it. *)
Definition window_after (svc : service) (plt : plotlib) (g : gui) (d : Sqlite.db) : gui :=
  mainloop plt (run_trace svc d) (start_analysis_thread g).

(** The line of the listing for an aspect. *)
Definition aspect_line (aspect : value) : list piece * list string :=
  ([Lit "  - "; Str (fst (listed_aspect aspect)); Lit ": ";
    Str (snd (listed_aspect aspect)); Lit nl], []).

(** The insertions of the listing for the review number [i] (from 0). *)
Definition review_block (i : nat) (ra : value * value) : list (list piece * list string) :=
  ([Lit ("--- REVIEW " ++ str_nat (i + 1) ++ " ---" ++ nl)], ["h1"])
  :: ([Str (fst ra); Lit (nl ++ nl)], [])
  :: ([Lit "Sentiment: "; Str (listed_sentiment (snd ra)); Lit nl], ["bold"])
  :: ([Lit ("Aspects:" ++ nl)], [])
  :: (map aspect_line (aspects_of (snd ra)) ++ [([Lit (nl ++ nl)], [])])%list.

Fixpoint listing (i : nat) (results : list (value * value))
  : list (list piece * list string) :=
  match results with
  | [] => []
  | ra :: rest => (review_block i ra ++ listing (S i) rest)%list
  end.

(** An analysis the listing can print: a dict whose aspects, if any, iterate
    to dicts. *)
Definition listable (analysis : value) : bool :=
  match analysis with
  | VDict d =>
      match lookup "aspects" d with
      | None => true
      | Some v =>
          match iterate v with
          | Ok more => forallb is_dict more
          | Raise _ => false
          end
      end
  | _ => false
  end.

(** The word cloud of [words] can be drawn (an empty list needs none). *)
Definition cloud_drawn (plt : plotlib) (words : list value) : bool :=
  match words with
  | [] => true
  | _ :: _ =>
      match join " " words with
      | Ok text =>
          match generate_error plt text with
          | None => true
          | Some _ => false
          end
      | Raise _ => false
      end
  end.

(** The chart and the two word clouds can be drawn. *)
Definition draws (plt : plotlib) (counts : counter) (pos neg : list value) : bool :=
  andb (match bar_error plt (keys counts) (values counts) with
        | None => true
        | Some _ => false
        end)
       (andb (cloud_drawn plt pos) (cloud_drawn plt neg)).

(** A computation of the worker that leaves the store and its connections
    as they were. *)
Definition keeps_db {A} (m : M world A) : Prop :=
  forall w, w_db (snd (m w)) = w_db w.

End Spec.

(* ===================================================================== *)
(** ** Example inputs and the claims as the specification words them *)
(* ===================================================================== *)

Module Cases.
Import Py Monad MainGui Spec.

(** A double quote, and a JSON string literal. *)
Definition dq : string := String (ascii_of_nat 34) EmptyString.
Definition quoted (s : string) : string := dq ++ s ++ dq.

(** Payloads of the stub service. *)
Definition payload_empty : string := "{}".
Definition payload_positive : string :=
  "{" ++ quoted "sentiment" ++ ": " ++ quoted "positive" ++ ", "
  ++ quoted "aspects" ++ ": []}".
Definition payload_negative : string :=
  "{" ++ quoted "sentiment" ++ ": " ++ quoted "negative" ++ ", "
  ++ quoted "aspects" ++ ": [{" ++ quoted "feature" ++ ": " ++ quoted "Price" ++ ", "
  ++ quoted "sentiment" ++ ": " ++ quoted "negative" ++ ", "
  ++ quoted "quote" ++ ": " ++ quoted "too expensive" ++ "}, {"
  ++ quoted "feature" ++ ": " ++ quoted "display" ++ ", "
  ++ quoted "sentiment" ++ ": " ++ quoted "neutral" ++ ", "
  ++ quoted "quote" ++ ": " ++ quoted "a display" ++ "}]}".
Definition payload_truncated : string := "{" ++ quoted "sentiment" ++ ": ".

Definition analysis_positive : value :=
  VDict [("sentiment", VStr "positive"); ("aspects", VList [])].
Definition analysis_negative : value :=
  VDict [("sentiment", VStr "negative");
         ("aspects",
          VList [VDict [("feature", VStr "Price"); ("sentiment", VStr "negative");
                        ("quote", VStr "too expensive")];
                 VDict [("feature", VStr "display"); ("sentiment", VStr "neutral");
                        ("quote", VStr "a display")]])].

(** [json.loads] on those payloads. *)
Definition stub_loads (s : string) : result value :=
  if String.eqb s payload_empty then Ok (VDict [])
  else if String.eqb s payload_positive then Ok analysis_positive
  else if String.eqb s payload_negative then Ok analysis_negative
  else Raise (mk_exn JSONDecodeError "Expecting value: line 1 column 15 (char 14)").

(** A stubbed service that answers by the text of the review. *)
Definition stub_respond (k : nat) (r : request) : reply :=
  match r with
  | Extraction (VStr "good") => Content payload_positive
  | Extraction (VStr "bad") => Content payload_negative
  | Extraction (VStr "blank") => Content payload_empty
  | Extraction (VStr "cut") => Content payload_truncated
  | Extraction _ => Failure "Connection error."
  | Generation _ => Content "**Executive Summary:**"
  end.

Definition stub : service := mk_service stub_respond stub_loads.

(** The same, with a summary call that fails. *)
Definition stub_no_summary : service :=
  mk_service
    (fun k r =>
       match r with
       | Generation _ => Failure "Connection error."
       | _ => stub_respond k r
       end)
    stub_loads.

Definition plots : plotlib := mk_plotlib (fun _ _ => None) (fun _ => None).

Fixpoint numbered (i : Z) (texts : list string) : list (list value) :=
  match texts with
  | [] => []
  | t :: rest => [VInt i; VStr t] :: numbered (i + 1) rest
  end.

(** A store with a table [reviews(id, review_text)] holding [texts]. *)
Definition reviews_file (texts : list string) : Sqlite.store :=
  Sqlite.Database [("reviews", Sqlite.mk_table ["id"; "review_text"] (numbered 1 texts))].

Definition reviews_db (texts : list string) : Sqlite.db :=
  Sqlite.mk_db (reviews_file texts) 0.

Definition texts_of (texts : list string) : list (list value) :=
  map (fun t => [VStr t]) texts.

(** C1 as worded: the total of the counts is the number of reviews whose
    analysis succeeded. *)
Definition total_is_successes (svc : service) (d : Sqlite.db) : Prop :=
  forall rows s counts pos neg results,
    loads d rows -> rows <> [] ->
    handed_over (run_trace svc d) = Some (PopulateGui s counts pos neg results) ->
    total counts = count succeeded (map snd (reviewed svc 0 rows)).

(** C2 as worded: every successfully analyzed review is counted under its
    sentiment, "neutral" when the field is missing. *)
Definition counts_every_success (results : list (value * value)) : Prop :=
  forall counts pos neg,
    aggregate results = Ok (counts, pos, neg) ->
    forall h,
      count_of h counts
      = count (fun ra => counted_under h (sentiment_of (snd ra)))
          (filter (fun ra => succeeded (snd ra)) results).

(** C4 as worded, for the pipeline: on an empty result no notice of the run
    is worded as an error. *)
Definition empty_result_notice_is_informational (svc : service) (d : Sqlite.db) : Prop :=
  loads d [] ->
  forall m, In m (statuses (run_trace svc d)) -> says_error m = false.

(** C9 as worded: with the store file absent, the run gives the notice
    "Database file not found". *)
Definition absent_file_notice (svc : service) (d : Sqlite.db) : Prop :=
  Sqlite.path_exists (Sqlite.file d) = false ->
  exists m, In m (statuses (run_trace svc d))
            /\ contains "Database file not found" m = true.

(** C8 as worded: after a completed run the listing shows every review
    loaded, in the order of Data Access. *)
Definition listing_shows_every_review
    (svc : service) (plt : plotlib) (g : gui) (d : Sqlite.db) : Prop :=
  forall rows,
    loads d rows -> rows <> [] ->
    handed_over (run_trace svc d) <> None ->
    shown_reviews (window_after svc plt g d) = map (hd VNone) rows.

End Cases.

(* ===================================================================== *)
(** ** More of what a run shows *)
(* ===================================================================== *)

Module Observations.
Import Py Monad MainGui Spec.

Definition is_str (v : value) : bool :=
  match v with
  | VStr _ => true
  | _ => false
  end.

(** Opening or reading the store, as [run_analysis] does it, raises [e]. *)
Definition store_raises (d : Sqlite.db) (e : exn) : Prop :=
  (exists d1, Sqlite.connect d = (Raise e, d1))
  \/ (exists d1 d2,
        Sqlite.connect d = (Ok tt, d1)
        /\ Sqlite.select ["review_text"] "reviews" d1 = (Raise e, d2)).

(** Opening or reading the store, as [load_feedback] does it, raises [e]. *)
Definition viewer_store_raises (d : Sqlite.db) (e : exn) : Prop :=
  (exists d1, Sqlite.connect d = (Raise e, d1))
  \/ (exists d1 d2,
        Sqlite.connect d = (Ok tt, d1)
        /\ Sqlite.select (fst DatabaseTest.QUERY) (snd DatabaseTest.QUERY) d1
           = (Raise e, d2)).

(** The status of the loop for the review number [i] (from 1) of [n]. *)
Definition analyzing_status (n i : nat) : string :=
  "Analyzing review " ++ str_nat i ++ " of " ++ str_nat n ++ "...".

(** The events of the loop over [rows], request numbers from [k], review
    numbers from [i] (from 0): those of each pass, up to and including the
    pass whose analysis the three lists cannot take. *)
Fixpoint loop_events (svc : service) (n i k : nat) (rows : list (list value))
    (acc : accumulators) : list event :=
  match rows with
  | [] => []
  | row :: rest =>
      let review_text := hd VNone row in
      (step_events svc n i k review_text
       ++ match accumulate review_text (analysis_outcome svc k review_text) acc with
          | Ok acc' => loop_events svc n (S i) (S k) rest acc'
          | Raise _ => []
          end)%list
  end.

(** How many reviews of [rows] the loop sends to the service. *)
Fixpoint attempted (svc : service) (k : nat) (rows : list (list value))
    (acc : accumulators) : nat :=
  match rows with
  | [] => 0
  | row :: rest =>
      let review_text := hd VNone row in
      S (match accumulate review_text (analysis_outcome svc k review_text) acc with
         | Ok acc' => attempted svc (S k) rest acc'
         | Raise _ => 0
         end)
  end.

(** A list of (key, count) with the counts in non-increasing order. *)
Fixpoint descending (l : list (value * nat)) : bool :=
  match l with
  | [] => true
  | x :: rest => andb (forallb (fun y => Nat.leb (snd y) (snd x)) rest) (descending rest)
  end.

(** The keys of a Counter are pairwise different, each entry carries the hash
    key of its key, and every count is positive. *)
Definition counter_ok (c : counter) : Prop :=
  NoDup (map (fun e => snd (fst e)) c)
  /\ Forall (fun e => hash_key (fst (fst e)) = Ok (snd (fst e)) /\ 1 <= snd e) c.

(** The header of the listing for the review number [i] (from 1). *)
Definition header_text (i : nat) : string :=
  "--- REVIEW " ++ str_nat i ++ " ---" ++ nl.

Definition shown_header (ins : list piece * list string) : list string :=
  match ins with
  | ([Lit s], ["h1"]) => [s]
  | _ => []
  end.

(** The headers of the listing, top to bottom. *)
Definition shown_headers (g : gui) : list string :=
  flat_map shown_header (tab_all_reviews g).

(** The heights of the bars of the sentiment tab, and their labels. *)
Definition bar_heights (g : gui) : list nat :=
  match tab_sentiment g with
  | [FigureCanvas (BarChart _ heights _)] => heights
  | _ => []
  end.

Definition bar_labels (g : gui) : list value :=
  match tab_sentiment g with
  | [FigureCanvas (BarChart labels _ _)] => labels
  | _ => []
  end.

Definition bar_colors (g : gui) : list string :=
  match tab_sentiment g with
  | [FigureCanvas (BarChart _ _ colors)] => colors
  | _ => []
  end.

(** The state of the viewer after [load_feedback]. *)
Definition loaded (s : DatabaseTest.state) : DatabaseTest.state :=
  snd (DatabaseTest.load_feedback s).

(** A computation of the Tk side that leaves the button and the status line
    as they were. *)
Definition keeps_controls {A} (m : M gui A) : Prop :=
  forall g,
    analyze_button (snd (m g)) = analyze_button g
    /\ status_label (snd (m g)) = status_label g.

(** The stub service, answering the review "odd" with a JSON list. *)
Definition stub_with_list : service :=
  mk_service
    (fun k r =>
       match r with
       | Extraction (VStr "odd") => Content "[1]"
       | _ => Cases.stub_respond k r
       end)
    (fun s => if String.eqb s "[1]" then Ok (VList [VInt 1]) else Cases.stub_loads s).

End Observations.

(* ===================================================================== *)
(** ** Theorems *)
(* ===================================================================== *)

Import Py Monad MainGui Spec.
Local Open Scope py_scope.

(** *** The monad *)

Lemma bind_ok {S A B} (m : M S A) (k : A -> M S B) s a s' :
  m s = (Ok a, s') -> bind m k s = k a s'.
Proof. intros H. unfold bind. rewrite H. reflexivity. Qed.

Lemma bind_raise {S A B} (m : M S A) (k : A -> M S B) s e s' :
  m s = (Raise e, s') -> bind m k s = (Raise e, s').
Proof. intros H. unfold bind. rewrite H. reflexivity. Qed.

(** *** Steps of a run *)

(** One [update_status] of the worker. *)
Ltac status_step :=
  unfold bind at 1; unfold update_status at 1, emit at 1, modify at 1;
  cbn [w_db w_requests w_trace app].

(** One call of [sqlite3] whose outcome is [H]. *)
Ltac db_step H :=
  unfold bind at 1; unfold on_db at 1; cbn [w_db w_requests w_trace]; rewrite H.

(** One insertion into the listing. *)
Ltac insert_step :=
  unfold bind at 1; unfold insert_review_text at 1, modify at 1.

(** *** Counter *)

Lemma hkey_eqb_eq a b : hkey_eqb a b = true <-> a = b.
Proof.
  destruct a, b; simpl; split; intros H; try discriminate; try reflexivity.
  - apply Z.eqb_eq in H. now subst.
  - injection H as ->. apply Z.eqb_refl.
  - apply String.eqb_eq in H. now subst.
  - injection H as ->. apply String.eqb_refl.
Qed.

Lemma hkey_eqb_refl a : hkey_eqb a a = true.
Proof. now apply hkey_eqb_eq. Qed.

Lemma total_cons k h n (c : counter) : total ((k, h, n) :: c) = n + total c.
Proof. reflexivity. Qed.

Lemma total_counter_incr k h c : total (counter_incr k h c) = S (total c).
Proof.
  induction c as [|[[k' h'] n] c IH]; simpl.
  - reflexivity.
  - destruct (hkey_eqb h h'); rewrite !total_cons.
    + reflexivity.
    + rewrite IH. lia.
Qed.

Lemma count_of_counter_incr g k h c :
  count_of g (counter_incr k h c)
  = if hkey_eqb g h then S (count_of g c) else count_of g c.
Proof.
  induction c as [|[[k' h'] n] c IH]; simpl.
  - destruct (hkey_eqb g h); reflexivity.
  - destruct (hkey_eqb h h') eqn:E; simpl.
    + apply hkey_eqb_eq in E. subst h'.
      destruct (hkey_eqb g h); reflexivity.
    + rewrite IH. destruct (hkey_eqb g h') eqn:G; [|reflexivity].
      destruct (hkey_eqb g h) eqn:F; [|reflexivity].
      apply hkey_eqb_eq in G, F. subst. rewrite hkey_eqb_refl in E. discriminate.
Qed.

Lemma counter_update_total xs : forall c c',
  counter_update c xs = Ok c' -> total c' = total c + List.length xs.
Proof.
  induction xs as [|x xs IH]; simpl; intros c c' H.
  - injection H as <-. lia.
  - destruct (hash_key x) as [h|e]; [|discriminate].
    apply IH in H. rewrite H, total_counter_incr. lia.
Qed.

Lemma counter_update_count_of g xs : forall c c',
  counter_update c xs = Ok c' ->
  count_of g c' = count_of g c + count (counted_under g) xs.
Proof.
  unfold count.
  induction xs as [|x xs IH]; simpl; intros c c' H.
  - injection H as <-. lia.
  - unfold counted_under at 1. destruct (hash_key x) as [h|e]; [|discriminate].
    apply IH in H. rewrite H, count_of_counter_incr.
    destruct (hkey_eqb g h); simpl; lia.
Qed.

Lemma counter_update_hashable xs : forall c,
  forallb hashable xs = true -> exists c', counter_update c xs = Ok c'.
Proof.
  induction xs as [|x xs IH]; simpl; intros c H.
  - now exists c.
  - apply andb_prop in H as [Hx Hxs]. unfold hashable in Hx.
    destruct (hash_key x) as [h|e]; [|discriminate]. now apply IH.
Qed.

Lemma Counter_total xs c : Counter xs = Ok c -> total c = List.length xs.
Proof. intros H. apply counter_update_total in H. exact H. Qed.

Lemma Counter_count_of g xs c :
  Counter xs = Ok c -> count_of g c = count (counted_under g) xs.
Proof. intros H. apply (counter_update_count_of g) in H. exact H. Qed.

(** *** The worker *)

Section WorkerFacts.

Variable svc : service.

Lemma analyze_single_review_spec text w :
  analyze_single_review svc text w
  = (Ok (analysis_outcome svc (w_requests w) text),
     mk_world (w_db w) (S (w_requests w))
       (w_trace w ++ Create (Extraction text)
          :: (if failing svc (w_requests w) text
              then [Print ("Error analyzing review: "
                           ++ failure_text svc (w_requests w) text)]
              else []))%list).
Proof.
  unfold analyze_single_review, try_except, bind, create, lift, ret, emit, modify,
    analysis_outcome, failing, failure_text.
  destruct (respond svc (w_requests w) (Extraction text)) as [c|msg]; simpl.
  - destruct (json_loads svc c) as [v|e]; simpl.
    + reflexivity.
    + rewrite <- app_assoc. reflexivity.
  - rewrite <- app_assoc. reflexivity.
Qed.

Lemma analyze_step_spec n i text acc w :
  analyze_step svc n i [text] acc w
  = (accumulate text (analysis_outcome svc (w_requests w) text) acc,
     mk_world (w_db w) (S (w_requests w))
       (w_trace w ++ step_events svc n i (w_requests w) text)%list).
Proof.
  unfold analyze_step, update_status, emit, modify, bind at 1. simpl.
  unfold bind. rewrite analyze_single_review_spec. simpl.
  unfold lift, step_events. rewrite <- app_assoc. reflexivity.
Qed.

Lemma step_events_loop n i k text :
  forallb loop_event (step_events svc n i k text) = true.
Proof. unfold step_events. destruct (failing svc k text); reflexivity. Qed.

Lemma analyze_loop_spec rows :
  forallb one_tuple rows = true ->
  forall n i acc w, exists m evs,
    analyze_loop svc n i rows acc w
    = (accumulate_all (reviewed svc (w_requests w) rows) acc,
       mk_world (w_db w) (w_requests w + m) (w_trace w ++ evs)%list)
    /\ forallb loop_event evs = true
    /\ (is_ok (accumulate_all (reviewed svc (w_requests w) rows) acc) = true ->
        m = List.length rows
        /\ requests evs = map (fun row => Extraction (hd VNone row)) rows).
Proof.
  induction rows as [|row rows IH]; intros Hrows n i acc w.
  - exists 0, []. simpl. unfold ret. rewrite Nat.add_0_r, app_nil_r.
    destruct w; auto.
  - simpl in Hrows. apply andb_prop in Hrows as [Hrow Hrows].
    destruct row as [|text [|? ?]]; try discriminate.
    cbn [analyze_loop reviewed hd accumulate_all].
    unfold bind. rewrite analyze_step_spec.
    destruct (accumulate text (analysis_outcome svc (w_requests w) text) acc)
      as [acc'|e] eqn:E.
    + destruct (IH Hrows n (S i) acc'
                  (mk_world (w_db w) (S (w_requests w))
                     (w_trace w ++ step_events svc n i (w_requests w) text)%list))
        as (m & evs & Heq & Hevs & Hok).
      cbn [w_db w_requests w_trace] in Heq, Hok.
      exists (S m), (step_events svc n i (w_requests w) text ++ evs)%list.
      rewrite Heq. split; [|split].
      * replace (w_requests w + S m) with (S (w_requests w) + m) by lia.
        rewrite app_assoc. reflexivity.
      * rewrite forallb_app, step_events_loop, Hevs. reflexivity.
      * intros H. destruct (Hok H) as [-> Hreq]. split; [reflexivity|].
        unfold step_events. cbn [app requests map hd].
        destruct (failing svc (w_requests w) text); cbn [app requests];
          now rewrite Hreq.
    + exists 1, (step_events svc n i (w_requests w) text).
      split; [|split].
      * replace (w_requests w + 1) with (S (w_requests w)) by lia. reflexivity.
      * apply step_events_loop.
      * discriminate.
Qed.

End WorkerFacts.

(** *** The aggregation *)

Lemma iterate_dicts v more :
  iterate v = Ok more -> forallb is_dict more = true ->
  more = match v with VList l => l | _ => [] end.
Proof.
  destruct v as [| | |s|l|d]; simpl; intros H Hd; try discriminate;
    injection H as <-.
  - destruct s; [reflexivity|discriminate].
  - reflexivity.
  - destruct d; [reflexivity|discriminate].
Qed.

Lemma accumulate_falsy r a acc : truthy a = false -> accumulate r a acc = Ok acc.
Proof. intros H. unfold accumulate. now rewrite H. Qed.

Lemma accumulate_truthy r a acc acc' :
  truthy a = true -> accumulate r a acc = Ok acc' ->
  exists more,
    all_results acc' = (all_results acc ++ [(r, a)])%list
    /\ all_sentiments acc' = (all_sentiments acc ++ [sentiment_of a])%list
    /\ all_aspects acc' = (all_aspects acc ++ more)%list
    /\ (forallb is_dict more = true -> more = aspects_of a).
Proof.
  intros Ht. unfold accumulate. rewrite Ht.
  destruct a as [| | | | |d]; simpl; try discriminate.
  unfold sentiment_of, aspects_of.
  destruct (lookup "aspects" d) as [v|] eqn:Ha.
  - destruct (iterate v) as [more|e] eqn:Hi; [|discriminate].
    intros H. injection H as <-. exists more. cbn.
    repeat split. intros Hd. rewrite (iterate_dicts _ _ Hi Hd).
    destruct v; reflexivity.
  - simpl. intros H. injection H as <-. exists []. cbn.
    rewrite app_nil_r. repeat split.
Qed.

Lemma accumulate_all_spec results : forall acc acc',
  accumulate_all results acc = Ok acc' ->
  exists extra,
    all_results acc' = (all_results acc ++ counted results)%list
    /\ all_sentiments acc'
       = (all_sentiments acc ++ map (fun ra => sentiment_of (snd ra)) (counted results))%list
    /\ all_aspects acc' = (all_aspects acc ++ extra)%list
    /\ (forallb is_dict extra = true ->
        extra = flat_map (fun ra => aspects_of (snd ra)) (counted results)).
Proof.
  induction results as [|[r a] results IH]; intros acc acc' H.
  - injection H as <-. exists []. simpl. rewrite !app_nil_r. auto.
  - cbn [accumulate_all] in H.
    destruct (accumulate r a acc) as [acc1|e] eqn:E; [|discriminate].
    destruct (IH _ _ H) as (extra & Hr & Hs & Ha & Hd).
    unfold counted in *. cbn [filter snd].
    destruct (truthy a) eqn:Ht.
    + destruct (accumulate_truthy _ _ _ _ Ht E) as (more & Hr1 & Hs1 & Ha1 & Hd1).
      exists (more ++ extra)%list. cbn [map flat_map snd].
      rewrite Hr, Hr1, Hs, Hs1, Ha, Ha1, <- !app_assoc.
      repeat split. intros Hall. rewrite forallb_app in Hall.
      apply andb_prop in Hall as [Hm He]. now rewrite Hd1, Hd.
    + rewrite (accumulate_falsy _ _ _ Ht) in E. injection E as <-.
      exists extra. auto.
Qed.

Lemma features_with_spec s aspects : forall fs,
  features_with s aspects = Ok fs ->
  forallb is_dict aspects = true
  /\ fs = map feature_of (filter (has_sentiment s) aspects).
Proof.
  induction aspects as [|a aspects IH]; simpl; intros fs H.
  - injection H as <-. auto.
  - destruct a as [| | | | |d]; simpl in H; try discriminate.
    cbn [forallb is_dict andb filter has_sentiment].
    destruct (lookup "sentiment" d) as [v|]; [|discriminate].
    destruct (eq_str v s).
    + destruct (lookup "feature" d) as [f|] eqn:Hf; [|discriminate].
      destruct (features_with s aspects) as [fs'|e]; [|discriminate].
      injection H as <-. destruct (IH _ eq_refl) as [Hd ->].
      split; [exact Hd|]. cbn [map feature_of]. now rewrite Hf.
    + apply IH in H. exact H.
Qed.

Lemma features_with_total s aspects :
  s = "positive" \/ s = "negative" ->
  forallb well_formed_aspect aspects = true ->
  exists fs, features_with s aspects = Ok fs.
Proof.
  intros Hs. induction aspects as [|a aspects IH]; simpl; intros H.
  - now exists [].
  - apply andb_prop in H as [Ha Hrest]. destruct (IH Hrest) as [fs Hfs].
    destruct a as [| | | | |d]; simpl in Ha; try discriminate. simpl.
    destruct (lookup "sentiment" d) as [v|]; [|discriminate].
    destruct (eq_str v s) eqn:E.
    + assert (orb (eq_str v "positive") (eq_str v "negative") = true) as Hor.
      { destruct Hs; subst s; rewrite E; auto using orb_true_r. }
      rewrite Hor in Ha. destruct (lookup "feature" d); [|discriminate].
      rewrite Hfs. eauto.
    + eauto.
Qed.

Lemma accumulate_well_formed r a acc :
  well_formed_analysis a = true ->
  forallb hashable (all_sentiments acc) = true ->
  forallb well_formed_aspect (all_aspects acc) = true ->
  exists acc',
    accumulate r a acc = Ok acc'
    /\ forallb hashable (all_sentiments acc') = true
    /\ forallb well_formed_aspect (all_aspects acc') = true.
Proof.
  unfold well_formed_analysis, accumulate. intros Hwf Hs Ha.
  destruct (truthy a); [|eauto].
  destruct a as [| | | | |d]; try discriminate.
  apply andb_prop in Hwf as [Hh Hasp]. unfold sentiment_of in Hh. simpl.
  destruct (lookup "aspects" d) as [v|].
  - destruct v as [| | | |l|]; try discriminate. simpl.
    eexists. split; [reflexivity|]. cbn [all_sentiments all_aspects].
    rewrite !forallb_app, Hs, Ha, Hasp. cbn [forallb].
    destruct (lookup "sentiment" d); rewrite Hh; auto.
  - simpl. eexists. split; [reflexivity|]. cbn [all_sentiments all_aspects].
    rewrite !forallb_app, Hs, Ha. cbn [forallb].
    destruct (lookup "sentiment" d); rewrite Hh; auto.
Qed.

Lemma accumulate_all_well_formed results : forall acc,
  forallb (fun ra => well_formed_analysis (snd ra)) results = true ->
  forallb hashable (all_sentiments acc) = true ->
  forallb well_formed_aspect (all_aspects acc) = true ->
  exists acc',
    accumulate_all results acc = Ok acc'
    /\ forallb hashable (all_sentiments acc') = true
    /\ forallb well_formed_aspect (all_aspects acc') = true.
Proof.
  induction results as [|[r a] results IH]; intros acc Hwf Hs Ha.
  - exists acc. auto.
  - cbn [forallb snd] in Hwf. apply andb_prop in Hwf as [Hwa Hrest].
    destruct (accumulate_well_formed r a acc Hwa Hs Ha) as (acc1 & E & Hs1 & Ha1).
    cbn [accumulate_all]. rewrite E. now apply IH.
Qed.

Lemma process_results_total acc :
  forallb hashable (all_sentiments acc) = true ->
  forallb well_formed_aspect (all_aspects acc) = true ->
  is_ok (process_results acc) = true.
Proof.
  intros Hs Ha. unfold process_results, Counter.
  destruct (counter_update_hashable _ [] Hs) as [c ->].
  destruct (features_with_total "positive" _ (or_introl eq_refl) Ha) as [p ->].
  destruct (features_with_total "negative" _ (or_intror eq_refl) Ha) as [n ->].
  reflexivity.
Qed.

Lemma aggregate_total results :
  forallb (fun ra => well_formed_analysis (snd ra)) results = true ->
  is_ok (aggregate results) = true.
Proof.
  intros Hwf. unfold aggregate.
  destruct (accumulate_all_well_formed results (mk_acc [] [] []) Hwf eq_refl eq_refl)
    as (acc & -> & Hs & Ha).
  now apply process_results_total.
Qed.

(** What the aggregation returns, whenever it returns. *)
Lemma aggregate_spec results counts pos neg :
  aggregate results = Ok (counts, pos, neg) ->
  let aspects := flat_map (fun ra => aspects_of (snd ra)) (counted results) in
  Counter (map (fun ra => sentiment_of (snd ra)) (counted results)) = Ok counts
  /\ pos = map feature_of (filter (has_sentiment "positive") aspects)
  /\ neg = map feature_of (filter (has_sentiment "negative") aspects).
Proof.
  unfold aggregate. intros H.
  destruct (accumulate_all results (mk_acc [] [] [])) as [acc|e] eqn:E; [|discriminate].
  destruct (accumulate_all_spec _ _ _ E) as (extra & Hr & Hs & Ha & Hd).
  cbn [all_results all_sentiments all_aspects app] in Hr, Hs, Ha.
  unfold process_results in H. rewrite Hs, Ha in H.
  destruct (Counter _) as [c|]; [|discriminate].
  destruct (features_with "positive" extra) as [p|] eqn:Hp; [|discriminate].
  destruct (features_with "negative" extra) as [n|] eqn:Hn; [|discriminate].
  injection H as <- <- <-.
  apply features_with_spec in Hp as [Hdict ->].
  apply features_with_spec in Hn as [_ ->].
  rewrite (Hd Hdict). auto.
Qed.

(** *** Data Access *)

Lemma select_one_tuple c name d rows d' :
  Sqlite.select [c] name d = (Ok rows, d') -> forallb one_tuple rows = true.
Proof.
  unfold Sqlite.select. destruct (Sqlite.file d) as [?| | |tables]; try discriminate.
  destruct (Sqlite.find_table name tables) as [t|]; [|discriminate].
  simpl. destruct (Sqlite.index_of c (Sqlite.columns t)) as [i|]; [|discriminate].
  intros H. injection H as <- _. induction (Sqlite.rows t); simpl; auto.
Qed.

(** A table created as [Reviews(ID, Review_Text)] is the table the two
    queries read. *)
Lemma select_ignores_case :
  let d := Sqlite.mk_db
             (Sqlite.Database
                [("Reviews", Sqlite.mk_table ["ID"; "Review_Text"] [[VInt 1; VStr "good"]])])
             1 in
  Sqlite.select ["review_text"] "reviews" d = (Ok [[VStr "good"]], d)
  /\ Sqlite.select ["id"; "review_text"] "reviews" d = (Ok [[VInt 1; VStr "good"]], d).
Proof. split; reflexivity. Qed.

(** *** A run over loaded reviews *)

Lemma run_analysis_handler_diagnostic e w :
  run_analysis_handler e w
  = (Ok tt, mk_world (w_db w) (w_requests w) (w_trace w ++ [After (SetStatus (diagnostic e))])%list).
Proof.
  unfold run_analysis_handler, diagnostic, update_status, emit, modify.
  destruct (is_operational e); reflexivity.
Qed.

Lemma get_final_summary_spec svc prompt w :
  get_final_summary svc prompt w
  = (Ok (summary_text svc (w_requests w) prompt),
     mk_world (w_db w) (S (w_requests w)) (w_trace w ++ [Create (Generation prompt)])%list).
Proof.
  unfold get_final_summary, try_except, create, summary_text, ret.
  destruct (respond svc (w_requests w) (Generation prompt)); reflexivity.
Qed.

Lemma run_analysis_loaded svc d rows :
  loads d rows -> rows <> [] ->
  exists evs,
    forallb loop_event evs = true
    /\ (is_ok (accumulate_all (reviewed svc 0 rows) (mk_acc [] [] [])) = true ->
        requests evs = map (fun row => Extraction (hd VNone row)) rows)
    /\ run_trace svc d
       = (After (SetStatus "Connecting to database 'feedback.db'...")
          :: After (SetStatus ("Loaded " ++ str_nat (List.length rows) ++ " reviews."))
          :: evs ++ after_loop svc rows ++ [After EnableButton])%list.
Proof.
  intros (d1 & Hc & Hs) Hne.
  pose proof (select_one_tuple _ _ _ _ _ Hs) as Hone.
  destruct (analyze_loop_spec svc rows Hone (List.length rows) 0 (mk_acc [] [] [])
              (mk_world (Sqlite.mk_db (Sqlite.file d1) (pred (Sqlite.open_connections d1))) 0
                 [After (SetStatus "Connecting to database 'feedback.db'...");
                  After (SetStatus ("Loaded " ++ str_nat (List.length rows) ++ " reviews."))]))
    as (m & evs & Hloop & Hevs & Hok).
  cbn [w_db w_requests w_trace] in Hloop, Hok.
  exists evs. split; [exact Hevs|]. split; [intros H; now apply Hok|].
  unfold run_trace, run_analysis, finally, try_except, run_analysis_body.
  status_step.
  db_step Hc.
  db_step Hs.
  unfold bind at 1. unfold on_db at 1, Sqlite.close, modify at 1.
  cbn [w_db w_requests w_trace].
  destruct rows as [|row rows']; [contradiction|].
  remember (row :: rows') as rows eqn:Hrows.
  status_step.
  unfold bind at 1. rewrite Hloop. unfold after_loop.
  destruct (accumulate_all (reviewed svc 0 rows) (mk_acc [] [] [])) as [acc|e].
  - destruct (Hok eq_refl) as [-> _].
    status_step.
    unfold bind at 1. unfold lift at 1.
    destruct (process_results acc) as [[[c p] n]|e].
    + unfold bind at 1. unfold update_status at 1, emit at 1, modify at 1.
      cbn [w_db w_requests w_trace].
      unfold bind at 1. unfold lift at 1.
      destruct (create_summary_prompt c p n) as [prompt|e].
      * unfold bind at 1. rewrite get_final_summary_spec.
        cbn [w_db w_requests w_trace].
        unfold bind at 1. unfold emit at 1, modify at 1.
        cbn [w_db w_requests w_trace].
        unfold update_status, emit, modify. cbn [w_db w_requests w_trace snd].
        cbn [app]. rewrite <- !app_assoc. reflexivity.
      * rewrite run_analysis_handler_diagnostic. unfold emit, modify.
        cbn [w_db w_requests w_trace snd app]. rewrite <- !app_assoc. reflexivity.
    + rewrite run_analysis_handler_diagnostic. unfold emit, modify.
      cbn [w_db w_requests w_trace snd app]. rewrite <- !app_assoc. reflexivity.
  - rewrite run_analysis_handler_diagnostic. unfold emit, modify.
    cbn [w_db w_requests w_trace snd app]. rewrite <- !app_assoc. reflexivity.
Qed.

Lemma features_with_hashable s aspects : forall fs,
  s = "positive" \/ s = "negative" ->
  forallb well_formed_aspect aspects = true ->
  features_with s aspects = Ok fs ->
  forallb hashable fs = true.
Proof.
  intros fs Hs. revert fs.
  induction aspects as [|a aspects IH]; simpl; intros fs Hwf H.
  - now injection H as <-.
  - apply andb_prop in Hwf as [Ha Hrest].
    destruct a as [| | | | |d]; simpl in Ha, H; try discriminate.
    destruct (lookup "sentiment" d) as [v|]; [|discriminate].
    destruct (eq_str v s) eqn:E.
    + assert (orb (eq_str v "positive") (eq_str v "negative") = true) as Hor.
      { destruct Hs; subst s; rewrite E; auto using orb_true_r. }
      rewrite Hor in Ha. destruct (lookup "feature" d) as [f|]; [|discriminate].
      destruct (features_with s aspects) as [fs'|]; [|discriminate].
      injection H as <-. simpl. rewrite Ha. now apply IH.
    + now apply IH.
Qed.

(** *** Reading a trace *)

Lemma handed_over_loop evs rest :
  forallb loop_event evs = true -> handed_over (evs ++ rest) = handed_over rest.
Proof.
  induction evs as [|e evs IH]; simpl; intros H; [reflexivity|].
  apply andb_prop in H as [He Hevs].
  destruct e as [[]|[]|]; simpl in He; try discriminate; now apply IH.
Qed.

Lemma requests_app a b : requests (a ++ b) = (requests a ++ requests b)%list.
Proof.
  induction a as [|e a IH]; simpl; [reflexivity|].
  destruct e; simpl; now rewrite IH.
Qed.

Lemma statuses_app a b : statuses (a ++ b) = (statuses a ++ statuses b)%list.
Proof.
  induction a as [|e a IH]; simpl; [reflexivity|].
  destruct e as [[]| |]; simpl; now rewrite IH.
Qed.

Lemma enables_app a b : enables (a ++ b) = enables a + enables b.
Proof.
  induction a as [|e a IH]; simpl; [reflexivity|].
  destruct e as [[]| |]; simpl; now rewrite IH.
Qed.

Lemma enables_loop evs : forallb loop_event evs = true -> enables evs = 0.
Proof.
  induction evs as [|e evs IH]; simpl; intros H; [reflexivity|].
  apply andb_prop in H as [He Hevs].
  destruct e as [[]|[]|]; simpl in He; try discriminate; now apply IH.
Qed.

Lemma handed_over_after_loop svc rows :
  handed_over (after_loop svc rows ++ [After EnableButton]) = presentation svc rows.
Proof.
  unfold after_loop, presentation.
  destruct (accumulate_all _ _) as [acc|e]; [|reflexivity]. simpl.
  destruct (process_results acc) as [[[c p] n]|e]; [|reflexivity]. simpl.
  destruct (create_summary_prompt c p n) as [prompt|e]; reflexivity.
Qed.

Lemma run_presentation svc d rows :
  loads d rows -> rows <> [] ->
  handed_over (run_trace svc d) = presentation svc rows.
Proof.
  intros Hl Hne.
  destruct (run_analysis_loaded svc d rows Hl Hne) as (evs & Hevs & _ & ->).
  cbn [handed_over]. rewrite handed_over_loop by exact Hevs.
  apply handed_over_after_loop.
Qed.

Lemma presentation_aggregate svc rows s counts pos neg results :
  presentation svc rows = Some (PopulateGui s counts pos neg results) ->
  aggregate (reviewed svc 0 rows) = Ok (counts, pos, neg)
  /\ results = counted (reviewed svc 0 rows)
  /\ exists prompt,
       create_summary_prompt counts pos neg = Ok prompt
       /\ s = summary_text svc (List.length rows) prompt.
Proof.
  unfold presentation, aggregate.
  destruct (accumulate_all _ _) as [acc|e] eqn:E; [|discriminate].
  destruct (process_results acc) as [[[c p] n]|e']; [|discriminate].
  destruct (create_summary_prompt c p n) as [prompt|e'] eqn:P; [|discriminate].
  intros H. injection H as <- <- <- <- <-.
  destruct (accumulate_all_spec _ _ _ E) as (_ & Hr & _).
  cbn [all_results app] in Hr. rewrite P. eauto.
Qed.

Lemma forallb_over_map {A B} (f : A -> B) (p : B -> bool) l :
  forallb p (map f l) = forallb (fun a => p (f a)) l.
Proof. induction l as [|a l IH]; simpl; [reflexivity|now rewrite IH]. Qed.

Lemma presentation_well_formed svc rows :
  forallb well_formed_analysis (map snd (reviewed svc 0 rows)) = true ->
  exists s counts pos neg results,
    presentation svc rows = Some (PopulateGui s counts pos neg results).
Proof.
  intros Hwf. rewrite forallb_over_map in Hwf. unfold presentation.
  destruct (accumulate_all_well_formed _ (mk_acc [] [] []) Hwf eq_refl eq_refl)
    as (acc & -> & Hs & Ha).
  unfold process_results, Counter.
  destruct (counter_update_hashable _ [] Hs) as [c ->].
  destruct (features_with_total "positive" _ (or_introl eq_refl) Ha) as [p Hp].
  destruct (features_with_total "negative" _ (or_intror eq_refl) Ha) as [n Hn].
  rewrite Hp, Hn. unfold create_summary_prompt, Counter.
  destruct (counter_update_hashable p []
              (features_with_hashable _ _ _ (or_introl eq_refl) Ha Hp)) as [pc ->].
  destruct (counter_update_hashable n []
              (features_with_hashable _ _ _ (or_intror eq_refl) Ha Hn)) as [nc ->].
  eauto 6.
Qed.

(** *** Counting *)

Lemma count_map {A B} (f : A -> B) (p : B -> bool) l :
  count p (map f l) = count (fun a => p (f a)) l.
Proof.
  unfold count. induction l as [|a l IH]; simpl; [reflexivity|].
  destruct (p (f a)); simpl; now rewrite IH.
Qed.

Lemma count_le {A} (p : A -> bool) l : count p l <= List.length l.
Proof.
  unfold count. induction l as [|a l IH]; simpl; [lia|].
  destruct (p a); simpl; lia.
Qed.

Lemma count_lt {A} (p : A -> bool) l :
  existsb (fun a => negb (p a)) l = true -> count p l < List.length l.
Proof.
  unfold count. induction l as [|a l IH]; simpl; [discriminate|].
  pose proof (count_le p l) as Hle. unfold count in Hle.
  destruct (p a); simpl; intros H; [apply IH in H|]; lia.
Qed.

Lemma length_reviewed svc rows : forall k,
  List.length (reviewed svc k rows) = List.length rows.
Proof. induction rows as [|row rows IH]; simpl; intros k; [|rewrite IH]; reflexivity. Qed.

Lemma accumulate_all_succeeded results : forall acc,
  accumulate_all (filter (fun ra => succeeded (snd ra)) results) acc
  = accumulate_all results acc.
Proof.
  induction results as [|[r a] results IH]; intros acc; [reflexivity|].
  cbn [filter snd]. destruct (succeeded a) eqn:E.
  - cbn [accumulate_all]. destruct (accumulate r a acc); [apply IH|reflexivity].
  - destruct a; try discriminate. cbn [accumulate_all].
    rewrite accumulate_falsy by reflexivity. apply IH.
Qed.

(** A review whose analysis is absent adds nothing to the counts nor to the
    word lists. *)
Lemma aggregate_succeeded results :
  aggregate (filter (fun ra => succeeded (snd ra)) results) = aggregate results.
Proof. unfold aggregate. now rewrite accumulate_all_succeeded. Qed.

Lemma aggregate_total_counted results counts pos neg :
  aggregate results = Ok (counts, pos, neg) ->
  total counts = List.length (counted results).
Proof.
  intros H. apply aggregate_spec in H as (Hc & _).
  apply Counter_total in Hc. now rewrite length_map in Hc.
Qed.

(* ===================================================================== *)
(** ** C1 *)
(* ===================================================================== *)

(** C1, as worded, fails: the service answers the one review with the empty
    object; the analysis succeeded (it is not absent), the run reaches the
    presentation step, and no sentiment is counted. *)
Lemma C1_empty_object_not_counted :
  ~ Cases.total_is_successes Cases.stub (Cases.reviews_db ["blank"]).
Proof.
  intros H.
  assert (loads (Cases.reviews_db ["blank"]) (Cases.texts_of ["blank"])) as Hl.
  { eexists. split; reflexivity. }
  specialize (H _ "**Executive Summary:**" [] [] [] [] Hl ltac:(discriminate) eq_refl).
  vm_compute in H. discriminate.
Qed.

(** C1, amended.  For every run over a non-empty review set: when every
    analysis is absent, empty or well-formed the run hands its results to the
    presentation step; and whenever it does, the total of the sentiment counts
    is the number of reviews whose analysis is neither absent nor empty (the
    test of [if analysis:]), the counts and word lists are those of the
    reviews whose analysis is not absent, the total is at most the number of
    reviews loaded, and strictly less when some analysis is absent or empty. *)
Theorem C1_total_counts_truthy_analyses svc d rows :
  loads d rows -> rows <> [] ->
  let analyses := map snd (reviewed svc 0 rows) in
  (forallb well_formed_analysis analyses = true ->
   exists s counts pos neg results,
     handed_over (run_trace svc d) = Some (PopulateGui s counts pos neg results))
  /\ (forall s counts pos neg results,
        handed_over (run_trace svc d) = Some (PopulateGui s counts pos neg results) ->
        total counts = count truthy analyses
        /\ aggregate (filter (fun ra => succeeded (snd ra)) (reviewed svc 0 rows))
           = Ok (counts, pos, neg)
        /\ total counts <= List.length rows
        /\ (existsb (fun a => negb (truthy a)) analyses = true ->
            total counts < List.length rows)).
Proof.
  intros Hl Hne analyses. rewrite (run_presentation svc d rows Hl Hne). split.
  - apply presentation_well_formed.
  - intros s counts pos neg results H.
    apply presentation_aggregate in H as (Hagg & _ & _).
    assert (total counts = count truthy analyses) as Ht.
    { rewrite (aggregate_total_counted _ _ _ _ Hagg).
      unfold analyses. rewrite count_map. reflexivity. }
    rewrite aggregate_succeeded, Ht.
    assert (List.length analyses = List.length rows) as Hlen.
    { unfold analyses. now rewrite length_map, length_reviewed. }
    rewrite <- Hlen. repeat split.
    + exact Hagg.
    + apply count_le.
    + apply count_lt.
Qed.

(** Three reviews, the third with a payload cut short: two are counted. *)
Lemma C1_two_of_three_counted :
  exists s counts pos neg results,
    handed_over (run_trace Cases.stub (Cases.reviews_db ["good"; "bad"; "cut"]))
    = Some (PopulateGui s counts pos neg results)
    /\ total counts = 2
    /\ total counts < 3.
Proof.
  assert (loads (Cases.reviews_db ["good"; "bad"; "cut"])
                (Cases.texts_of ["good"; "bad"; "cut"])) as Hl.
  { eexists. split; reflexivity. }
  destruct (C1_total_counts_truthy_analyses Cases.stub _ _ Hl ltac:(discriminate))
    as [Hex Hall].
  destruct (Hex eq_refl) as (s & counts & pos & neg & results & Hh).
  exists s, counts, pos, neg, results. split; [exact Hh|].
  destruct (Hall _ _ _ _ _ Hh) as (Ht & _ & _ & Hlt).
  split; [rewrite Ht; reflexivity|apply Hlt; reflexivity].
Defined.

(* ===================================================================== *)
(** ** C2 *)
(* ===================================================================== *)

(** C2, as worded, fails: an analysis that is the empty object succeeded and
    has no sentiment field, and is counted under no sentiment, not under
    "neutral". *)
Lemma C2_empty_object_not_neutral :
  ~ Cases.counts_every_success [(VStr "blank", VDict [])].
Proof.
  intros H. specialize (H [] [] [] eq_refl (HStr "neutral")). discriminate.
Qed.

Lemma neutral_aspect_dropped aspect :
  has_sentiment "neutral" aspect = true ->
  has_sentiment "positive" aspect = false /\ has_sentiment "negative" aspect = false.
Proof.
  destruct aspect as [| | | | |d]; simpl; try discriminate.
  destruct (lookup "sentiment" d) as [[| | |s| |]|]; simpl; try discriminate.
  intros H. apply String.eqb_eq in H. subst s. split; reflexivity.
Qed.

(** C2, amended.  For every sequence of per-review analysis results: the
    aggregation step returns when every analysis is absent, empty or
    well-formed; and whenever it returns, each review whose analysis is neither
    absent nor empty is counted under its top-level sentiment, "neutral" when
    the field is missing; the positive word list is the features, as they are
    and in order, of the aspects of those reviews whose sentiment is
    "positive", the negative list likewise for "negative"; an aspect whose
    sentiment is "neutral" is in neither selection. *)
Theorem C2_aggregation_counts_and_word_lists results :
  (forallb (fun ra => well_formed_analysis (snd ra)) results = true ->
   is_ok (aggregate results) = true)
  /\ (forall counts pos neg,
        aggregate results = Ok (counts, pos, neg) ->
        let aspects := flat_map (fun ra => aspects_of (snd ra)) (counted results) in
        (forall h,
           count_of h counts
           = count (fun ra => counted_under h (sentiment_of (snd ra))) (counted results))
        /\ pos = map feature_of (filter (has_sentiment "positive") aspects)
        /\ neg = map feature_of (filter (has_sentiment "negative") aspects)
        /\ (forall aspect,
              In aspect aspects -> has_sentiment "neutral" aspect = true ->
              ~ In aspect (filter (has_sentiment "positive") aspects)
              /\ ~ In aspect (filter (has_sentiment "negative") aspects))).
Proof.
  split; [apply aggregate_total|].
  intros counts pos neg H aspects.
  apply aggregate_spec in H as (Hc & Hp & Hn).
  split; [|split; [exact Hp|split; [exact Hn|]]].
  - intros h. rewrite (Counter_count_of h _ _ Hc). apply count_map.
  - intros aspect _ Hneutral.
    destruct (neutral_aspect_dropped aspect Hneutral) as [Hnp Hnn].
    split; intros Hin; apply filter_In in Hin as [_ Hin]; congruence.
Qed.

(** A positive review without aspects, a negative one with a negative "Price"
    and a neutral "display", one without any field but [aspects], an absent
    one. *)
Lemma C2_three_counted_price_kept :
  exists counts,
    aggregate [(VStr "good", Cases.analysis_positive);
               (VStr "bad", Cases.analysis_negative);
               (VStr "terse", VDict [("aspects", VList [])]);
               (VStr "cut", VNone)]
    = Ok (counts, [], [VStr "Price"])
    /\ count_of (HStr "positive") counts = 1
    /\ count_of (HStr "negative") counts = 1
    /\ count_of (HStr "neutral") counts = 1.
Proof.
  set (results := [(VStr "good", Cases.analysis_positive);
                   (VStr "bad", Cases.analysis_negative);
                   (VStr "terse", VDict [("aspects", VList [])]);
                   (VStr "cut", VNone)]).
  destruct (C2_aggregation_counts_and_word_lists results) as [Hok Hall].
  specialize (Hok eq_refl).
  destruct (aggregate results) as [[[counts pos] neg]|e] eqn:E; [|discriminate].
  destruct (Hall counts pos neg eq_refl) as (Hcount & Hpos & Hneg & _).
  exists counts. subst pos neg.
  split; [reflexivity|]. rewrite !Hcount. repeat split.
Defined.

(* ===================================================================== *)
(** ** The shapes of a run *)
(* ===================================================================== *)

Lemma run_analysis_connect_fails svc d e d1 :
  Sqlite.connect d = (Raise e, d1) ->
  run_analysis svc (mk_world d 0 [])
  = (Ok tt, mk_world d1 0 [connecting; After (SetStatus (diagnostic e)); After EnableButton]).
Proof.
  intros Hc.
  unfold run_analysis, finally, try_except, run_analysis_body.
  status_step.
  db_step Hc.
  rewrite run_analysis_handler_diagnostic. reflexivity.
Qed.

Lemma run_analysis_select_fails svc d e d1 d2 :
  Sqlite.connect d = (Ok tt, d1) ->
  Sqlite.select ["review_text"] "reviews" d1 = (Raise e, d2) ->
  run_analysis svc (mk_world d 0 [])
  = (Ok tt, mk_world d2 0 [connecting; After (SetStatus (diagnostic e)); After EnableButton]).
Proof.
  intros Hc Hs.
  unfold run_analysis, finally, try_except, run_analysis_body.
  status_step.
  db_step Hc.
  db_step Hs.
  rewrite run_analysis_handler_diagnostic. reflexivity.
Qed.

Lemma run_analysis_empty svc d :
  loads d [] ->
  run_trace svc d
  = [connecting;
     After (SetStatus "Error: No reviews found in 'feedback.db'.");
     After EnableButton;
     After EnableButton].
Proof.
  intros (d1 & Hc & Hs).
  unfold run_trace, run_analysis, finally, try_except, run_analysis_body.
  status_step.
  db_step Hc.
  db_step Hs.
  reflexivity.
Qed.

Lemma select_keeps_db wanted name d r d' :
  Sqlite.select wanted name d = (r, d') -> d' = d.
Proof.
  unfold Sqlite.select.
  destruct (Sqlite.file d) as [?| | |tables]; try (intros H; now injection H).
  destruct (Sqlite.find_table name tables) as [t|]; [|intros H; now injection H].
  destruct (Sqlite.resolve wanted (Sqlite.columns t)); intros H; now injection H.
Qed.

(** Every run is one of three: the store fails, it is empty, or it gives
    reviews. *)
Lemma run_cases svc d :
  (exists e, run_trace svc d
             = [connecting; After (SetStatus (diagnostic e)); After EnableButton])
  \/ loads d []
  \/ (exists rows, loads d rows /\ rows <> []).
Proof.
  destruct (Sqlite.connect d) as [[[]|e] d1] eqn:Hc.
  - destruct (Sqlite.select ["review_text"] "reviews" d1) as [[rows|e] d2] eqn:Hs.
    + pose proof (select_keeps_db _ _ _ _ _ Hs) as ->.
      destruct rows as [|row rows].
      * right. left. exists d1. auto.
      * right. right. exists (row :: rows). split; [exists d1; auto|discriminate].
    + left. exists e. unfold run_trace.
      now rewrite (run_analysis_select_fails svc d e d1 d2 Hc Hs).
  - left. exists e. unfold run_trace.
    now rewrite (run_analysis_connect_fails svc d e d1 Hc).
Qed.

(** *** The Tk loop *)

Lemma mainloop_app plt a b g :
  mainloop plt (a ++ b) g = mainloop plt b (mainloop plt a g).
Proof.
  revert g. induction a as [|e a IH]; intros g; [reflexivity|].
  destruct e; simpl; apply IH.
Qed.

Lemma mainloop_ends_enabled plt tr g :
  analyze_button (mainloop plt (tr ++ [After EnableButton]) g) = (Normal, button_label).
Proof. rewrite mainloop_app. reflexivity. Qed.

(* ===================================================================== *)
(** ** C3 *)
(* ===================================================================== *)

Lemma insert_rows_spec l : forall s,
  DatabaseTest.insert_rows l s
  = (Ok tt,
     DatabaseTest.mk_state (DatabaseTest.v_db s) (DatabaseTest.conn_bound s)
       (DatabaseTest.tree s ++ l)%list (DatabaseTest.dialogs s)).
Proof.
  induction l as [|r l IH]; intros s.
  - simpl. unfold ret. rewrite app_nil_r. destruct s; reflexivity.
  - simpl. unfold bind, modify. rewrite IH. simpl. rewrite <- app_assoc. reflexivity.
Qed.

(** X16.  The viewer closes what it opened, on every path: after
    [load_feedback], whatever the store is and whatever was raised, as many
    connections are open as before. *)
Lemma load_feedback_releases s :
  Sqlite.open_connections (DatabaseTest.v_db (snd (DatabaseTest.load_feedback s)))
  = Sqlite.open_connections (DatabaseTest.v_db s).
Proof.
  destruct s as [[f n] cb tree dialogs].
  destruct f as [c| | |tables]; try reflexivity.
  unfold DatabaseTest.load_feedback.
  cbv [bind DatabaseTest.bind_conn DatabaseTest.set_tree modify gets negb
       Sqlite.path_exists DatabaseTest.v_db Sqlite.file finally try_except
       DatabaseTest.on_db Sqlite.connect Sqlite.open_connections
       DatabaseTest.conn_bound DatabaseTest.tree DatabaseTest.dialogs
       Sqlite.select DatabaseTest.QUERY fst snd].
  destruct (Sqlite.find_table "reviews" tables) as [t|]; [|reflexivity].
  destruct (Sqlite.resolve ["id"; "review_text"] (Sqlite.columns t)) as [idxs|e];
    [|destruct (is_sqlite_error e); reflexivity].
  destruct (map _ (Sqlite.rows t)) as [|row rows]; [reflexivity|].
  rewrite insert_rows_spec. reflexivity.
Qed.

(** What the worker does besides [sqlite3] leaves the store alone. *)
Lemma keeps_db_bind {A B} (m : M world A) (k : A -> M world B) :
  keeps_db m -> (forall a, keeps_db (k a)) -> keeps_db (bind m k).
Proof.
  intros Hm Hk w. unfold bind. specialize (Hm w).
  destruct (m w) as [[a|e] w1]; cbn [snd] in *; [|exact Hm].
  now rewrite Hk.
Qed.

Lemma keeps_db_try_except {A} (m : M world A) (h : exn -> M world A) :
  keeps_db m -> (forall e, keeps_db (h e)) -> keeps_db (try_except m h).
Proof.
  intros Hm Hh w. unfold try_except. specialize (Hm w).
  destruct (m w) as [[a|e] w1]; cbn [snd] in *; [exact Hm|].
  now rewrite Hh.
Qed.

Lemma finally_db {A} (m : M world A) (fin : M world unit) w :
  keeps_db fin -> w_db (snd (finally m fin w)) = w_db (snd (m w)).
Proof.
  intros Hf. unfold finally. destruct (m w) as [r w1]. specialize (Hf w1).
  destruct (fin w1) as [[[]|e] w2]; exact Hf.
Qed.

Lemma try_except_db {A} (m : M world A) (h : exn -> M world A) w :
  (forall e, keeps_db (h e)) -> w_db (snd (try_except m h w)) = w_db (snd (m w)).
Proof.
  intros Hh. unfold try_except. destruct (m w) as [[a|e] w1]; [reflexivity|].
  apply Hh.
Qed.

Lemma keeps_db_emit e : keeps_db (emit e).
Proof. intros w. reflexivity. Qed.

Lemma keeps_db_lift {A} (r : result A) : keeps_db (lift r).
Proof. intros w. reflexivity. Qed.

Lemma keeps_db_ret {A} (a : A) : keeps_db (ret (S := world) a).
Proof. intros w. reflexivity. Qed.

Lemma keeps_db_create svc r : keeps_db (create svc r).
Proof. intros w. unfold create. destruct (respond svc (w_requests w) r); reflexivity. Qed.

Create HintDb keeps.
#[local] Hint Resolve keeps_db_emit keeps_db_lift keeps_db_ret keeps_db_create : keeps.
#[local] Hint Extern 2 (keeps_db (bind _ _)) => apply keeps_db_bind; [|intros ?] : keeps.
#[local] Hint Extern 2 (keeps_db (try_except _ _)) =>
  apply keeps_db_try_except; [|intros ?] : keeps.
#[local] Hint Extern 1 (keeps_db (update_status _)) => apply keeps_db_emit : keeps.

Lemma keeps_db_analyze_single_review svc text :
  keeps_db (analyze_single_review svc text).
Proof. unfold analyze_single_review. auto 10 with keeps. Qed.

Lemma keeps_db_get_final_summary svc prompt : keeps_db (get_final_summary svc prompt).
Proof. unfold get_final_summary. auto 10 with keeps. Qed.

Lemma keeps_db_analyze_loop svc n rows : forall i acc,
  keeps_db (analyze_loop svc n i rows acc).
Proof.
  induction rows as [|row rows IH]; intros i acc; cbn [analyze_loop].
  - auto with keeps.
  - apply keeps_db_bind; [|intros acc'; apply IH].
    unfold analyze_step. destruct row as [|text [|? ?]]; try (intros w; reflexivity).
    pose proof (keeps_db_analyze_single_review svc text). auto 10 with keeps.
Qed.

Lemma connect_read_close d d1 rows :
  Sqlite.connect d = (Ok tt, d1) ->
  Sqlite.select ["review_text"] "reviews" d1 = (Ok rows, d1) ->
  Sqlite.mk_db (Sqlite.file d1) (pred (Sqlite.open_connections d1)) = d.
Proof.
  destruct d as [f n]. unfold Sqlite.connect. cbn [Sqlite.file Sqlite.open_connections].
  destruct f as [[|]| | |tables]; intros Hc; try discriminate;
    injection Hc as <-; try reflexivity.
  discriminate.
Qed.

Lemma keeps_db_after_read svc rows :
  keeps_db
    (match rows with
     | [] =>
         update_status "Error: No reviews found in 'feedback.db'." ;;
         emit (After EnableButton) ;;
         ret tt
     | _ :: _ =>
         let n := List.length rows in
         update_status ("Loaded " ++ str_nat n ++ " reviews.") ;;
         acc <- analyze_loop svc n 0 rows (mk_acc [] [] []) ;;
         update_status "All reviews analyzed. Processing results..." ;;
         stats <- lift (process_results acc) ;;
         let '(sentiment_counts, pos_aspect_words, neg_aspect_words) := stats in
         update_status "Generating final summary and recommendations..." ;;
         summary_prompt <- lift (create_summary_prompt sentiment_counts
                                   pos_aspect_words neg_aspect_words) ;;
         final_summary <- get_final_summary svc summary_prompt ;;
         emit (After (PopulateGui final_summary sentiment_counts
                        pos_aspect_words neg_aspect_words (all_results acc))) ;;
         update_status ("Analysis complete! Processed " ++ str_nat n ++ " reviews.")
     end)%py.
Proof.
  destruct rows as [|row rows]; [auto 10 with keeps|].
  cbv zeta. apply keeps_db_bind; [auto with keeps|intros _].
  apply keeps_db_bind; [apply keeps_db_analyze_loop|intros acc].
  apply keeps_db_bind; [auto with keeps|intros _].
  apply keeps_db_bind; [auto with keeps|intros [[c p] n]].
  apply keeps_db_bind; [auto with keeps|intros _].
  apply keeps_db_bind; [auto with keeps|intros prompt].
  apply keeps_db_bind; [apply keeps_db_get_final_summary|intros summary].
  auto 10 with keeps.
Qed.

(** X17.  After a successful read the pipeline has closed its connection,
    and nothing that follows touches the store: when the run is over, however
    it ended, the store and its connections are as before the run. *)
Lemma run_analysis_releases_after_read svc d rows :
  loads d rows -> w_db (snd (run_analysis svc (mk_world d 0 []))) = d.
Proof.
  intros (d1 & Hc & Hs).
  unfold run_analysis. rewrite finally_db by apply keeps_db_emit.
  rewrite try_except_db.
  2:{ intros e w. now rewrite run_analysis_handler_diagnostic. }
  unfold run_analysis_body.
  status_step. db_step Hc. db_step Hs.
  unfold bind at 1. unfold on_db at 1, Sqlite.close, modify at 1.
  cbn [w_db w_requests w_trace fst snd].
  rewrite (keeps_db_after_read svc rows). cbn [w_db].
  exact (connect_read_close d d1 rows Hc Hs).
Qed.


(** The pipeline closes its connection after a successful read only: when the
    query raises, the connection that was opened stays open. *)
Lemma run_analysis_keeps_connection_on_query_failure svc d e d1 d2 :
  Sqlite.connect d = (Ok tt, d1) ->
  Sqlite.select ["review_text"] "reviews" d1 = (Raise e, d2) ->
  Sqlite.open_connections (w_db (snd (run_analysis svc (mk_world d 0 []))))
  = Sqlite.open_connections d1.
Proof.
  intros Hc Hs. rewrite (run_analysis_select_fails svc d e d1 d2 Hc Hs).
  now rewrite (select_keeps_db _ _ _ _ _ Hs).
Qed.

(** C3, at a database without the table [reviews] (the one [sqlite3] creates
    when the file is missing is such a database): the query of [run_analysis]
    raises and the connection it opened is still open when the run is over;
    [load_feedback], on the same store, closes its own. *)
Theorem C3_pipeline_leaves_connection_open :
  Sqlite.open_connections
    (w_db (snd (run_analysis Cases.stub (mk_world (Sqlite.mk_db (Sqlite.Database []) 0) 0 []))))
  = 1
  /\ Sqlite.open_connections
       (w_db (snd (run_analysis Cases.stub (mk_world (Sqlite.mk_db (Sqlite.NoFile true) 0) 0 []))))
     = 1
  /\ Sqlite.open_connections
       (DatabaseTest.v_db (viewer_run (Sqlite.mk_db (Sqlite.Database []) 0)))
     = 0.
Proof. repeat split. Qed.

(* ===================================================================== *)
(** ** C4 *)
(* ===================================================================== *)

(** C4, as worded, fails for the pipeline: the notice of the empty result
    reads "Error: No reviews found in 'feedback.db'." *)
Lemma C4_empty_result_notice_says_error :
  ~ Cases.empty_result_notice_is_informational Cases.stub (Cases.reviews_db []).
Proof.
  intros H.
  assert (loads (Cases.reviews_db []) []) as Hl by (eexists; split; reflexivity).
  specialize (H Hl "Error: No reviews found in 'feedback.db'.").
  rewrite (run_analysis_empty _ _ Hl) in H. simpl in H.
  discriminate H. right. left. reflexivity.
Qed.

(** C4, amended.  When the store is reachable and the query returns zero rows:
    the pipeline gives, after "Connecting...", the one status notice "Error:
    No reviews found in 'feedback.db'.", makes no request to the service,
    leaves the button enabled, and gives no diagnostic of the Failed state;
    the viewer shows the information dialog "No data found in the table." and
    nothing else. *)
Theorem C4_empty_result svc plt g d :
  (loads d [] ->
   statuses (run_trace svc d)
   = ["Connecting to database 'feedback.db'...";
      "Error: No reviews found in 'feedback.db'."]
   /\ requests (run_trace svc d) = []
   /\ analyze_button (window_after svc plt g d) = (Normal, button_label)
   /\ status_label (window_after svc plt g d) = "Error: No reviews found in 'feedback.db'."
   /\ forallb (fun m => negb (failed_diagnostic m)) (statuses (run_trace svc d)) = true)
  /\ (viewer_loads d [] ->
      DatabaseTest.dialogs (viewer_run d)
      = [DatabaseTest.ShowInfo "Info" "No data found in the table."]
      /\ DatabaseTest.tree (viewer_run d) = []).
Proof.
  split.
  - intros Hl. unfold window_after. rewrite (run_analysis_empty svc d Hl).
    repeat split.
  - intros (Hex & d1 & Hc & Hs). unfold viewer_run, DatabaseTest.load_feedback.
    cbv [bind DatabaseTest.bind_conn DatabaseTest.set_tree modify gets
         DatabaseTest.v_db DatabaseTest.conn_bound DatabaseTest.tree
         DatabaseTest.dialogs].
    rewrite Hex. cbv [negb finally try_except bind DatabaseTest.on_db
                      DatabaseTest.v_db DatabaseTest.conn_bound DatabaseTest.tree
                      DatabaseTest.dialogs modify].
    rewrite Hc. rewrite Hs. split; reflexivity.
Qed.

(** An empty table [reviews]: the pipeline and the viewer. *)
Lemma C4_empty_table :
  statuses (run_trace Cases.stub (Cases.reviews_db []))
  = ["Connecting to database 'feedback.db'...";
     "Error: No reviews found in 'feedback.db'."]
  /\ requests (run_trace Cases.stub (Cases.reviews_db [])) = []
  /\ DatabaseTest.dialogs (viewer_run (Cases.reviews_db []))
     = [DatabaseTest.ShowInfo "Info" "No data found in the table."].
Proof.
  destruct (C4_empty_result Cases.stub Cases.plots initial_gui (Cases.reviews_db []))
    as [Hp Hv].
  destruct Hp as (Hs & Hr & _); [eexists; split; reflexivity|].
  destruct Hv as (Hd & _); [split; [reflexivity|eexists; split; reflexivity]|].
  auto.
Defined.

(* ===================================================================== *)
(** ** C5 *)
(* ===================================================================== *)

(** The [finally] clause is the last thing of every run: the button ends
    enabled whatever the window was. *)
Lemma run_trace_ends_with_enable svc d :
  exists tr, run_trace svc d = (tr ++ [After EnableButton])%list.
Proof.
  destruct (run_cases svc d) as [[e ->]|[Hl|(rows & Hl & Hne)]].
  - now exists [connecting; After (SetStatus (diagnostic e))].
  - rewrite (run_analysis_empty svc d Hl).
    now exists [connecting; After (SetStatus "Error: No reviews found in 'feedback.db'.");
                After EnableButton].
  - destruct (run_analysis_loaded svc d rows Hl Hne) as (evs & _ & _ & ->).
    exists (connecting
            :: After (SetStatus ("Loaded " ++ str_nat (List.length rows) ++ " reviews."))
            :: evs ++ after_loop svc rows)%list.
    cbn [app]. now rewrite <- app_assoc.
Qed.

Lemma window_after_enabled svc plt g d :
  analyze_button (window_after svc plt g d) = (Normal, button_label).
Proof.
  unfold window_after. destruct (run_trace_ends_with_enable svc d) as [tr ->].
  apply mainloop_ends_enabled.
Qed.

Lemma enables_after_loop svc rows : enables (after_loop svc rows) = 0.
Proof.
  unfold after_loop.
  destruct (accumulate_all _ _) as [acc|e]; [|reflexivity]. simpl.
  destruct (process_results acc) as [[[c p] n]|e]; [|reflexivity]. simpl.
  destruct (create_summary_prompt c p n); reflexivity.
Qed.

(** How many times a run schedules the re-enabling: once, and twice when the
    result is empty. *)
Lemma run_enables svc d :
  (loads d [] -> enables (run_trace svc d) = 2)
  /\ (~ loads d [] -> enables (run_trace svc d) = 1).
Proof.
  split.
  - intros Hl. now rewrite (run_analysis_empty svc d Hl).
  - intros Hn. destruct (run_cases svc d) as [[e ->]|[Hl|(rows & Hl & Hne)]].
    + reflexivity.
    + contradiction.
    + destruct (run_analysis_loaded svc d rows Hl Hne) as (evs & Hevs & _ & ->).
      cbn [enables connecting]. rewrite !enables_app, enables_after_loop.
      rewrite (enables_loop _ Hevs). reflexivity.
Qed.

(** C5, at an empty table [reviews]: the run schedules the re-enabling of the
    button twice, at line 123 before its [return] and in the [finally] clause;
    on a table with one review, and on a missing table, once. *)
Theorem C5_empty_result_enables_twice :
  enables (run_trace Cases.stub (Cases.reviews_db [])) = 2
  /\ enables (run_trace Cases.stub (Cases.reviews_db ["good"])) = 1
  /\ enables (run_trace Cases.stub (Sqlite.mk_db (Sqlite.Database []) 0)) = 1.
Proof. repeat split. Qed.

(* ===================================================================== *)
(** ** C9 *)
(* ===================================================================== *)

Lemma run_analysis_no_file svc c n :
  run_trace svc (Sqlite.mk_db (Sqlite.NoFile c) n)
  = [connecting;
     After (SetStatus
              ("Database Error: "
               ++ (if c then "no such table: reviews" else "unable to open database file")
               ++ ". Check 'feedback.db', table 'reviews', or column 'review_text'."));
     After EnableButton].
Proof. destruct c; reflexivity. Qed.

(** C9, as worded, fails: with no file at [feedback.db], [sqlite3.connect]
    creates an empty database, the query finds no table, and the notice of
    the run is the one of the [except sqlite3.OperationalError] clause. *)
Lemma C9_pipeline_notice_is_database_error :
  ~ Cases.absent_file_notice Cases.stub (Sqlite.mk_db (Sqlite.NoFile true) 0).
Proof.
  intros H. destruct (H eq_refl) as (m & Hin & Hm).
  rewrite run_analysis_no_file in Hin. simpl in Hin.
  destruct Hin as [<-|[<-|[]]]; vm_compute in Hm; discriminate.
Qed.

(** C9, amended.  With no file at [feedback.db], a run of the pipeline makes
    no request to the service, gives after "Connecting..." the one notice
    "Database Error: ... Check 'feedback.db', table 'reviews', or column
    'review_text'." (with "no such table: reviews" when [sqlite3] could create
    the file, "unable to open database file" when it could not), and leaves
    the button enabled.  The notice "Database file not found" is the viewer's,
    which then opens nothing. *)
Theorem C9_absent_file svc plt g c n :
  let d := Sqlite.mk_db (Sqlite.NoFile c) n in
  requests (run_trace svc d) = []
  /\ statuses (run_trace svc d)
     = ["Connecting to database 'feedback.db'...";
        "Database Error: "
        ++ (if c then "no such table: reviews" else "unable to open database file")
        ++ ". Check 'feedback.db', table 'reviews', or column 'review_text'."]
  /\ analyze_button (window_after svc plt g d) = (Normal, button_label)
  /\ DatabaseTest.dialogs (viewer_run d)
     = [DatabaseTest.ShowError "Error"
          ("Database file not found: feedback.db" ++ nl
           ++ "Please place it in the same folder as the script.")]
  /\ DatabaseTest.v_db (viewer_run d) = d.
Proof.
  intros d. split; [|split; [|split; [|split]]].
  - unfold d. now rewrite run_analysis_no_file.
  - unfold d. now rewrite run_analysis_no_file.
  - apply window_after_enabled.
  - reflexivity.
  - reflexivity.
Qed.

(** What the duplicate costs: when the user presses the button between the
    two re-enablings of an empty run, the second one re-enables the button
    while the new run has only just been started. *)
Lemma second_enable_reopens_button plt g :
  let after_first := mainloop plt [After EnableButton] (start_analysis_thread g) in
  let pressed_again := start_analysis_thread after_first in
  fst (analyze_button pressed_again) = Disabled
  /\ fst (analyze_button (mainloop plt [After EnableButton] pressed_again)) = Normal.
Proof. split; reflexivity. Qed.

(* ===================================================================== *)
(** ** C6 *)
(* ===================================================================== *)

Lemma loop_event_not_generation evs prompt :
  forallb loop_event evs = true -> ~ In (Create (Generation prompt)) evs.
Proof.
  induction evs as [|e evs IH]; simpl; intros H Hin; [contradiction|].
  apply andb_prop in H as [He Hevs]. destruct Hin as [Heq|Hin].
  - subst e. discriminate.
  - now apply IH.
Qed.

Lemma after_loop_generation svc rows prompt :
  In (Create (Generation prompt)) (after_loop svc rows) ->
  exists counts pos neg results,
    presentation svc rows
    = Some (PopulateGui (summary_text svc (List.length rows) prompt) counts pos neg results).
Proof.
  unfold after_loop, presentation.
  destruct (accumulate_all _ _) as [acc|e].
  2:{ simpl. intros [H|[]]. discriminate. }
  destruct (process_results acc) as [[[c p] n]|e].
  2:{ simpl. intros [H|[H|[]]]; discriminate. }
  destruct (create_summary_prompt c p n) as [prompt'|e].
  2:{ simpl. intros [H|[H|[H|[]]]]; discriminate. }
  simpl. intros [H|[H|[H|[H|[H|[]]]]]]; try discriminate.
  injection H as ->. eauto.
Qed.

(** C6.  [get_final_summary] never raises: it returns the text of the
    service's response when the call succeeds and "Error generating final
    summary: " followed by the error when it fails; and a run that gets to the
    summary request hands its results to the presentation step with that
    text. *)
Theorem C6_summary_never_raises svc prompt w :
  fst (get_final_summary svc prompt w) = Ok (summary_text svc (w_requests w) prompt)
  /\ (forall text,
        respond svc (w_requests w) (Generation prompt) = Content text ->
        fst (get_final_summary svc prompt w) = Ok text)
  /\ (forall msg,
        respond svc (w_requests w) (Generation prompt) = Failure msg ->
        fst (get_final_summary svc prompt w)
        = Ok ("Error generating final summary: " ++ msg))
  /\ (forall d,
        In (Create (Generation prompt)) (run_trace svc d) ->
        exists k counts pos neg results,
          handed_over (run_trace svc d)
          = Some (PopulateGui (summary_text svc k prompt) counts pos neg results)).
Proof.
  rewrite get_final_summary_spec. cbn [fst].
  split; [reflexivity|].
  split; [intros text H; unfold summary_text; now rewrite H|].
  split; [intros msg H; unfold summary_text; now rewrite H|].
  intros d Hin.
  destruct (run_cases svc d) as [[e He]|[Hl|(rows & Hl & Hne)]].
  - rewrite He in Hin. simpl in Hin. destruct Hin as [H|[H|[H|[]]]]; discriminate.
  - rewrite (run_analysis_empty svc d Hl) in Hin. simpl in Hin.
    destruct Hin as [H|[H|[H|[H|[]]]]]; discriminate.
  - rewrite (run_presentation svc d rows Hl Hne).
    destruct (run_analysis_loaded svc d rows Hl Hne) as (evs & Hevs & _ & Htr).
    rewrite Htr in Hin. cbn [In] in Hin.
    destruct Hin as [H|[H|Hin]]; try discriminate.
    apply in_app_or in Hin as [Hin|Hin].
    + now apply loop_event_not_generation in Hin.
    + apply in_app_or in Hin as [Hin|[H|[]]]; [|discriminate].
      exists (List.length rows). now apply after_loop_generation.
Qed.

(** One review, and a summary call that fails: the diagnostic is the summary
    handed to the presentation step. *)
Lemma C6_failed_summary_is_shown :
  exists counts pos neg results,
    handed_over (run_trace Cases.stub_no_summary (Cases.reviews_db ["good"]))
    = Some (PopulateGui "Error generating final summary: Connection error."
              counts pos neg results).
Proof.
  pose (prompt := mk_prompt [(VStr "positive", 1)] [] []).
  destruct (C6_summary_never_raises Cases.stub_no_summary prompt (mk_world (Cases.reviews_db ["good"]) 1 []))
    as (_ & _ & _ & H).
  destruct (H (Cases.reviews_db ["good"])) as (k & counts & pos & neg & results & Hh).
  - vm_compute. auto 10.
  - exists counts, pos, neg, results. rewrite Hh. reflexivity.
Defined.

(* ===================================================================== *)
(** ** C7 *)
(* ===================================================================== *)

Lemma failing_outcome_absent svc k text :
  failing svc k text = true -> analysis_outcome svc k text = VNone.
Proof.
  unfold failing, analysis_outcome.
  destruct (respond svc k (Extraction text)) as [c|msg]; [|reflexivity].
  destruct (json_loads svc c); [discriminate|reflexivity].
Qed.

(** C7.  [analyze_single_review] never raises and sends one request, whatever
    the review; when the call fails or the payload does not parse it returns
    absent and prints the failure; and the loop then goes on to the reviews
    that follow with its three lists as they were. *)
Theorem C7_one_attempt_failure_skipped svc text w :
  (exists v evs,
     analyze_single_review svc text w
     = (Ok v, mk_world (w_db w) (S (w_requests w)) (w_trace w ++ evs)%list)
     /\ requests evs = [Extraction text])
  /\ (failing svc (w_requests w) text = true ->
      analyze_single_review svc text w
      = (Ok VNone,
         mk_world (w_db w) (S (w_requests w))
           (w_trace w
            ++ [Create (Extraction text);
                Print ("Error analyzing review: "
                       ++ failure_text svc (w_requests w) text)])%list)
      /\ forall n i rest acc,
           analyze_loop svc n i ([text] :: rest) acc w
           = analyze_loop svc n (S i) rest acc
               (mk_world (w_db w) (S (w_requests w))
                  (w_trace w ++ step_events svc n i (w_requests w) text)%list)).
Proof.
  split.
  - rewrite analyze_single_review_spec. do 2 eexists. split; [reflexivity|].
    destruct (failing svc (w_requests w) text); reflexivity.
  - intros Hf. split.
    + rewrite analyze_single_review_spec, Hf, (failing_outcome_absent _ _ _ Hf).
      reflexivity.
    + intros n i rest acc. cbn [analyze_loop]. unfold bind.
      rewrite analyze_step_spec, (failing_outcome_absent _ _ _ Hf).
      rewrite accumulate_falsy by reflexivity. reflexivity.
Qed.

(** Three reviews, the first with a failing call, the second with a payload
    cut short: the third is still analyzed and is the one counted. *)
Lemma C7_third_review_still_analyzed :
  analyze_loop Cases.stub 3 0 (Cases.texts_of ["down"; "cut"; "good"])
    (mk_acc [] [] []) (mk_world (Cases.reviews_db []) 0 [])
  = analyze_loop Cases.stub 3 1 (Cases.texts_of ["cut"; "good"])
      (mk_acc [] [] [])
      (mk_world (Cases.reviews_db []) 1
         (step_events Cases.stub 3 0 0 (VStr "down")))
  /\ fst (analyze_loop Cases.stub 3 0 (Cases.texts_of ["down"; "cut"; "good"])
            (mk_acc [] [] []) (mk_world (Cases.reviews_db []) 0 []))
     = Ok (mk_acc [(VStr "good", Cases.analysis_positive)] [VStr "positive"] []).
Proof.
  destruct (C7_one_attempt_failure_skipped Cases.stub (VStr "down")
              (mk_world (Cases.reviews_db []) 0 [])) as [_ H].
  destruct (H eq_refl) as [_ Hloop].
  split; [apply (Hloop 3 0 (Cases.texts_of ["cut"; "good"]) (mk_acc [] [] []))|].
  reflexivity.
Defined.

(* ===================================================================== *)
(** ** The presentation step *)
(* ===================================================================== *)

Lemma insert_aspects_spec items :
  forallb is_dict items = true ->
  forall g,
    insert_aspects items g
    = (Ok tt, set_all_reviews (tab_all_reviews g ++ map aspect_line items)%list g).
Proof.
  induction items as [|a items IH]; intros Hd g.
  - simpl. unfold ret, set_all_reviews. rewrite app_nil_r. destruct g; reflexivity.
  - simpl in Hd. apply andb_prop in Hd as [Ha Hd].
    destruct a as [| | | | |d]; try discriminate.
    cbn [insert_aspects get lift]. unfold bind at 1. unfold lift at 1.
    unfold bind at 1. unfold lift at 1.
    insert_step.
    rewrite (IH Hd). cbn [map]. unfold set_all_reviews. cbn [tab_all_reviews
      analyze_button status_label tab_summary tab_sentiment tab_pos_aspects
      tab_neg_aspects].
    rewrite <- app_assoc. reflexivity.
Qed.

Lemma insert_reviews_spec results :
  forallb (fun ra => listable (snd ra)) results = true ->
  forall i g,
    insert_reviews i results g
    = (Ok tt, set_all_reviews (tab_all_reviews g ++ listing i results)%list g).
Proof.
  induction results as [|[r a] results IH]; intros Hl i g.
  - simpl. unfold ret, set_all_reviews. rewrite app_nil_r. destruct g; reflexivity.
  - cbn [forallb snd] in Hl. apply andb_prop in Hl as [Ha Hl].
    destruct a as [| | | | |d]; try discriminate.
    assert (exists more,
               match get (VDict d) "aspects" (VList []) with
               | Ok v => iterate v
               | Raise e => Raise e
               end = Ok more
               /\ forallb is_dict more = true
               /\ more = aspects_of (VDict d)) as (more & Hit & Hdict & Hmore).
    { simpl. simpl in Ha. destruct (lookup "aspects" d) as [v|].
      - destruct (iterate v) as [more|] eqn:E; [|discriminate].
        exists more. repeat split; [exact Ha|].
        rewrite (iterate_dicts _ _ E Ha). destruct v; reflexivity.
      - exists []. auto. }
    cbn [insert_reviews]. insert_step.
    insert_step.
    unfold bind at 1. unfold lift at 1. cbn [get].
    insert_step.
    insert_step.
    unfold bind at 1. unfold lift at 1.
    cbn [get] in Hit.
    destruct (lookup "aspects" d) as [v|] eqn:Hv.
    + unfold bind at 1. unfold lift at 1. rewrite Hit.
      unfold bind at 1. rewrite (insert_aspects_spec _ Hdict).
      insert_step.
      rewrite (IH Hl). unfold set_all_reviews. cbn [tab_all_reviews
        analyze_button status_label tab_summary tab_sentiment tab_pos_aspects
        tab_neg_aspects].
      subst more. cbn [listing]. unfold review_block.
      cbn [fst snd listed_sentiment].
      f_equal. f_equal. rewrite <- ?app_assoc. cbn [app].
      rewrite <- ?app_assoc. reflexivity.
    + unfold bind at 1. unfold lift at 1. rewrite Hit.
      unfold bind at 1. rewrite (insert_aspects_spec _ Hdict).
      insert_step.
      rewrite (IH Hl). unfold set_all_reviews. cbn [tab_all_reviews
        analyze_button status_label tab_summary tab_sentiment tab_pos_aspects
        tab_neg_aspects].
      subst more. cbn [listing]. unfold review_block.
      cbn [fst snd listed_sentiment].
      f_equal. f_equal. rewrite <- ?app_assoc. cbn [app].
      rewrite <- ?app_assoc. reflexivity.
Qed.

Lemma draw_word_cloud_spec plt tab words title g :
  cloud_drawn plt words = true ->
  exists w,
    draw_word_cloud plt tab words title g = (Ok tt, set_children tab [w] g)
    /\ (words = [] -> w = Label ("No " ++ lower title ++ " found.")).
Proof.
  unfold cloud_drawn, draw_word_cloud. intros H.
  destruct words as [|x words].
  - eexists. split; [|reflexivity].
    unfold bind, modify. destruct tab, g; reflexivity.
  - unfold bind at 1. unfold modify at 1. unfold bind at 1. unfold lift at 1.
    destruct (join " " (x :: words)) as [text|]; [|discriminate].
    destruct (generate_error plt text); [discriminate|].
    eexists. split; [|discriminate].
    unfold modify. destruct tab, g; reflexivity.
Qed.

(** The presentation step, when the chart and the clouds can be drawn and the
    results can be listed: every region gets its content. *)
Lemma populate_gui_spec plt s counts pos neg results g :
  draws plt counts pos neg = true ->
  forallb (fun ra => listable (snd ra)) results = true ->
  exists wp wn,
    populate_gui plt s counts pos neg results g
    = (Ok tt,
       mk_gui (analyze_button g) (status_label g) [s]
         [FigureCanvas (BarChart (keys counts) (values counts)
                          (map bar_color (keys counts)))]
         [wp] [wn] (listing 0 results))
    /\ (pos = [] -> wp = Label "No positive aspects found.")
    /\ (neg = [] -> wn = Label "No negative aspects found.").
Proof.
  unfold draws. intros Hd Hl.
  apply andb_prop in Hd as [Hbar Hd]. apply andb_prop in Hd as [Hp Hn].
  unfold populate_gui.
  unfold bind at 1. unfold modify at 1.
  unfold bind at 1. unfold modify at 1.
  unfold bind at 1. unfold draw_sentiment_chart.
  unfold bind at 1. unfold modify at 1.
  destruct (bar_error plt (keys counts) (values counts)); [discriminate|].
  unfold modify at 1.
  unfold bind at 1.
  match goal with
  | |- context [draw_word_cloud plt TabPosAspects pos ?t ?g0] =>
      destruct (draw_word_cloud_spec plt TabPosAspects pos t g0 Hp) as (wp & -> & Hwp)
  end.
  unfold bind at 1.
  match goal with
  | |- context [draw_word_cloud plt TabNegAspects neg ?t ?g0] =>
      destruct (draw_word_cloud_spec plt TabNegAspects neg t g0 Hn) as (wn & -> & Hwn)
  end.
  unfold bind at 1. unfold modify at 1.
  rewrite (insert_reviews_spec _ Hl).
  exists wp, wn. destruct g. split; [reflexivity|]. split; assumption.
Qed.

Lemma after_loop_presented svc rows s counts pos neg results :
  presentation svc rows = Some (PopulateGui s counts pos neg results) ->
  exists prompt,
    after_loop svc rows
    = [After (SetStatus "All reviews analyzed. Processing results...");
       After (SetStatus "Generating final summary and recommendations...");
       Create (Generation prompt);
       After (PopulateGui s counts pos neg results);
       After (SetStatus ("Analysis complete! Processed "
                         ++ str_nat (List.length rows) ++ " reviews."))].
Proof.
  unfold presentation, after_loop.
  destruct (accumulate_all _ _) as [acc|e]; [|discriminate].
  destruct (process_results acc) as [[[c p] n]|e]; [|discriminate].
  destruct (create_summary_prompt c p n) as [prompt|e]; [|discriminate].
  intros H. injection H as <- <- <- <- <-. now exists prompt.
Qed.

(** The window after a run that handed its results over: the presentation
    step applied to some window, then the last status and the button. *)
Lemma window_after_presented svc plt g d rows s counts pos neg results :
  loads d rows -> rows <> [] ->
  handed_over (run_trace svc d) = Some (PopulateGui s counts pos neg results) ->
  exists g1,
    window_after svc plt g d
    = set_button (Normal, button_label)
        (set_status ("Analysis complete! Processed "
                     ++ str_nat (List.length rows) ++ " reviews.")
           (snd (populate_gui plt s counts pos neg results g1))).
Proof.
  intros Hl Hne Hh. rewrite (run_presentation svc d rows Hl Hne) in Hh.
  destruct (after_loop_presented _ _ _ _ _ _ _ Hh) as [prompt Hafter].
  destruct (run_analysis_loaded svc d rows Hl Hne) as (evs & _ & _ & Htr).
  unfold window_after. rewrite Htr, Hafter.
  cbn [mainloop connecting]. rewrite mainloop_app. cbn [mainloop app run_callback].
  eexists. reflexivity.
Qed.

Lemma shown_listing results : forall i,
  flat_map shown_review (listing i results) = map fst results
  /\ flat_map shown_sentiment (listing i results)
     = map (fun ra => listed_sentiment (snd ra)) results
  /\ flat_map shown_aspect (listing i results)
     = flat_map (fun ra => map listed_aspect (aspects_of (snd ra))) results.
Proof.
  assert (forall l, flat_map shown_review (map aspect_line l) = []
                    /\ flat_map shown_sentiment (map aspect_line l) = []
                    /\ flat_map shown_aspect (map aspect_line l) = map listed_aspect l)
    as Hlines.
  { induction l as [|a l (IH1 & IH2 & IH3)]; [auto|].
    cbn [map flat_map]. rewrite IH1, IH2, IH3.
    unfold aspect_line. cbn. destruct (listed_aspect a). auto. }
  induction results as [|[r a] results IH]; intros i; [auto|].
  destruct (IH (S i)) as (IH1 & IH2 & IH3).
  destruct (Hlines (aspects_of a)) as (H1 & H2 & H3).
  cbn [listing]. unfold review_block. cbn [fst snd].
  rewrite !flat_map_app. cbn [flat_map map].
  rewrite !flat_map_app, IH1, IH2, IH3, H1, H2, H3.
  cbn. rewrite app_nil_r. auto.
Qed.

Lemma accumulate_truthy_listable r a acc acc' :
  truthy a = true -> accumulate r a acc = Ok acc' ->
  exists more,
    all_aspects acc' = (all_aspects acc ++ more)%list
    /\ (forallb is_dict more = true -> listable a = true).
Proof.
  intros Ht. unfold accumulate. rewrite Ht.
  destruct a as [| | | | |d]; simpl; try discriminate.
  destruct (lookup "aspects" d) as [v|].
  - destruct (iterate v) as [more|e]; [|discriminate].
    intros H. injection H as <-. exists more. auto.
  - simpl. intros H. injection H as <-. exists []. cbn. rewrite app_nil_r. auto.
Qed.

Lemma accumulate_all_listable results : forall acc acc',
  accumulate_all results acc = Ok acc' ->
  forallb is_dict (all_aspects acc') = true ->
  forallb (fun ra => listable (snd ra)) (counted results) = true.
Proof.
  induction results as [|[r a] results IH]; intros acc acc' H Hd; [reflexivity|].
  cbn [accumulate_all] in H.
  destruct (accumulate r a acc) as [acc1|e] eqn:E; [|discriminate].
  unfold counted in *. cbn [filter snd].
  destruct (truthy a) eqn:Ht; [|now apply (IH acc1 acc')].
  cbn [forallb snd]. rewrite (IH acc1 acc' H Hd), andb_true_r.
  destruct (accumulate_truthy_listable _ _ _ _ Ht E) as (more & Ha & Hlist).
  destruct (accumulate_all_spec _ _ _ H) as (extra & _ & _ & Hextra & _).
  apply Hlist. rewrite Hextra, Ha, !forallb_app in Hd.
  apply andb_prop in Hd as [Hd _]. apply andb_prop in Hd as [_ Hd]. exact Hd.
Qed.

Lemma presentation_listable svc rows s counts pos neg results :
  presentation svc rows = Some (PopulateGui s counts pos neg results) ->
  forallb (fun ra => listable (snd ra)) results = true.
Proof.
  intros H. destruct (presentation_aggregate _ _ _ _ _ _ _ H) as (_ & -> & _).
  revert H. unfold presentation.
  destruct (accumulate_all _ _) as [acc|e] eqn:E; [|discriminate].
  unfold process_results.
  destruct (Counter _); [|discriminate].
  destruct (features_with "positive" (all_aspects acc)) as [p|] eqn:Hp; [|discriminate].
  intros _. apply features_with_spec in Hp as [Hd _].
  exact (accumulate_all_listable _ _ _ E Hd).
Qed.

Lemma map_fst_reviewed svc rows : forall k,
  map fst (reviewed svc k rows) = map (hd VNone) rows.
Proof. induction rows as [|row rows IH]; intros k; simpl; [|rewrite IH]; reflexivity. Qed.

Lemma counted_all results :
  forallb (fun ra => truthy (snd ra)) results = true -> counted results = results.
Proof.
  unfold counted. induction results as [|ra results IH]; simpl; intros H; [reflexivity|].
  apply andb_prop in H as [Ha H]. rewrite Ha, IH by exact H. reflexivity.
Qed.

(* ===================================================================== *)
(** ** C8 *)
(* ===================================================================== *)

(** C8, as worded, fails: of two reviews the first has a payload cut short;
    the run completes and the listing shows the second review only. *)
Lemma C8_failed_review_not_listed :
  ~ Cases.listing_shows_every_review Cases.stub Cases.plots initial_gui
      (Cases.reviews_db ["cut"; "good"]).
Proof.
  intros H.
  assert (loads (Cases.reviews_db ["cut"; "good"]) (Cases.texts_of ["cut"; "good"]))
    as Hl by (eexists; split; reflexivity).
  specialize (H _ Hl ltac:(discriminate) ltac:(discriminate)).
  vm_compute in H. discriminate.
Qed.

(** C8, amended.  After a run that handed its results to the presentation
    step, and when the chart and the word clouds can be drawn, the raw listing
    is, for the reviews whose analysis is neither absent nor empty and in the
    order Data Access returned the rows, one block per review and nothing
    else: the header "--- REVIEW k ---" with k the place of the review among
    those listed (from 1), the text of the review, the line of its own
    sentiment ("N/A" when the field is missing), the line "Aspects:", one
    line per aspect of that review with its feature and its sentiment, and a
    blank line.  So the reviews, sentiments and aspect lines it shows are
    those of the listed reviews, in order, and it shows every review loaded
    when no analysis is absent or empty. *)
Theorem C8_listing_shows_analyzed_reviews svc plt g d rows s counts pos neg results :
  loads d rows -> rows <> [] ->
  handed_over (run_trace svc d) = Some (PopulateGui s counts pos neg results) ->
  draws plt counts pos neg = true ->
  let listed := filter (fun ra => truthy (snd ra)) (reviewed svc 0 rows) in
  tab_all_reviews (window_after svc plt g d) = listing 0 listed
  /\ shown_reviews (window_after svc plt g d) = map fst listed
  /\ shown_sentiments (window_after svc plt g d)
     = map (fun ra => listed_sentiment (snd ra)) listed
  /\ shown_aspects (window_after svc plt g d)
     = flat_map (fun ra => map listed_aspect (aspects_of (snd ra))) listed
  /\ map fst (reviewed svc 0 rows) = map (hd VNone) rows
  /\ (forallb (fun ra => truthy (snd ra)) (reviewed svc 0 rows) = true ->
      shown_reviews (window_after svc plt g d) = map (hd VNone) rows).
Proof.
  intros Hl Hne Hh Hdraw listed.
  destruct (window_after_presented svc plt g d rows _ _ _ _ _ Hl Hne Hh) as [g1 Hw].
  rewrite (run_presentation svc d rows Hl Hne) in Hh.
  pose proof (presentation_listable _ _ _ _ _ _ _ Hh) as Hlist.
  destruct (presentation_aggregate _ _ _ _ _ _ _ Hh) as (_ & Hres & _).
  destruct (populate_gui_spec plt s counts pos neg results g1 Hdraw Hlist)
    as (wp & wn & Hpop & _).
  rewrite Hpop in Hw. cbn [snd] in Hw.
  assert (tab_all_reviews (window_after svc plt g d) = listing 0 listed) as Htab.
  { rewrite Hw. cbn [set_button set_status tab_all_reviews]. now rewrite Hres. }
  split; [exact Htab|].
  unfold shown_reviews, shown_sentiments, shown_aspects. rewrite Htab.
  destruct (shown_listing listed 0) as (H1 & H2 & H3).
  rewrite H1, H2, H3.
  split; [reflexivity|]. split; [reflexivity|]. split; [reflexivity|].
  split; [apply map_fst_reviewed|].
  intros Hall. unfold listed. fold (counted (reviewed svc 0 rows)).
  rewrite (counted_all _ Hall). apply map_fst_reviewed.
Qed.

(** Three reviews, the second with a failing call: the first and the third
    are listed, in that order and numbered 1 and 2, the first with no aspect
    line and the third with its two. *)
Lemma C8_first_and_third_listed :
  let w := window_after Cases.stub Cases.plots initial_gui
             (Cases.reviews_db ["good"; "down"; "bad"]) in
  tab_all_reviews w
  = [([Lit ("--- REVIEW 1 ---" ++ nl)], ["h1"]);
     ([Str (VStr "good"); Lit (nl ++ nl)], []);
     ([Lit "Sentiment: "; Str (VStr "positive"); Lit nl], ["bold"]);
     ([Lit ("Aspects:" ++ nl)], []);
     ([Lit (nl ++ nl)], []);
     ([Lit ("--- REVIEW 2 ---" ++ nl)], ["h1"]);
     ([Str (VStr "bad"); Lit (nl ++ nl)], []);
     ([Lit "Sentiment: "; Str (VStr "negative"); Lit nl], ["bold"]);
     ([Lit ("Aspects:" ++ nl)], []);
     ([Lit "  - "; Str (VStr "Price"); Lit ": "; Str (VStr "negative"); Lit nl], []);
     ([Lit "  - "; Str (VStr "display"); Lit ": "; Str (VStr "neutral"); Lit nl], []);
     ([Lit (nl ++ nl)], [])]
  /\ shown_reviews w = [VStr "good"; VStr "bad"]
  /\ shown_sentiments w = [VStr "positive"; VStr "negative"]
  /\ shown_aspects w = [(VStr "Price", VStr "negative"); (VStr "display", VStr "neutral")].
Proof.
  assert (loads (Cases.reviews_db ["good"; "down"; "bad"])
                (Cases.texts_of ["good"; "down"; "bad"])) as Hl
    by (eexists; split; reflexivity).
  destruct (C8_listing_shows_analyzed_reviews Cases.stub Cases.plots initial_gui
              _ _ _ _ _ _ _ Hl ltac:(discriminate) eq_refl eq_refl)
    as (H0 & H1 & H2 & H3 & _).
  cbv zeta. rewrite H0, H1, H2, H3. repeat split.
Defined.

(* ===================================================================== *)
(** ** C10 *)
(* ===================================================================== *)

Lemma accumulate_all_absent results : forall acc,
  forallb absent (map snd results) = true -> accumulate_all results acc = Ok acc.
Proof.
  induction results as [|[r a] results IH]; intros acc H; [reflexivity|].
  cbn [map snd forallb] in H. apply andb_prop in H as [Ha H].
  destruct a; try discriminate. cbn [accumulate_all].
  rewrite accumulate_falsy by reflexivity. now apply IH.
Qed.

Lemma presentation_all_absent svc rows :
  forallb absent (map snd (reviewed svc 0 rows)) = true ->
  presentation svc rows
  = Some (PopulateGui (summary_text svc (List.length rows) (mk_prompt [] [] []))
            [] [] [] []).
Proof.
  intros H. unfold presentation. now rewrite (accumulate_all_absent _ _ H).
Qed.

(** C10.  When the analysis of every review of a non-empty set is absent, the
    run does not abort: the summary is requested for the empty distribution,
    empty counts and word lists are handed to the presentation step, and the
    run ends on "Analysis complete!".  [draw_word_cloud] on an empty list puts
    the label "No ... found." in the tab and asks for no word cloud; so, when
    the empty bar chart can be drawn, the two aspect tabs show "No positive
    aspects found." and "No negative aspects found.". *)
Theorem C10_all_analyses_absent svc plt g d rows :
  loads d rows -> rows <> [] ->
  forallb absent (map snd (reviewed svc 0 rows)) = true ->
  let empty := mk_prompt [] [] [] in
  let summary := summary_text svc (List.length rows) empty in
  let w := window_after svc plt g d in
  In (Create (Generation empty)) (run_trace svc d)
  /\ handed_over (run_trace svc d) = Some (PopulateGui summary [] [] [] [])
  /\ (forall tab title g0,
        draw_word_cloud plt tab [] title g0
        = (Ok tt, set_children tab [Label ("No " ++ lower title ++ " found.")] g0))
  /\ (bar_error plt [] [] = None ->
      tab_summary w = [summary]
      /\ tab_pos_aspects w = [Label "No positive aspects found."]
      /\ tab_neg_aspects w = [Label "No negative aspects found."]
      /\ tab_all_reviews w = []
      /\ status_label w
         = "Analysis complete! Processed " ++ str_nat (List.length rows) ++ " reviews."
      /\ analyze_button w = (Normal, button_label)).
Proof.
  intros Hl Hne Habs empty summary w.
  pose proof (presentation_all_absent svc rows Habs) as Hp.
  assert (handed_over (run_trace svc d) = Some (PopulateGui summary [] [] [] [])) as Hh
    by now rewrite (run_presentation svc d rows Hl Hne).
  split; [|split; [exact Hh|split]].
  - destruct (after_loop_presented _ _ _ _ _ _ _ Hp) as [prompt Hafter].
    destruct (run_analysis_loaded svc d rows Hl Hne) as (evs & _ & _ & ->).
    assert (prompt = empty) as ->.
    { revert Hafter. unfold after_loop.
      rewrite (accumulate_all_absent _ _ Habs). cbn.
      intros H. now injection H. }
    rewrite Hafter. right. right. apply in_or_app. right. cbn. auto.
  - intros tab title g0. unfold draw_word_cloud, bind, modify.
    destruct tab, g0; reflexivity.
  - intros Hbar.
    destruct (window_after_presented svc plt g d rows _ _ _ _ _ Hl Hne Hh) as [g1 Hw].
    destruct (populate_gui_spec plt summary [] [] [] [] g1) as (wp & wn & Hpop & Hwp & Hwn).
    { unfold draws. cbn. now rewrite Hbar. }
    { reflexivity. }
    unfold w. rewrite Hw, Hpop, (Hwp eq_refl), (Hwn eq_refl). repeat split.
Qed.

(** Two reviews, a failing call and a payload cut short. *)
Lemma C10_two_failures_still_presented :
  let w := window_after Cases.stub Cases.plots initial_gui
             (Cases.reviews_db ["down"; "cut"]) in
  handed_over (run_trace Cases.stub (Cases.reviews_db ["down"; "cut"]))
  = Some (PopulateGui "**Executive Summary:**" [] [] [] [])
  /\ tab_pos_aspects w = [Label "No positive aspects found."]
  /\ tab_neg_aspects w = [Label "No negative aspects found."]
  /\ status_label w = "Analysis complete! Processed 2 reviews.".
Proof.
  assert (loads (Cases.reviews_db ["down"; "cut"]) (Cases.texts_of ["down"; "cut"]))
    as Hl by (eexists; split; reflexivity).
  destruct (C10_all_analyses_absent Cases.stub Cases.plots initial_gui _ _ Hl
              ltac:(discriminate) eq_refl) as (_ & Hh & _ & Hw).
  destruct (Hw eq_refl) as (_ & Hp & Hn & _ & Hs & _).
  cbv zeta. rewrite Hh, Hp, Hn, Hs. repeat split.
Defined.

(* ===================================================================== *)
(** ** Further properties of the pipeline *)
(* ===================================================================== *)

Import Observations.

(** *** The trace of a run, event by event *)

Lemma analyze_loop_events svc rows :
  forallb one_tuple rows = true ->
  forall n i acc w,
    analyze_loop svc n i rows acc w
    = (accumulate_all (reviewed svc (w_requests w) rows) acc,
       mk_world (w_db w) (w_requests w + attempted svc (w_requests w) rows acc)
         (w_trace w ++ loop_events svc n i (w_requests w) rows acc)%list).
Proof.
  induction rows as [|row rows IH]; intros Hrows n i acc w.
  - simpl. unfold ret. rewrite Nat.add_0_r, app_nil_r. destruct w; reflexivity.
  - simpl in Hrows. apply andb_prop in Hrows as [Hrow Hrows].
    destruct row as [|text [|? ?]]; try discriminate.
    cbn [analyze_loop reviewed hd accumulate_all loop_events attempted].
    unfold bind. rewrite analyze_step_spec.
    destruct (accumulate text (analysis_outcome svc (w_requests w) text) acc)
      as [acc'|e].
    + rewrite (IH Hrows). cbn [w_db w_requests w_trace].
      rewrite <- app_assoc, <- Nat.add_succ_comm. reflexivity.
    + rewrite app_nil_r, Nat.add_1_r. reflexivity.
Qed.

Lemma run_trace_loaded svc d rows :
  loads d rows -> rows <> [] ->
  run_trace svc d
  = (connecting
     :: After (SetStatus ("Loaded " ++ str_nat (List.length rows) ++ " reviews."))
     :: loop_events svc (List.length rows) 0 0 rows (mk_acc [] [] [])
        ++ after_loop svc rows ++ [After EnableButton])%list.
Proof.
  intros (d1 & Hc & Hs) Hne.
  pose proof (select_one_tuple _ _ _ _ _ Hs) as Hone.
  unfold run_trace, run_analysis, finally, try_except, run_analysis_body.
  status_step. db_step Hc. db_step Hs.
  unfold bind at 1. unfold on_db at 1, Sqlite.close, modify at 1.
  cbn [w_db w_requests w_trace].
  destruct rows as [|row rows']; [contradiction|].
  remember (row :: rows') as rows eqn:Hrows.
  status_step.
  unfold bind at 1. rewrite (analyze_loop_events svc rows Hone).
  cbn [w_db w_requests w_trace]. unfold after_loop.
  assert (is_ok (accumulate_all (reviewed svc 0 rows) (mk_acc [] [] [])) = true ->
          attempted svc 0 rows (mk_acc [] [] []) = List.length rows) as Hatt.
  { clear. generalize (mk_acc [] [] []) as acc. generalize 0 as k.
    induction rows as [|r rs IH]; intros k acc H; [reflexivity|].
    cbn [reviewed accumulate_all attempted] in *.
    destruct (accumulate _ _ acc) as [acc'|]; [|discriminate].
    now rewrite IH. }
  destruct (accumulate_all (reviewed svc 0 rows) (mk_acc [] [] [])) as [acc|e].
  - rewrite (Hatt eq_refl).
    status_step.
    unfold bind at 1. unfold lift at 1.
    destruct (process_results acc) as [[[c p] n]|e].
    + status_step.
      unfold bind at 1. unfold lift at 1.
      destruct (create_summary_prompt c p n) as [prompt|e].
      * unfold bind at 1. rewrite get_final_summary_spec.
        cbn [w_db w_requests w_trace].
        unfold bind at 1. unfold emit at 1, modify at 1.
        cbn [w_db w_requests w_trace].
        unfold update_status, emit, modify. cbn [w_db w_requests w_trace snd].
        cbn [app]. rewrite <- !app_assoc. reflexivity.
      * rewrite run_analysis_handler_diagnostic. unfold emit, modify.
        cbn [w_db w_requests w_trace snd app]. rewrite <- !app_assoc. reflexivity.
    + rewrite run_analysis_handler_diagnostic. unfold emit, modify.
      cbn [w_db w_requests w_trace snd app]. rewrite <- !app_assoc. reflexivity.
  - rewrite run_analysis_handler_diagnostic. unfold emit, modify.
    cbn [w_db w_requests w_trace snd app]. rewrite <- !app_assoc. reflexivity.
Qed.

Lemma attempted_all svc rows : forall k acc,
  is_ok (accumulate_all (reviewed svc k rows) acc) = true ->
  attempted svc k rows acc = List.length rows.
Proof.
  induction rows as [|r rs IH]; intros k acc H; [reflexivity|].
  cbn [reviewed accumulate_all attempted] in *.
  destruct (accumulate _ _ acc) as [acc'|]; [|discriminate].
  now rewrite IH.
Qed.

Lemma requests_step_events svc n i k text :
  requests (step_events svc n i k text) = [Extraction text].
Proof. unfold step_events. destruct (failing svc k text); reflexivity. Qed.

Lemma statuses_step_events svc n i k text :
  statuses (step_events svc n i k text) = [analyzing_status n (i + 1)].
Proof. unfold step_events. destruct (failing svc k text); reflexivity. Qed.

Lemma requests_loop_events svc n rows : forall i k acc,
  requests (loop_events svc n i k rows acc)
  = map (fun row => Extraction (hd VNone row)) (firstn (attempted svc k rows acc) rows).
Proof.
  induction rows as [|row rows IH]; intros i k acc; [reflexivity|].
  cbn [loop_events attempted firstn map].
  rewrite requests_app, requests_step_events. cbn [app]. f_equal.
  destruct (accumulate _ _ acc); [apply IH|reflexivity].
Qed.

Lemma statuses_loop_events svc n rows : forall i k acc,
  statuses (loop_events svc n i k rows acc)
  = map (analyzing_status n) (seq (S i) (attempted svc k rows acc)).
Proof.
  induction rows as [|row rows IH]; intros i k acc; [reflexivity|].
  cbn [loop_events attempted seq map].
  rewrite statuses_app, statuses_step_events, Nat.add_1_r. cbn [app]. f_equal.
  destruct (accumulate _ _ acc); [apply IH|reflexivity].
Qed.

Lemma after_loop_handed_over svc rows s counts pos neg results :
  presentation svc rows = Some (PopulateGui s counts pos neg results) ->
  exists prompt,
    create_summary_prompt counts pos neg = Ok prompt
    /\ is_ok (accumulate_all (reviewed svc 0 rows) (mk_acc [] [] [])) = true
    /\ after_loop svc rows
       = [After (SetStatus "All reviews analyzed. Processing results...");
          After (SetStatus "Generating final summary and recommendations...");
          Create (Generation prompt);
          After (PopulateGui s counts pos neg results);
          After (SetStatus ("Analysis complete! Processed "
                            ++ str_nat (List.length rows) ++ " reviews."))].
Proof.
  unfold presentation, after_loop.
  destruct (accumulate_all _ _) as [acc|e]; [|discriminate].
  destruct (process_results acc) as [[[c p] n]|e]; [|discriminate].
  destruct (create_summary_prompt c p n) as [prompt|e] eqn:P; [|discriminate].
  intros H. injection H as <- <- <- <- <-. exists prompt. rewrite P. auto.
Qed.

(** X1.  In a run that hands its results to the presentation step, every
    review loaded is sent to the service once, in the order of the rows, and
    one summary request follows, for the prompt built from the handed-over
    counts and word lists: [n + 1] requests for [n] reviews. *)
Theorem completed_run_requests svc d rows s counts pos neg results :
  loads d rows -> rows <> [] ->
  handed_over (run_trace svc d) = Some (PopulateGui s counts pos neg results) ->
  exists prompt,
    create_summary_prompt counts pos neg = Ok prompt
    /\ requests (run_trace svc d)
       = (map (fun row => Extraction (hd VNone row)) rows ++ [Generation prompt])%list
    /\ List.length (requests (run_trace svc d)) = S (List.length rows).
Proof.
  intros Hl Hne Hh. rewrite (run_presentation svc d rows Hl Hne) in Hh.
  destruct (after_loop_handed_over _ _ _ _ _ _ _ Hh) as (prompt & Hp & Hok & Hafter).
  exists prompt. split; [exact Hp|].
  assert (requests (run_trace svc d)
          = (map (fun row => Extraction (hd VNone row)) rows ++ [Generation prompt])%list)
    as Hreq.
  { rewrite (run_trace_loaded svc d rows Hl Hne), Hafter.
    cbn [requests connecting]. rewrite requests_app, requests_loop_events.
    rewrite (attempted_all _ _ _ _ Hok), firstn_all. reflexivity. }
  split; [exact Hreq|].
  rewrite Hreq, length_app, length_map. cbn. lia.
Qed.

Lemma completed_run_requests_example :
  requests (run_trace Cases.stub (Cases.reviews_db ["good"; "down"; "bad"]))
  = [Extraction (VStr "good"); Extraction (VStr "down"); Extraction (VStr "bad");
     Generation (mk_prompt [(VStr "positive", 1); (VStr "negative", 1)]
                   [] [(VStr "Price", 1)])].
Proof.
  assert (loads (Cases.reviews_db ["good"; "down"; "bad"])
                (Cases.texts_of ["good"; "down"; "bad"])) as Hl
    by (eexists; split; reflexivity).
  destruct (completed_run_requests Cases.stub _ _ _ _ _ _ _ Hl ltac:(discriminate) eq_refl)
    as (prompt & Hp & Hreq & _).
  rewrite Hreq. injection Hp as <-. reflexivity.
Defined.

(** X2.  The status line of such a run goes through "Connecting...", "Loaded
    n reviews.", "Analyzing review i of n..." for i from 1 to n, "All reviews
    analyzed...", "Generating final summary...", and ends on "Analysis
    complete! Processed n reviews.". *)
Theorem completed_run_statuses svc d rows s counts pos neg results :
  loads d rows -> rows <> [] ->
  handed_over (run_trace svc d) = Some (PopulateGui s counts pos neg results) ->
  let n := List.length rows in
  statuses (run_trace svc d)
  = "Connecting to database 'feedback.db'..."
    :: ("Loaded " ++ str_nat n ++ " reviews.")
    :: List.app
         (map (analyzing_status n) (seq 1 n))
         ["All reviews analyzed. Processing results...";
          "Generating final summary and recommendations...";
          "Analysis complete! Processed " ++ str_nat n ++ " reviews."].
Proof.
  intros Hl Hne Hh n. rewrite (run_presentation svc d rows Hl Hne) in Hh.
  destruct (after_loop_handed_over _ _ _ _ _ _ _ Hh) as (prompt & _ & Hok & Hafter).
  rewrite (run_trace_loaded svc d rows Hl Hne), Hafter.
  cbn [statuses connecting]. rewrite statuses_app, statuses_loop_events.
  rewrite (attempted_all _ _ _ _ Hok). reflexivity.
Qed.

Lemma completed_run_statuses_example :
  statuses (run_trace Cases.stub (Cases.reviews_db ["good"; "down"]))
  = ["Connecting to database 'feedback.db'...";
     "Loaded 2 reviews.";
     "Analyzing review 1 of 2...";
     "Analyzing review 2 of 2...";
     "All reviews analyzed. Processing results...";
     "Generating final summary and recommendations...";
     "Analysis complete! Processed 2 reviews."].
Proof.
  assert (loads (Cases.reviews_db ["good"; "down"]) (Cases.texts_of ["good"; "down"]))
    as Hl by (eexists; split; reflexivity).
  rewrite (completed_run_statuses Cases.stub _ _ _ _ _ _ _ Hl ltac:(discriminate) eq_refl).
  reflexivity.
Defined.

(** *** Store failures *)

Lemma store_raises_trace svc d e :
  store_raises d e ->
  run_trace svc d = [connecting; After (SetStatus (diagnostic e)); After EnableButton].
Proof.
  intros [(d1 & Hc)|(d1 & d2 & Hc & Hs)]; unfold run_trace.
  - now rewrite (run_analysis_connect_fails svc d e d1 Hc).
  - now rewrite (run_analysis_select_fails svc d e d1 d2 Hc Hs).
Qed.

(** X3.  When opening the store or the query raises, the run sends nothing to
    the service and hands nothing to the presentation step; its one notice
    after "Connecting..." carries the text of the exception, as "Database
    Error: ... Check 'feedback.db', table 'reviews', or column 'review_text'."
    for an [sqlite3.OperationalError], and as "An unexpected error occurred:
    ..." for any other exception, another [sqlite3.Error] included; the
    window ends on that notice with the button enabled and every tab empty. *)
Theorem store_failure_aborts_run svc plt g d e :
  store_raises d e ->
  requests (run_trace svc d) = []
  /\ handed_over (run_trace svc d) = None
  /\ statuses (run_trace svc d)
     = ["Connecting to database 'feedback.db'...";
        if is_operational e
        then "Database Error: " ++ exn_msg e
             ++ ". Check 'feedback.db', table 'reviews', or column 'review_text'."
        else "An unexpected error occurred: " ++ exn_msg e]
  /\ window_after svc plt g d
     = mk_gui (Normal, button_label)
         (if is_operational e
          then "Database Error: " ++ exn_msg e
               ++ ". Check 'feedback.db', table 'reviews', or column 'review_text'."
          else "An unexpected error occurred: " ++ exn_msg e)
         [] [] [] [] [].
Proof.
  intros H. unfold window_after. rewrite (store_raises_trace svc d e H).
  unfold diagnostic. destruct g. repeat split.
Qed.

(** A file that is not a database: the query raises [sqlite3.DatabaseError],
    which the first [except] clause does not catch. *)
Lemma store_failure_not_a_database :
  statuses (run_trace Cases.stub (Sqlite.mk_db Sqlite.NotADatabase 0))
  = ["Connecting to database 'feedback.db'...";
     "An unexpected error occurred: file is not a database"].
Proof.
  destruct (store_failure_aborts_run Cases.stub Cases.plots initial_gui
              (Sqlite.mk_db Sqlite.NotADatabase 0)
              (mk_exn DatabaseError "file is not a database"))
    as (_ & _ & Hs & _).
  - right. do 2 eexists. split; reflexivity.
  - exact Hs.
Defined.

(** X4.  With no file at [feedback.db] in a folder where one can be created,
    a run of the pipeline leaves an empty database there, with its connection
    open; the viewer, which creates nothing and says "Database file not
    found" before that run, says "no such table: reviews" after it. *)
Theorem pipeline_creates_missing_file svc n :
  let d := Sqlite.mk_db (Sqlite.NoFile true) n in
  let d' := w_db (snd (run_analysis svc (mk_world d 0 []))) in
  d' = Sqlite.mk_db (Sqlite.Database []) (S n)
  /\ DatabaseTest.v_db (viewer_run d) = d
  /\ DatabaseTest.dialogs (viewer_run d)
     = [DatabaseTest.ShowError "Error"
          ("Database file not found: feedback.db" ++ nl
           ++ "Please place it in the same folder as the script.")]
  /\ DatabaseTest.dialogs (viewer_run d')
     = [DatabaseTest.ShowError "Database Error"
          ("An error occurred: no such table: reviews" ++ nl ++ nl
           ++ "Could not read table 'reviews'.")].
Proof. repeat split. Qed.

(** *** The window over a run *)

Lemma run_trace_starts_connecting svc d :
  exists tr, run_trace svc d = connecting :: tr.
Proof.
  destruct (run_cases svc d) as [[e ->]|[Hl|(rows & Hl & Hne)]].
  - eauto.
  - rewrite (run_analysis_empty svc d Hl). eauto.
  - rewrite (run_trace_loaded svc d rows Hl Hne). eauto.
Qed.

(** X5.  What the window shows after a run does not depend on what it showed
    before: [start_analysis_thread] empties the five tabs and disables the
    button, and the first callback of the run replaces the status. *)
Theorem run_replaces_previous_display svc plt g g' d :
  window_after svc plt g d = window_after svc plt g' d.
Proof.
  unfold window_after. destruct (run_trace_starts_connecting svc d) as [tr ->].
  cbn [mainloop connecting run_callback]. destruct g, g'. reflexivity.
Qed.

Lemma keeps_controls_bind {A B} (m : M gui A) (k : A -> M gui B) :
  keeps_controls m -> (forall a, keeps_controls (k a)) -> keeps_controls (bind m k).
Proof.
  intros Hm Hk g. unfold bind. specialize (Hm g).
  destruct (m g) as [[a|e] g1]; cbn [snd] in *; [|exact Hm].
  destruct (Hk a g1) as [Hb Hs]. destruct Hm as [Hb1 Hs1]. split; congruence.
Qed.

Lemma keeps_controls_modify (f : gui -> gui) :
  (forall g, analyze_button (f g) = analyze_button g
             /\ status_label (f g) = status_label g) ->
  keeps_controls (modify f).
Proof. intros H g. apply H. Qed.

Lemma keeps_controls_lift {A} (r : result A) : keeps_controls (lift r).
Proof. intros g. split; reflexivity. Qed.

Lemma keeps_controls_set_children tab ws :
  keeps_controls (modify (set_children tab ws)).
Proof. apply keeps_controls_modify. intros g. destruct tab; split; reflexivity. Qed.

Lemma keeps_controls_insert_review_text text tags :
  keeps_controls (insert_review_text text tags).
Proof. apply keeps_controls_modify. intros g. split; reflexivity. Qed.

Lemma keeps_controls_insert_aspects items : keeps_controls (insert_aspects items).
Proof.
  induction items as [|a items IH]; cbn [insert_aspects].
  - intros g. split; reflexivity.
  - repeat (apply keeps_controls_bind; [|intros ?]);
      auto using keeps_controls_lift, keeps_controls_insert_review_text.
Qed.

Lemma keeps_controls_insert_reviews results : forall i,
  keeps_controls (insert_reviews i results).
Proof.
  induction results as [|[r a] results IH]; intros i; cbn [insert_reviews].
  - intros g. split; reflexivity.
  - repeat (apply keeps_controls_bind; [|intros ?]);
      auto using keeps_controls_lift, keeps_controls_insert_review_text,
        keeps_controls_insert_aspects.
Qed.

Lemma keeps_controls_draw_word_cloud plt tab words title :
  keeps_controls (draw_word_cloud plt tab words title).
Proof.
  unfold draw_word_cloud.
  apply keeps_controls_bind; [apply keeps_controls_set_children|intros _].
  destruct words as [|w words].
  - apply keeps_controls_modify. intros g. destruct tab; split; reflexivity.
  - apply keeps_controls_bind; [apply keeps_controls_lift|intros text].
    destruct (generate_error plt text).
    + intros g. split; reflexivity.
    + apply keeps_controls_modify. intros g. destruct tab; split; reflexivity.
Qed.

Lemma keeps_controls_draw_sentiment_chart plt counts :
  keeps_controls (draw_sentiment_chart plt counts).
Proof.
  unfold draw_sentiment_chart.
  apply keeps_controls_bind; [apply keeps_controls_set_children|intros _].
  destruct (bar_error plt (keys counts) (values counts)).
  - intros g. split; reflexivity.
  - apply keeps_controls_modify. intros g. split; reflexivity.
Qed.

(** The presentation step, whether it succeeds or raises, leaves the button
    and the status line alone. *)
Lemma keeps_controls_populate_gui plt s counts pos neg results :
  keeps_controls (populate_gui plt s counts pos neg results).
Proof.
  assert (forall f : gui -> gui,
             (forall g, f g = set_summary (tab_summary (f g)) g
                        \/ f g = set_all_reviews (tab_all_reviews (f g)) g) ->
             keeps_controls (modify f)) as Hmod.
  { intros f Hf. apply keeps_controls_modify. intros g.
    destruct (Hf g) as [-> | ->]; split; reflexivity. }
  unfold populate_gui.
  apply keeps_controls_bind; [apply Hmod; intros g; now left|intros _].
  apply keeps_controls_bind; [apply Hmod; intros g; now left|intros _].
  apply keeps_controls_bind; [apply keeps_controls_draw_sentiment_chart|intros _].
  apply keeps_controls_bind; [apply keeps_controls_draw_word_cloud|intros _].
  apply keeps_controls_bind; [apply keeps_controls_draw_word_cloud|intros _].
  apply keeps_controls_bind; [apply Hmod; intros g; now right|intros _].
  apply keeps_controls_insert_reviews.
Qed.

Lemma mainloop_keeps_button plt tr : forall g,
  enables tr = 0 -> analyze_button (mainloop plt tr g) = analyze_button g.
Proof.
  induction tr as [|e tr IH]; intros g H; [reflexivity|].
  destruct e as [[m| |s c p n r]| |]; cbn [enables mainloop] in *;
    try discriminate; rewrite (IH _ H); try reflexivity.
  cbn [run_callback]. apply keeps_controls_populate_gui.
Qed.

(** X6.  The button is disabled, with the label "Analyzing... Please
    Wait...", from the press until the first re-enabling callback of the run:
    no status update and no presentation step, failed or not, touches it.
    After the last callback of the run, whatever the store and the service
    did, it is enabled again with its first label. *)
Theorem button_disabled_then_enabled svc plt g d :
  (forall before rest,
     run_trace svc d = (before ++ rest)%list -> enables before = 0 ->
     analyze_button (mainloop plt before (start_analysis_thread g))
     = (Disabled, "Analyzing... Please Wait..."))
  /\ analyze_button (window_after svc plt g d) = (Normal, "Analyze All Customer Reviews").
Proof.
  split.
  - intros before rest _ H. rewrite (mainloop_keeps_button plt before _ H).
    destruct g; reflexivity.
  - unfold window_after. destruct (run_trace_ends_with_enable svc d) as [tr ->].
    apply mainloop_ends_enabled.
Qed.

(** Two reviews: the button is still disabled when the results have been
    presented and the last status is about to be set. *)
Lemma button_disabled_until_the_end :
  let tr := run_trace Cases.stub (Cases.reviews_db ["good"; "bad"]) in
  analyze_button (mainloop Cases.plots (removelast tr) (start_analysis_thread initial_gui))
  = (Disabled, "Analyzing... Please Wait...").
Proof.
  cbv zeta.
  destruct (button_disabled_then_enabled Cases.stub Cases.plots initial_gui
              (Cases.reviews_db ["good"; "bad"])) as [H _].
  apply (H _ [After EnableButton]); reflexivity.
Defined.

(** *** A payload that is not an object *)

Lemma accumulate_error_class r a acc e :
  accumulate r a acc = Raise e -> is_operational e = false.
Proof.
  unfold accumulate. destruct (truthy a); [|discriminate].
  destruct a as [| | | | |d]; simpl; try (intros H; injection H as <-; reflexivity).
  destruct (lookup "aspects" d) as [v|]; [|discriminate].
  destruct v; simpl; try discriminate; intros H; injection H as <-; reflexivity.
Qed.

Lemma accumulate_non_object r a acc :
  truthy a = true -> is_dict a = false ->
  accumulate r a acc
  = Raise (mk_exn AttributeError ("'" ++ type_name a ++ "' object has no attribute 'get'")).
Proof.
  intros Ht Hd. unfold accumulate. rewrite Ht.
  destruct a; try discriminate; reflexivity.
Qed.

Lemma accumulate_all_non_object results :
  existsb (fun ra => andb (truthy (snd ra)) (negb (is_dict (snd ra)))) results = true ->
  forall acc, exists e,
    accumulate_all results acc = Raise e /\ is_operational e = false.
Proof.
  induction results as [|[r a] results IH]; intros H acc; [discriminate|].
  cbn [accumulate_all]. destruct (accumulate r a acc) as [acc'|e] eqn:E.
  - cbn [existsb snd] in H. apply orb_prop in H as [H|H]; [|now apply IH].
    apply andb_prop in H as [Ht Hd]. apply negb_true_iff in Hd.
    rewrite (accumulate_non_object _ _ _ Ht Hd) in E. discriminate.
  - exists e. split; [reflexivity|]. exact (accumulate_error_class _ _ _ _ E).
Qed.

Lemma loop_events_loop svc n rows : forall i k acc,
  forallb loop_event (loop_events svc n i k rows acc) = true.
Proof.
  induction rows as [|row rows IH]; intros i k acc; [reflexivity|].
  cbn [loop_events]. rewrite forallb_app, step_events_loop.
  destruct (accumulate _ _ acc); [apply IH|reflexivity].
Qed.

Lemma mainloop_loop_events plt evs : forall g,
  forallb loop_event evs = true ->
  exists m, mainloop plt evs g = set_status m g.
Proof.
  induction evs as [|e evs IH]; intros g H.
  - exists (status_label g). destruct g; reflexivity.
  - cbn [forallb] in H. apply andb_prop in H as [He H].
    destruct e as [[m| |]|[]|]; try discriminate; cbn [mainloop run_callback].
    + destruct (IH (set_status m g) H) as [m' ->]. now exists m'.
    + now apply IH.
    + now apply IH.
Qed.

Lemma attempted_le svc rows : forall k acc,
  attempted svc k rows acc <= List.length rows.
Proof.
  induction rows as [|row rows IH]; intros k acc; cbn [attempted List.length]; [lia|].
  destruct (accumulate _ _ acc) as [acc'|]; [specialize (IH (S k) acc')|]; lia.
Qed.

Lemma existsb_over_map {A B} (f : A -> B) (p : B -> bool) l :
  existsb p (map f l) = existsb (fun a => p (f a)) l.
Proof. induction l as [|a l IH]; simpl; [reflexivity|now rewrite IH]. Qed.

(** X7.  One review whose payload parses to something that passes [if
    analysis:] and is not an object (a non-empty list or string, a non-zero
    number, [true]) makes the whole run fail, whatever the other reviews are:
    the reviews sent are a prefix of the rows, no summary is requested,
    nothing is handed to the presentation step, and the window ends with
    every tab empty on "An unexpected error occurred: ...". *)
Theorem non_object_analysis_fails_run svc plt g d rows :
  loads d rows -> rows <> [] ->
  existsb (fun a => andb (truthy a) (negb (is_dict a)))
          (map snd (reviewed svc 0 rows)) = true ->
  handed_over (run_trace svc d) = None
  /\ (exists m,
        m <= List.length rows
        /\ requests (run_trace svc d)
           = map (fun row => Extraction (hd VNone row)) (firstn m rows))
  /\ (exists e,
        window_after svc plt g d
        = mk_gui (Normal, button_label)
            ("An unexpected error occurred: " ++ exn_msg e) [] [] [] [] []).
Proof.
  intros Hl Hne Hex. rewrite existsb_over_map in Hex.
  destruct (accumulate_all_non_object _ Hex (mk_acc [] [] [])) as (e & Hacc & Hop).
  assert (after_loop svc rows = [After (SetStatus (diagnostic e))]) as Hafter
    by (unfold after_loop; now rewrite Hacc).
  split; [|split].
  - rewrite (run_presentation svc d rows Hl Hne). unfold presentation. now rewrite Hacc.
  - exists (attempted svc 0 rows (mk_acc [] [] [])). split; [apply attempted_le|].
    rewrite (run_trace_loaded svc d rows Hl Hne), Hafter.
    cbn [requests connecting]. rewrite requests_app, requests_loop_events.
    cbn. now rewrite app_nil_r.
  - exists e. unfold window_after.
    rewrite (run_trace_loaded svc d rows Hl Hne), Hafter.
    cbn [mainloop connecting run_callback]. rewrite mainloop_app.
    destruct (mainloop_loop_events plt _
                (set_status ("Loaded " ++ str_nat (List.length rows) ++ " reviews.")
                   (set_status "Connecting to database 'feedback.db'..."
                      (start_analysis_thread g)))
                (loop_events_loop svc (List.length rows) rows 0 0 (mk_acc [] [] [])))
      as [m ->].
    unfold diagnostic. rewrite Hop. destruct g. reflexivity.
Qed.

(** Three reviews, the second answered with the list [[1]]: the third is
    never sent. *)
Lemma list_payload_stops_the_batch :
  let d := Cases.reviews_db ["good"; "odd"; "bad"] in
  handed_over (run_trace stub_with_list d) = None
  /\ requests (run_trace stub_with_list d)
     = [Extraction (VStr "good"); Extraction (VStr "odd")]
  /\ status_label (window_after stub_with_list Cases.plots initial_gui d)
     = "An unexpected error occurred: 'list' object has no attribute 'get'".
Proof.
  cbv zeta.
  assert (loads (Cases.reviews_db ["good"; "odd"; "bad"])
                (Cases.texts_of ["good"; "odd"; "bad"])) as Hl
    by (eexists; split; reflexivity).
  destruct (non_object_analysis_fails_run stub_with_list Cases.plots initial_gui _ _
              Hl ltac:(discriminate) eq_refl) as (Hh & _ & _).
  split; [exact Hh|]. split; reflexivity.
Defined.

(** *** The summary prompt *)

Lemma counter_update_ok_hashable xs : forall c c',
  counter_update c xs = Ok c' -> forallb hashable xs = true.
Proof.
  induction xs as [|x xs IH]; simpl; intros c c' H; [reflexivity|].
  unfold hashable at 1. destruct (hash_key x) as [h|e]; [|discriminate].
  simpl. exact (IH _ _ H).
Qed.

Lemma counter_update_type_error xs : forall c e,
  counter_update c xs = Raise e -> exn_cls e = TypeError.
Proof.
  induction xs as [|x xs IH]; simpl; intros c e H; [discriminate|].
  destruct x; simpl in H; try (exact (IH _ _ H)); injection H as <-; reflexivity.
Qed.

Lemma hashable_spec v :
  hashable v = false <-> (exists l, v = VList l) \/ (exists d, v = VDict d).
Proof.
  destruct v; simpl; split; intros H; try discriminate; eauto;
    destruct H as [[? H]|[? H]]; discriminate.
Qed.

(** X8.  [create_summary_prompt] returns a prompt exactly when every positive
    and every negative feature can be a key of a Counter; a feature that is a
    list or an object makes it raise a [TypeError], and nothing else does. *)
Theorem create_summary_prompt_raises_on_unhashable counts pos neg :
  (andb (forallb hashable pos) (forallb hashable neg) = true ->
   exists prompt, create_summary_prompt counts pos neg = Ok prompt)
  /\ (andb (forallb hashable pos) (forallb hashable neg) = false ->
      exists e, create_summary_prompt counts pos neg = Raise e
                /\ exn_cls e = TypeError)
  /\ (forall v, hashable v = false <-> (exists l, v = VList l) \/ (exists d, v = VDict d)).
Proof.
  unfold create_summary_prompt, Counter. split; [|split; [|apply hashable_spec]].
  - intros H. apply andb_prop in H as [Hp Hn].
    destruct (counter_update_hashable _ [] Hp) as [pc ->].
    destruct (counter_update_hashable _ [] Hn) as [nc ->]. eauto.
  - intros H.
    destruct (counter_update [] pos) as [pc|e] eqn:Ep.
    + rewrite (counter_update_ok_hashable _ _ _ Ep) in H. simpl in H.
      destruct (counter_update [] neg) as [nc|e] eqn:En.
      * rewrite (counter_update_ok_hashable _ _ _ En) in H. discriminate.
      * exists e. split; [reflexivity|exact (counter_update_type_error _ _ _ En)].
    + exists e. split; [reflexivity|exact (counter_update_type_error _ _ _ Ep)].
Qed.

(** A positive feature that is a list. *)
Lemma create_summary_prompt_list_feature :
  exists e,
    create_summary_prompt [] [VStr "display"; VList [VStr "price"]] [] = Raise e
    /\ exn_cls e = TypeError.
Proof.
  destruct (create_summary_prompt_raises_on_unhashable
              [] [VStr "display"; VList [VStr "price"]] []) as (_ & H & _).
  exact (H eq_refl).
Defined.

Lemma counter_incr_keys k h c :
  map (fun e => snd (fst e)) (counter_incr k h c)
  = if existsb (hkey_eqb h) (map (fun e => snd (fst e)) c)
    then map (fun e => snd (fst e)) c
    else (map (fun e => snd (fst e)) c ++ [h])%list.
Proof.
  induction c as [|[[k' h'] n] c IH]; [reflexivity|].
  cbn [counter_incr map existsb fst snd].
  destruct (hkey_eqb h h'); [reflexivity|].
  cbn [map fst snd orb]. rewrite IH.
  destruct (existsb _ _); reflexivity.
Qed.

Lemma counter_incr_ok k h c :
  hash_key k = Ok h -> counter_ok c -> counter_ok (counter_incr k h c).
Proof.
  intros Hk [Hnd Hall]. split.
  - rewrite counter_incr_keys.
    destruct (existsb _ _) eqn:E; [exact Hnd|].
    apply NoDup_app; [exact Hnd|repeat constructor; intros []|].
    intros x Hin [Heq|[]]. subst x.
    assert (existsb (hkey_eqb h) (map (fun e => snd (fst e)) c) = true) as Hx
      by (apply existsb_exists; exists h; split; [exact Hin|apply hkey_eqb_refl]).
    congruence.
  - clear Hnd. induction c as [|[[k' h'] n] c IH]; cbn [counter_incr].
    + constructor; [split; [exact Hk|cbn; lia]|constructor].
    + inversion Hall as [|? ? [Hh Hn] Hrest]; subst.
      destruct (hkey_eqb h h').
      * constructor; [cbn in *; split; [exact Hh|lia]|exact Hrest].
      * constructor; [split; assumption|now apply IH].
Qed.

Lemma counter_update_ok xs : forall c c',
  counter_ok c -> counter_update c xs = Ok c' -> counter_ok c'.
Proof.
  induction xs as [|x xs IH]; simpl; intros c c' Hc H.
  - now injection H as <-.
  - destruct (hash_key x) as [h|] eqn:E; [|discriminate].
    exact (IH _ _ (counter_incr_ok _ _ _ E Hc) H).
Qed.

Lemma Counter_ok xs c : Counter xs = Ok c -> counter_ok c.
Proof.
  apply counter_update_ok. split; constructor.
Qed.

Lemma count_of_entry k h n c :
  NoDup (map (fun e => snd (fst e)) c) -> In (k, h, n) c -> count_of h c = n.
Proof.
  induction c as [|[[k' h'] n'] c IH]; intros Hnd Hin; [contradiction|].
  cbn [map fst snd] in Hnd. inversion Hnd as [|? ? Hnot Hnd']; subst.
  cbn [count_of]. destruct Hin as [Heq|Hin].
  - injection Heq as -> -> ->. now rewrite hkey_eqb_refl.
  - destruct (hkey_eqb h h') eqn:E; [|now apply IH].
    apply hkey_eqb_eq in E. subst h'. exfalso. apply Hnot.
    apply in_map_iff. exists (k, h, n). auto.
Qed.

Lemma forallb_insert_by_count p x l :
  forallb p (insert_by_count x l) = andb (p x) (forallb p l).
Proof.
  induction l as [|y l IH]; cbn [insert_by_count forallb]; [reflexivity|].
  destruct (Nat.ltb (snd x) (snd y)); cbn [forallb]; [|reflexivity].
  rewrite IH. destruct (p x), (p y); reflexivity.
Qed.

Lemma forallb_weaken {A} (p q : A -> bool) l :
  (forall a, p a = true -> q a = true) -> forallb p l = true -> forallb q l = true.
Proof.
  intros H. induction l as [|a l IH]; simpl; [reflexivity|].
  intros Hp. apply andb_prop in Hp as [Ha Hl]. now rewrite (H _ Ha), IH.
Qed.

Lemma descending_insert_by_count x l :
  descending l = true -> descending (insert_by_count x l) = true.
Proof.
  induction l as [|y l IH]; intros H; [reflexivity|].
  cbn [descending] in H. apply andb_prop in H as [Hy Hl].
  cbn [insert_by_count]. destruct (Nat.ltb (snd x) (snd y)) eqn:E.
  - cbn [descending]. rewrite forallb_insert_by_count, Hy, (IH Hl).
    apply Nat.ltb_lt in E. rewrite (proj2 (Nat.leb_le _ _)) by lia. reflexivity.
  - apply Nat.ltb_ge in E. cbn [descending forallb]. rewrite Hy, Hl.
    rewrite (proj2 (Nat.leb_le _ _) E). cbn [andb]. rewrite andb_true_r.
    apply (forallb_weaken (fun z => Nat.leb (snd z) (snd y))); [|exact Hy].
    intros a Ha. apply Nat.leb_le in Ha. apply Nat.leb_le. lia.
Qed.

Lemma descending_sorted_by_count l : descending (sorted_by_count l) = true.
Proof.
  unfold sorted_by_count. induction l as [|x l IH]; [reflexivity|].
  cbn [fold_right]. now apply descending_insert_by_count.
Qed.

Lemma in_insert_by_count a x l : In a (insert_by_count x l) -> a = x \/ In a l.
Proof.
  induction l as [|y l IH]; cbn [insert_by_count].
  - intros [<-|[]]. now left.
  - destruct (Nat.ltb (snd x) (snd y)).
    + intros [<-|H]; [right; now left|]. destruct (IH H); [now left|right; now right].
    + intros [<-|H]; [now left|now right].
Qed.

Lemma in_sorted_by_count a l : In a (sorted_by_count l) -> In a l.
Proof.
  unfold sorted_by_count. induction l as [|x l IH]; cbn [fold_right]; [auto|].
  intros H. apply in_insert_by_count in H as [->|H]; [now left|right; now apply IH].
Qed.

Lemma descending_firstn n : forall l,
  descending l = true -> descending (firstn n l) = true.
Proof.
  induction n as [|n IH]; intros [|x l] H; try reflexivity.
  cbn [descending] in H. apply andb_prop in H as [Hx Hl].
  cbn [firstn descending]. rewrite (IH _ Hl), andb_true_r.
  clear IH Hl. revert n. induction l as [|y l IHl]; intros [|n]; try reflexivity.
  cbn [forallb] in Hx. apply andb_prop in Hx as [Hy Hx].
  cbn [firstn forallb]. now rewrite Hy, IHl.
Qed.

Lemma in_firstn {A} (a : A) n : forall l, In a (firstn n l) -> In a l.
Proof.
  induction n as [|n IH]; intros [|x l] H; try contradiction.
  destruct H as [<-|H]; [now left|right; now apply IH].
Qed.

Lemma most_common_spec n words c :
  Counter words = Ok c ->
  List.length (most_common n c) <= n
  /\ descending (most_common n c) = true
  /\ (forall k m,
        In (k, m) (most_common n c) ->
        exists h, hash_key k = Ok h
                  /\ m = count (counted_under h) words
                  /\ 1 <= m).
Proof.
  intros Hc. unfold most_common. split; [apply firstn_le_length|].
  split; [apply descending_firstn, descending_sorted_by_count|].
  intros k m Hin. apply in_firstn, in_sorted_by_count in Hin.
  unfold items in Hin. apply in_map_iff in Hin as ([[k' h] m'] & Heq & Hin).
  cbn in Heq. injection Heq as -> ->.
  destruct (Counter_ok _ _ Hc) as [Hnd Hall].
  rewrite Forall_forall in Hall. destruct (Hall _ Hin) as [Hh Hm]. cbn in Hh, Hm.
  exists h. split; [exact Hh|]. split; [|exact Hm].
  rewrite <- (Counter_count_of h _ _ Hc). symmetry. exact (count_of_entry _ _ _ _ Hnd Hin).
Qed.

(** X9.  In the prompt of [create_summary_prompt] the distribution is the
    one of the sentiment counts, and each of the two lists of aspects has at
    most ten entries, most frequent first, each with a feature of the word
    list and the number of times the word list has it. *)
Theorem summary_prompt_top_ten counts pos neg prompt :
  create_summary_prompt counts pos neg = Ok prompt ->
  distribution prompt = items counts
  /\ (List.length (top_positive prompt) <= 10
      /\ descending (top_positive prompt) = true
      /\ forall k m,
           In (k, m) (top_positive prompt) ->
           exists h, hash_key k = Ok h /\ m = count (counted_under h) pos /\ 1 <= m)
  /\ (List.length (top_negative prompt) <= 10
      /\ descending (top_negative prompt) = true
      /\ forall k m,
           In (k, m) (top_negative prompt) ->
           exists h, hash_key k = Ok h /\ m = count (counted_under h) neg /\ 1 <= m).
Proof.
  unfold create_summary_prompt.
  destruct (Counter pos) as [pc|] eqn:Ep; [|discriminate].
  destruct (Counter neg) as [nc|] eqn:En; [|discriminate].
  intros H. injection H as <-. cbn [distribution top_positive top_negative].
  split; [reflexivity|]. split; now apply most_common_spec.
Qed.

(** Twelve different features, one of them three times and one twice. *)
Lemma summary_prompt_top_ten_example :
  let words := map VStr ["a"; "b"; "c"; "b"; "d"; "e"; "f"; "g"; "h"; "i"; "j"; "k";
                         "l"; "c"; "c"] in
  exists prompt,
    create_summary_prompt [] words [] = Ok prompt
    /\ List.length (top_positive prompt) = 10
    /\ firstn 3 (top_positive prompt) = [(VStr "c", 3); (VStr "b", 2); (VStr "a", 1)]
    /\ descending (top_positive prompt) = true.
Proof.
  intros words.
  pose proof (summary_prompt_top_ten [] words []) as H.
  destruct (create_summary_prompt [] words []) as [prompt|e] eqn:E;
    [|vm_compute in E; discriminate].
  destruct (H prompt eq_refl) as (_ & (_ & Hd & _) & _).
  exists prompt. split; [reflexivity|].
  vm_compute in E. injection E as <-.
  split; [reflexivity|]. split; [reflexivity|exact Hd].
Defined.

(** *** The presentation step, tab by tab *)

Lemma join_from_not_str sep words : forall i,
  existsb (fun w => negb (is_str w)) words = true ->
  exists e, join_from i sep words = Raise e /\ exn_cls e = TypeError.
Proof.
  induction words as [|w words IH]; intros i H; [discriminate|].
  cbn [existsb] in H. cbn [join_from].
  destruct w; cbn [is_str negb orb] in H; try (eexists; split; reflexivity).
  destruct words as [|w' words]; [discriminate|].
  destruct (IH (S i) H) as (e & -> & He). eauto.
Qed.

Lemma join_from_strings sep ss : forall i,
  join_from i sep (map VStr ss) = Ok (String.concat sep ss).
Proof.
  induction ss as [|s ss IH]; intros i; [reflexivity|].
  cbn [map join_from String.concat].
  destruct ss as [|s' ss]; [reflexivity|].
  cbn [map] in *. now rewrite IH.
Qed.

(** X10.  A positive feature that is not a string stops the presentation
    step at the positive word cloud, with a [TypeError] of [str.join]: the
    summary and the bar chart are shown, the positive tab is left without any
    widget, and the negative tab and the listing are not touched. *)
Theorem populate_gui_stops_at_non_string_feature plt s counts pos neg results g :
  bar_error plt (keys counts) (values counts) = None ->
  existsb (fun w => negb (is_str w)) pos = true ->
  exists e,
    exn_cls e = TypeError
    /\ populate_gui plt s counts pos neg results g
       = (Raise e,
          mk_gui (analyze_button g) (status_label g) [s]
            [FigureCanvas (BarChart (keys counts) (values counts)
                             (map bar_color (keys counts)))]
            [] (tab_neg_aspects g) (tab_all_reviews g)).
Proof.
  intros Hbar Hpos.
  destruct (join_from_not_str " " pos 0 Hpos) as (e & Hjoin & He).
  exists e. split; [exact He|].
  destruct pos as [|w pos]; [discriminate|].
  unfold populate_gui.
  unfold bind at 1. unfold modify at 1.
  unfold bind at 1. unfold modify at 1.
  unfold bind at 1. unfold draw_sentiment_chart.
  unfold bind at 1. unfold modify at 1. rewrite Hbar. unfold modify at 1.
  unfold bind at 1. unfold draw_word_cloud at 1.
  unfold bind at 1. unfold modify at 1.
  unfold bind at 1. unfold lift at 1. unfold join. rewrite Hjoin.
  destruct g. reflexivity.
Qed.

(** After a run whose one review has a positive aspect with the number 4 as
    its feature: the summary is shown, and neither a word cloud nor the
    listing. *)
Lemma non_string_feature_example :
  let results := [(VStr "r", VDict [("sentiment", VStr "positive")])] in
  exists e,
    populate_gui Cases.plots "summary" [(VStr "positive", HStr "positive", 1)]
      [VInt 4] [] results (start_analysis_thread initial_gui)
    = (Raise e,
       mk_gui (Disabled, "Analyzing... Please Wait...")
         "Ready. (Make sure feedback.db is in the same folder)"
         ["summary"]
         [FigureCanvas (BarChart [VStr "positive"] [1] ["#4CAF50"])]
         [] [] []).
Proof.
  cbv zeta.
  destruct (populate_gui_stops_at_non_string_feature Cases.plots "summary"
              [(VStr "positive", HStr "positive", 1)] [VInt 4] []
              [(VStr "r", VDict [("sentiment", VStr "positive")])]
              (start_analysis_thread initial_gui) eq_refl eq_refl) as (e & _ & H).
  exists e. exact H.
Defined.

(** X11.  When every word of a non-empty list is a string and the word cloud
    can be generated, [draw_word_cloud] replaces the widgets of the tab by one
    canvas whose text is the words joined by single spaces, in the order of
    the list and with every repetition. *)
Theorem draw_word_cloud_joins_words plt tab word words title g :
  generate_error plt (String.concat " " (word :: words)) = None ->
  draw_word_cloud plt tab (map VStr (word :: words)) title g
  = (Ok tt,
     set_children tab
       [FigureCanvas (WordCloudImage (String.concat " " (word :: words)) title)] g).
Proof.
  intros Hgen. unfold draw_word_cloud.
  unfold bind at 1. unfold modify at 1.
  cbn [map]. unfold bind at 1. unfold lift at 1. unfold join.
  change (VStr word :: map VStr words) with (map VStr (word :: words)).
  rewrite join_from_strings, Hgen. unfold modify. destruct tab, g; reflexivity.
Qed.

Lemma draw_word_cloud_example :
  fst (draw_word_cloud Cases.plots TabPosAspects
         (map VStr ["display"; "battery life"; "display"]) "Positive Aspects" initial_gui)
  = Ok tt
  /\ tab_pos_aspects
       (snd (draw_word_cloud Cases.plots TabPosAspects
               (map VStr ["display"; "battery life"; "display"]) "Positive Aspects"
               initial_gui))
     = [FigureCanvas (WordCloudImage "display battery life display" "Positive Aspects")].
Proof.
  rewrite (draw_word_cloud_joins_words Cases.plots TabPosAspects
             "display" ["battery life"; "display"] "Positive Aspects" initial_gui eq_refl).
  split; reflexivity.
Defined.

Lemma shown_headers_listing results : forall i,
  flat_map shown_header (listing i results)
  = map header_text (seq (S i) (List.length results)).
Proof.
  assert (forall l, flat_map shown_header (map aspect_line l) = []) as Hlines
    by (induction l as [|a l IH]; [reflexivity|exact IH]).
  induction results as [|[r a] results IH]; intros i; [reflexivity|].
  cbn [listing]. unfold review_block. rewrite flat_map_app. cbn [flat_map].
  rewrite flat_map_app, Hlines, IH. cbn. unfold header_text.
  now rewrite Nat.add_1_r.
Qed.

(** The window after a run that handed its results over, when the chart and
    the clouds can be drawn. *)
Lemma window_after_drawn svc plt g d rows s counts pos neg results :
  loads d rows -> rows <> [] ->
  handed_over (run_trace svc d) = Some (PopulateGui s counts pos neg results) ->
  draws plt counts pos neg = true ->
  exists wp wn,
    window_after svc plt g d
    = mk_gui (Normal, button_label)
        ("Analysis complete! Processed " ++ str_nat (List.length rows) ++ " reviews.")
        [s]
        [FigureCanvas (BarChart (keys counts) (values counts)
                         (map bar_color (keys counts)))]
        [wp] [wn] (listing 0 results).
Proof.
  intros Hl Hne Hh Hdraw.
  destruct (window_after_presented svc plt g d rows _ _ _ _ _ Hl Hne Hh) as [g1 Hw].
  rewrite (run_presentation svc d rows Hl Hne) in Hh.
  pose proof (presentation_listable _ _ _ _ _ _ _ Hh) as Hlist.
  destruct (populate_gui_spec plt s counts pos neg results g1 Hdraw Hlist)
    as (wp & wn & Hpop & _).
  exists wp, wn. rewrite Hw, Hpop. reflexivity.
Qed.

(** X12.  In the listing of a completed run the headers are "--- REVIEW 1
    ---", "--- REVIEW 2 ---", ... without a gap: the number of a review is its
    place among the reviews listed, not among the rows loaded. *)
Theorem listing_numbered_without_gap svc plt g d rows s counts pos neg results :
  loads d rows -> rows <> [] ->
  handed_over (run_trace svc d) = Some (PopulateGui s counts pos neg results) ->
  draws plt counts pos neg = true ->
  shown_headers (window_after svc plt g d)
  = map header_text (seq 1 (count truthy (map snd (reviewed svc 0 rows))))
  /\ List.length (shown_headers (window_after svc plt g d))
     = List.length (shown_reviews (window_after svc plt g d)).
Proof.
  intros Hl Hne Hh Hdraw.
  destruct (window_after_drawn svc plt g d rows _ _ _ _ _ Hl Hne Hh Hdraw)
    as (wp & wn & Hw).
  rewrite (run_presentation svc d rows Hl Hne) in Hh.
  destruct (presentation_aggregate _ _ _ _ _ _ _ Hh) as (_ & Hres & _).
  unfold shown_headers, shown_reviews. rewrite Hw. cbn [tab_all_reviews].
  rewrite shown_headers_listing. destruct (shown_listing results 0) as (-> & _).
  rewrite !length_map, length_seq, count_map, Hres. split; reflexivity.
Qed.

(** Three reviews, the first with a failing call: the second and the third
    are listed as 1 and 2. *)
Lemma listing_numbered_example :
  shown_headers (window_after Cases.stub Cases.plots initial_gui
                   (Cases.reviews_db ["down"; "good"; "bad"]))
  = [header_text 1; header_text 2].
Proof.
  assert (loads (Cases.reviews_db ["down"; "good"; "bad"])
                (Cases.texts_of ["down"; "good"; "bad"])) as Hl
    by (eexists; split; reflexivity).
  destruct (listing_numbered_without_gap Cases.stub Cases.plots initial_gui _ _
              _ _ _ _ _ Hl ltac:(discriminate) eq_refl eq_refl) as [H _].
  rewrite H. reflexivity.
Defined.

Lemma counter_ok_keys c : counter_ok c -> NoDup (keys c).
Proof.
  intros [Hnd Hall]. unfold keys.
  induction c as [|[[k h] n] c IH]; [constructor|].
  cbn [map fst snd] in *.
  inversion Hnd as [|? ? Hnot Hnd']; subst.
  inversion Hall as [|? ? [Hk _] Hall']; subst. cbn in Hk.
  constructor; [|now apply IH].
  intros Hin. apply in_map_iff in Hin as ([[k' h'] n'] & Heq & Hin).
  cbn in Heq. subst k'. apply Hnot.
  rewrite Forall_forall in Hall'. destruct (Hall' _ Hin) as [Hk' _]. cbn in Hk'.
  assert (h' = h) as -> by congruence.
  apply in_map_iff. exists (k, h, n'). auto.
Qed.

Lemma counter_ok_values c : counter_ok c -> Forall (fun h => 1 <= h) (values c).
Proof.
  intros [_ Hall]. unfold values. rewrite Forall_map.
  eapply Forall_impl; [|exact Hall]. intros e [_ H]. exact H.
Qed.

(** X13.  After a completed run the sentiment tab holds one bar chart: one
    bar per different sentiment, each at least 1 high, green for "positive",
    red for "negative" and amber for anything else, and the heights add up to
    the number of reviews in the listing. *)
Theorem chart_matches_listing svc plt g d rows s counts pos neg results :
  loads d rows -> rows <> [] ->
  handed_over (run_trace svc d) = Some (PopulateGui s counts pos neg results) ->
  draws plt counts pos neg = true ->
  let w := window_after svc plt g d in
  tab_sentiment w
  = [FigureCanvas (BarChart (bar_labels w) (bar_heights w) (bar_colors w))]
  /\ NoDup (bar_labels w)
  /\ List.length (bar_heights w) = List.length (bar_labels w)
  /\ Forall (fun h => 1 <= h) (bar_heights w)
  /\ fold_right Nat.add 0 (bar_heights w) = List.length (shown_reviews w)
  /\ bar_colors w
     = map (fun l => if eq_str l "positive" then "#4CAF50"
                     else if eq_str l "negative" then "#F44336"
                     else "#FFC107") (bar_labels w).
Proof.
  intros Hl Hne Hh Hdraw w.
  destruct (window_after_drawn svc plt g d rows _ _ _ _ _ Hl Hne Hh Hdraw)
    as (wp & wn & Hw).
  rewrite (run_presentation svc d rows Hl Hne) in Hh.
  destruct (presentation_aggregate _ _ _ _ _ _ _ Hh) as (Hagg & Hres & _).
  pose proof (aggregate_total_counted _ _ _ _ Hagg) as Htotal.
  apply aggregate_spec in Hagg as (Hc & _). apply Counter_ok in Hc.
  unfold w, bar_labels, bar_heights, bar_colors, shown_reviews. rewrite Hw.
  cbn [tab_sentiment tab_all_reviews].
  destruct (shown_listing results 0) as (-> & _).
  split; [reflexivity|]. split; [now apply counter_ok_keys|].
  split; [unfold keys, values; now rewrite !length_map|].
  split; [now apply counter_ok_values|].
  split; [|reflexivity].
  rewrite length_map, Hres. exact Htotal.
Qed.

(** Four reviews: two positive, one negative, one with a failing call. *)
Lemma chart_example :
  let w := window_after Cases.stub Cases.plots initial_gui
             (Cases.reviews_db ["good"; "bad"; "down"; "good"]) in
  tab_sentiment w
  = [FigureCanvas (BarChart [VStr "positive"; VStr "negative"] [2; 1]
                     ["#4CAF50"; "#F44336"])]
  /\ List.length (shown_reviews w) = 3.
Proof.
  cbv zeta.
  assert (loads (Cases.reviews_db ["good"; "bad"; "down"; "good"])
                (Cases.texts_of ["good"; "bad"; "down"; "good"])) as Hl
    by (eexists; split; reflexivity).
  destruct (chart_matches_listing Cases.stub Cases.plots initial_gui _ _
              _ _ _ _ _ Hl ltac:(discriminate) eq_refl eq_refl)
    as (Ht & _ & _ & _ & Hsum & _).
  rewrite Ht, <- Hsum. split; reflexivity.
Defined.

(* ===================================================================== *)
(** ** Further properties of the viewer *)
(* ===================================================================== *)

Lemma connect_existing d d1 :
  Sqlite.path_exists (Sqlite.file d) = true ->
  Sqlite.connect d = (Ok tt, d1) ->
  d1 = Sqlite.mk_db (Sqlite.file d) (S (Sqlite.open_connections d)).
Proof.
  unfold Sqlite.connect. destruct (Sqlite.file d) as [c| | |tables]; simpl;
    intros Hex H; try discriminate; now injection H as <-.
Qed.

Lemma connect_raises_sqlite d e d1 :
  Sqlite.connect d = (Raise e, d1) -> is_sqlite_error e = true /\ d1 = d.
Proof.
  unfold Sqlite.connect. destruct (Sqlite.file d) as [[|]| | |tables];
    intros H; try discriminate; injection H as <- <-; auto.
Qed.

Lemma resolve_raises_sqlite wanted cols e :
  Sqlite.resolve wanted cols = Raise e -> is_sqlite_error e = true.
Proof.
  induction wanted as [|c wanted IH]; simpl; [discriminate|].
  destruct (Sqlite.index_of c cols); [|intros H; now injection H as <-].
  destruct (Sqlite.resolve wanted cols); [discriminate|].
  intros H. injection H as <-. now apply IH.
Qed.

Lemma select_raises_sqlite wanted name d e d2 :
  Sqlite.select wanted name d = (Raise e, d2) -> is_sqlite_error e = true.
Proof.
  unfold Sqlite.select. destruct (Sqlite.file d) as [c| | |tables];
    try (intros H; now injection H as <- _).
  destruct (Sqlite.find_table name tables) as [t|]; [|intros H; now injection H as <- _].
  destruct (Sqlite.resolve wanted (Sqlite.columns t)) eqn:E; [discriminate|].
  intros H. injection H as <- _. exact (resolve_raises_sqlite _ _ _ E).
Qed.

Lemma load_feedback_rows s rows :
  viewer_loads (DatabaseTest.v_db s) rows -> rows <> [] ->
  DatabaseTest.load_feedback s
  = (Ok tt, DatabaseTest.mk_state (DatabaseTest.v_db s) true rows (DatabaseTest.dialogs s)).
Proof.
  intros (Hex & d1 & Hc & Hs) Hne.
  pose proof (connect_existing _ _ Hex Hc) as Hd1.
  unfold DatabaseTest.load_feedback.
  cbv [bind DatabaseTest.bind_conn DatabaseTest.set_tree modify gets
       DatabaseTest.v_db DatabaseTest.conn_bound DatabaseTest.tree
       DatabaseTest.dialogs].
  destruct s as [d cb tree dialogs]. cbn [DatabaseTest.v_db] in *.
  rewrite Hex. cbv [negb finally try_except bind DatabaseTest.on_db
                    DatabaseTest.v_db DatabaseTest.conn_bound DatabaseTest.tree
                    DatabaseTest.dialogs modify].
  rewrite Hc, Hs. destruct rows as [|row rows]; [contradiction|].
  rewrite insert_rows_spec.
  cbv [DatabaseTest.v_db DatabaseTest.conn_bound DatabaseTest.tree
       DatabaseTest.dialogs gets Sqlite.close modify].
  rewrite Hd1. destruct d. reflexivity.
Qed.

(** X14.  When the store opens and the query gives rows, [load_feedback]
    replaces whatever the grid held by those rows, in their order, shows no
    dialog and leaves the store and its connections as they were; a second
    load gives the same grid, with no row twice. *)
Theorem load_feedback_shows_rows s rows :
  viewer_loads (DatabaseTest.v_db s) rows -> rows <> [] ->
  fst (DatabaseTest.load_feedback s) = Ok tt
  /\ DatabaseTest.tree (loaded s) = rows
  /\ DatabaseTest.dialogs (loaded s) = DatabaseTest.dialogs s
  /\ DatabaseTest.v_db (loaded s) = DatabaseTest.v_db s
  /\ DatabaseTest.tree (loaded (loaded s)) = rows.
Proof.
  intros Hl Hne. pose proof (load_feedback_rows s rows Hl Hne) as H.
  assert (loaded s
          = DatabaseTest.mk_state (DatabaseTest.v_db s) true rows (DatabaseTest.dialogs s))
    as Hs by (unfold loaded; now rewrite H).
  rewrite H, !Hs. cbn [fst DatabaseTest.tree DatabaseTest.dialogs DatabaseTest.v_db].
  repeat split. unfold loaded.
  rewrite load_feedback_rows with (rows := rows); auto.
Qed.

(** Two reviews, loaded over a grid that held a stale row. *)
Lemma load_feedback_example :
  DatabaseTest.tree
    (loaded (DatabaseTest.mk_state (Cases.reviews_db ["good"; "bad"]) false
               [[VInt 9; VStr "stale"]] []))
  = [[VInt 1; VStr "good"]; [VInt 2; VStr "bad"]].
Proof.
  destruct (load_feedback_shows_rows
              (DatabaseTest.mk_state (Cases.reviews_db ["good"; "bad"]) false
                 [[VInt 9; VStr "stale"]] [])
              [[VInt 1; VStr "good"]; [VInt 2; VStr "bad"]]) as (_ & H & _).
  - split; [reflexivity|]. eexists. split; reflexivity.
  - discriminate.
  - exact H.
Defined.

(** X15.  When the file is there and opening it or the query raises, an
    [sqlite3.DatabaseError] for a file that is not a database included,
    [load_feedback] returns normally, with the grid empty, one more dialog,
    the error dialog "Database Error" with the text of the exception, and as
    many open connections as before. *)
Theorem load_feedback_reports_sqlite_error s e :
  Sqlite.path_exists (Sqlite.file (DatabaseTest.v_db s)) = true ->
  viewer_store_raises (DatabaseTest.v_db s) e ->
  fst (DatabaseTest.load_feedback s) = Ok tt
  /\ DatabaseTest.tree (loaded s) = []
  /\ DatabaseTest.dialogs (loaded s)
     = (DatabaseTest.dialogs s
        ++ [DatabaseTest.ShowError "Database Error"
              ("An error occurred: " ++ exn_msg e ++ nl ++ nl
               ++ "Could not read table 'reviews'.")%string])%list
  /\ Sqlite.open_connections (DatabaseTest.v_db (loaded s))
     = Sqlite.open_connections (DatabaseTest.v_db s).
Proof.
  intros Hex Hraise. unfold loaded, DatabaseTest.load_feedback.
  cbv [bind DatabaseTest.bind_conn DatabaseTest.set_tree modify gets
       DatabaseTest.v_db DatabaseTest.conn_bound DatabaseTest.tree
       DatabaseTest.dialogs].
  destruct s as [d cb tree dialogs]. cbn [DatabaseTest.v_db] in *.
  rewrite Hex. cbv [negb finally try_except bind DatabaseTest.on_db
                    DatabaseTest.v_db DatabaseTest.conn_bound DatabaseTest.tree
                    DatabaseTest.dialogs modify].
  destruct Hraise as [(d1 & Hc)|(d1 & d2 & Hc & Hs)].
  - rewrite Hc. destruct (connect_raises_sqlite _ _ _ Hc) as [-> ->].
    repeat split.
  - rewrite Hc, Hs. rewrite (select_raises_sqlite _ _ _ _ _ Hs).
    pose proof (select_keeps_db _ _ _ _ _ Hs) as ->.
    rewrite (connect_existing _ _ Hex Hc). repeat split.
Qed.

(** A file that is not a database. *)
Lemma load_feedback_not_a_database :
  DatabaseTest.dialogs (viewer_run (Sqlite.mk_db Sqlite.NotADatabase 0))
  = [DatabaseTest.ShowError "Database Error"
       ("An error occurred: file is not a database" ++ nl ++ nl
        ++ "Could not read table 'reviews'.")].
Proof.
  destruct (load_feedback_reports_sqlite_error
              (DatabaseTest.mk_state (Sqlite.mk_db Sqlite.NotADatabase 0) false [] [])
              (mk_exn DatabaseError "file is not a database") eq_refl)
    as (_ & _ & H & _).
  - right. do 2 eexists. split; reflexivity.
  - exact H.
Defined.

(** The pipeline on a store with one review, and the store after it. *)
Lemma run_analysis_releases_example :
  w_db (snd (run_analysis Cases.stub (mk_world (Cases.reviews_db ["good"]) 0 [])))
  = Cases.reviews_db ["good"].
Proof.
  apply (run_analysis_releases_after_read Cases.stub _ (Cases.texts_of ["good"])).
  eexists. split; reflexivity.
Defined.
